(** * umash exact test: the adaptive Monte-Carlo permutation engine

    A shallow embedding of [t/exact_test.py] and [t/exact_test_sampler.py].

    Python values are modelled as follows.
    - [int] is [Z] (unbounded).
    - [float] is an abstract type [F] with the operations the code uses
      (interface [PyFloat]); [ExactArith] instantiates it with reduced
      rationals so that every definition can be evaluated.
    - [dict] is an association list in insertion order with unique keys
      ([dict_get], [dict_set]); [defaultdict] adds a default on lookup.
    - exceptions are values of [Exc]; a fallible computation returns a
      [Run] (raised / value); what [exact_test] does to the outside world
      (lines printed to the log, native calls, starting the sampler) is an
      explicit list of [Event]s.
    - the native library [exact.so] ([EXACT]), [csm], [math.log] and the
      multiprocessing pool are not part of the Python sources; they appear
      as parameters. *)

From Stdlib Require Import ZArith QArith List String Bool Lia Permutation.
Import ListNotations.
Open Scope Z_scope.
Open Scope list_scope.

Set Implicit Arguments.

(* ------------------------------------------------------------------ *)
(** ** Python floats *)

Class PyFloat (F : Type) := {
  (** [x == y]; floats index the outer level of a plan. *)
  feqb : F -> F -> bool;
  (** [x <= y], [x >= y] and [x < y] *)
  fle : F -> F -> bool;
  fge : F -> F -> bool;
  flt : F -> F -> bool;
  (** [x * y] and [x / y] on floats *)
  fmul : F -> F -> F;
  fdiv : F -> F -> F;
  (** [float(i)], the conversion applied to an int operand *)
  of_int : Z -> F;
  (** [i / j] on two ints (true division), for [j <> 0] *)
  truediv : Z -> Z -> F;
  (** a decimal literal such as [1.1] *)
  flit : Q -> F
}.

(* ------------------------------------------------------------------ *)
(** ** Exceptions and fallible computations *)

Inductive Exc : Type :=
| KeyError (key : string)
| ZeroDivisionError
| ValueError (msg : string)
| OverflowError (value : Z)
| AttributeError (attr : string)
| TypeError (msg : string).

(** The operand of a [raise] statement. *)
Inductive PyObj : Type :=
| PyStr (s : string)
| PyException (e : Exc).

(** [raise obj]: only exception instances can be raised; anything else
    makes the interpreter raise a [TypeError] of its own. *)
Definition py_raise (obj : PyObj) : Exc :=
  match obj with
  | PyException e => e
  | PyStr _ => TypeError "exceptions must derive from BaseException"
  end.

Inductive Run (A : Type) : Type :=
| Raise (e : Exc)
| Ok (a : A).
Arguments Raise {A} e.
Arguments Ok {A} a.

Definition bind {A B} (m : Run A) (k : A -> Run B) : Run B :=
  match m with
  | Raise e => Raise e
  | Ok a => k a
  end.

Notation "x <- m ;; k" := (bind m (fun x => k))
  (at level 61, m at next level, right associativity).
Notation "' p <- m ;; k" := (bind m (fun p => k))
  (at level 61, p pattern, m at next level, right associativity).

Fixpoint mapM {A B} (f : A -> Run B) (l : list A) : Run (list B) :=
  match l with
  | [] => Ok []
  | x :: l' => y <- f x ;; ys <- mapM f l' ;; Ok (y :: ys)
  end.

Fixpoint foldM {A S} (f : S -> A -> Run S) (l : list A) (s : S) : Run S :=
  match l with
  | [] => Ok s
  | x :: l' => s' <- f s x ;; foldM f l' s'
  end.

(* ------------------------------------------------------------------ *)
(** ** Python dicts *)

Section PyDict.
Context {K V : Type}.
Variable keqb : K -> K -> bool.

(** [d[k]] as a lookup; [None] is the [KeyError] case. *)
Fixpoint dict_get (d : list (K * V)) (k : K) : option V :=
  match d with
  | [] => None
  | (k', v) :: d' => if keqb k' k then Some v else dict_get d' k
  end.

(** [d[k] = v]: an existing key keeps its position, a new key goes last. *)
Fixpoint dict_set (d : list (K * V)) (k : K) (v : V) : list (K * V) :=
  match d with
  | [] => [(k, v)]
  | (k', v') :: d' =>
      if keqb k' k then (k', v) :: d' else (k', v') :: dict_set d' k v
  end.

(** [k in d] *)
Definition dict_mem (d : list (K * V)) (k : K) : bool :=
  match dict_get d k with
  | Some _ => true
  | None => false
  end.

(** [d[k]] on a [defaultdict] whose factory returns [dflt]. *)
Definition dict_get_default (d : list (K * V)) (k : K) (dflt : V) : V :=
  match dict_get d k with
  | Some v => v
  | None => dflt
  end.
End PyDict.

Definition offsets_eqb (x y : Z * Z) : bool :=
  (fst x =? fst y) && (snd x =? snd y).

(* ------------------------------------------------------------------ *)
(** ** Statistics and plans ([exact_test.py], lines 24-138) *)

Section Statistics.
Context {F : Type} `{PyFloat F}.

Record Result := mkResult {
  actual_value : F;
  judgement : option Z;
  m : Z;
  n : Z;
  num_trials : Z
}.

Record Statistic := mkStatistic {
  name : string;
  probability_a_lower : F;
  a_offset : Z;
  b_offset : Z;
  fn_name : string;
  fn_args : list F
}.

Definition lte_prob (name : string) (p_a_lower : F) (a_offset b_offset : Z) :=
  mkStatistic name p_a_lower a_offset b_offset "exact_test_lte_prob" [].

Definition gt_prob (name : string) (p_a_lower : F) (a_offset b_offset : Z) :=
  mkStatistic name p_a_lower a_offset b_offset "exact_test_gt_prob" [].

Definition mean (name : string) (truncate_tails p_a_lower : F)
    (a_offset b_offset : Z) :=
  mkStatistic name p_a_lower a_offset b_offset
    "exact_test_truncated_mean_diff" [truncate_tails].

Definition quantile (name : string) (q p_a_lower : F) (a_offset b_offset : Z) :=
  mkStatistic name p_a_lower a_offset b_offset "exact_test_quantile_diff" [q].

Definition median (name : string) (p_a_lower : F) (a_offset b_offset : Z) :=
  quantile name (flit 0.5) p_a_lower a_offset b_offset.

Definition q99 (name : string) (p_a_lower : F) (a_offset b_offset : Z) :=
  quantile name (flit 0.99) p_a_lower a_offset b_offset.

(** A plan: [probability_a_lower -> (a_offset, b_offset) -> list]. *)
Definition Bucket := list Statistic.
Definition OffsetPlan := list ((Z * Z) * Bucket).
Definition Plan := list (F * OffsetPlan).

(** The body of the grouping loop:
    [plan[p_a_lower][offsets].append(stat)] on nested defaultdicts. *)
Definition plan_add (plan : Plan) (stat : Statistic) : Plan :=
  let p_a_lower := probability_a_lower stat in
  let offsets := (a_offset stat, b_offset stat) in
  let stats_for_p := dict_get_default feqb plan p_a_lower [] in
  let stats_for_offset := dict_get_default offsets_eqb stats_for_p offsets [] in
  dict_set feqb plan p_a_lower
    (dict_set offsets_eqb stats_for_p offsets (stats_for_offset ++ [stat])).

(** [undefaultdict] rebuilds every level with the same keys in the same
    order, so it is the identity on this representation. *)
Definition _group_statistics_in_plan (statistics : list Statistic) : Plan :=
  fold_left plan_add statistics [].

(** All statistics of an inner mapping, and of a plan, in iteration order. *)
Definition offset_plan_statistics (stats_for_p : OffsetPlan) : list Statistic :=
  flat_map snd stats_for_p.

Definition plan_statistics (plan : Plan) : list Statistic :=
  flat_map (fun entry => offset_plan_statistics (snd entry)) plan.

(** [plan[p][offsets]], the empty list when a key is absent. *)
Definition plan_bucket (plan : Plan) (p : F) (offsets : Z * Z) : Bucket :=
  dict_get_default offsets_eqb (dict_get_default feqb plan p []) offsets [].

(** A statistic belongs under the keys [p] and [offsets]. *)
Definition grouped_under (p : F) (offsets : Z * Z) (stat : Statistic) : bool :=
  feqb (probability_a_lower stat) p
  && offsets_eqb (a_offset stat, b_offset stat) offsets.
End Statistics.

Arguments Result F : clear implicits.
Arguments Statistic F : clear implicits.
Arguments Plan F : clear implicits.
Arguments OffsetPlan F : clear implicits.
Arguments Bucket F : clear implicits.

(* ------------------------------------------------------------------ *)
(** ** The native library and the permutation kernel
       ([exact_test.py], lines 159-244) *)

(** The symbols of [exact.so] that the Python code calls.  A buffer
    [uint64_t[]] is a list of integers.  The PRNG handle is threaded
    explicitly.  [exact_test_shuffle] returns the shuffled buffer and,
    when the C function returns false, the message left in [error_ptr]. *)
Record Kernel (F : Type) := mkKernel {
  Prng : Type;
  exact_test_prng_create : Z -> Prng;
  exact_test_offset_sort :
    Prng -> list Z -> Z -> Z -> Z -> Z -> Prng * list Z;
  exact_test_shuffle :
    Prng -> list Z -> Z -> Z -> F -> Prng * list Z * option string;
  (** [getattr(EXACT, fn_name)] *)
  exact_fn : string -> option (list Z -> Z -> Z -> list F -> F)
}.

Definition len {A} (l : list A) : Z := Z.of_nat (List.length l).

Definition dict_lookup {V} (d : list (string * V)) (key : string) : Run V :=
  match dict_get String.eqb d key with
  | Some v => Ok v
  | None => Raise (KeyError key)
  end.

Section PermutationKernel.
Context {F : Type} `{PyFloat F}.
Variable EXACT : Kernel F.

Definition Sample := (list Z * list Z)%type.
Definition a_class (sample : Sample) := fst sample.
Definition b_class (sample : Sample) := snd sample.

(** One permutation's results: statistic name to value. *)
Definition Values := list (string * F).

(** [buf[i] = x] on a [uint64_t[]]: cffi refuses what does not fit. *)
Definition store_uint64 (x : Z) : Run Z :=
  if (0 <=? x) && (x <? 2 ^ 64) then Ok x else Raise (OverflowError x).

Definition _make_buf (a b : list Z) : Run (list Z) :=
  mapM store_uint64 (a ++ b).

Definition getattr_EXACT (fn_name : string) :=
  match exact_fn EXACT fn_name with
  | Some fn => Ok fn
  | None => Raise (AttributeError fn_name)
  end.

(** [results[stat.name] = getattr(EXACT, stat.fn_name)(buf, m, n, *stat.fn_args)] *)
Definition eval_statistic (buf : list Z) (m n : Z)
    (results : Values) (stat : Statistic F) : Run Values :=
  fn <- getattr_EXACT (fn_name stat) ;;
  Ok (dict_set String.eqb results (name stat) (fn buf m n (fn_args stat))).

Definition _actual_data_results (seed : Z) (sample : Sample)
    (statistics : list (Statistic F)) : Run Values :=
  let a := a_class sample in
  let b := b_class sample in
  let m := len a in
  let n := len b in
  buf <- _make_buf a b ;;
  let copy := buf in
  let xoshiro := exact_test_prng_create EXACT seed in
  let '(_, copy) := exact_test_offset_sort EXACT xoshiro copy m n 0 0 in
  foldM (eval_statistic copy m n) statistics [].

(** The loop over [stats_for_p.items()] inside [compute_results]. *)
Definition compute_offsets (m n : Z) (shuffled_buf : list Z)
    (state : Prng EXACT * Values) (entry : (Z * Z) * Bucket F)
    : Run (Prng EXACT * Values) :=
  let '(xoshiro, results) := state in
  let '((a_offset, b_offset), stats_for_offset) := entry in
  let sorted_buf := shuffled_buf in
  let '(xoshiro, sorted_buf) :=
    exact_test_offset_sort EXACT xoshiro sorted_buf m n a_offset b_offset in
  results <- foldM (eval_statistic sorted_buf m n) stats_for_offset results ;;
  Ok (xoshiro, results).

(** The loop over [grouped_statistics.items()] inside [compute_results]. *)
Definition compute_group (m n : Z) (buf : list Z)
    (state : Prng EXACT * Values) (entry : F * OffsetPlan F)
    : Run (Prng EXACT * Values) :=
  let '(xoshiro, results) := state in
  let '(p_a_lt, stats_for_p) := entry in
  let shuffled_buf := buf in
  let '(xoshiro, shuffled_buf, error) :=
    exact_test_shuffle EXACT xoshiro shuffled_buf m n p_a_lt in
  match error with
  | Some message =>
      Raise (py_raise (PyStr ("Shuffle failed: " ++ message)%string))
  | None =>
      foldM (compute_offsets m n shuffled_buf) stats_for_p (xoshiro, results)
  end.

Definition compute_results (m n : Z) (buf : list Z) (xoshiro : Prng EXACT)
    (grouped_statistics : Plan F) : Run (Prng EXACT * Values) :=
  foldM (compute_group m n buf) grouped_statistics (xoshiro, []).

(** [while True: yield compute_results()], unrolled [count] times: the
    values yielded, ended by the exception when one is raised. *)
Fixpoint resampled_yields (count : nat) (m n : Z) (buf : list Z)
    (xoshiro : Prng EXACT) (grouped_statistics : Plan F) : list (Run Values) :=
  match count with
  | O => []
  | S count' =>
      match compute_results m n buf xoshiro grouped_statistics with
      | Raise e => [Raise e]
      | Ok (xoshiro', results) =>
          Ok results
          :: resampled_yields count' m n buf xoshiro' grouped_statistics
      end
  end.

(** The first [count] pulls of [_resampled_data_results_1]; [seed] is the
    value of [secrets.randbits(64)] handed to [exact_test_prng_seed]. *)
Definition _resampled_data_results_1 (seed : Z) (sample : Sample)
    (grouped_statistics : Plan F) (count : nat) : list (Run Values) :=
  match count with
  | O => []
  | S _ =>
      let a := a_class sample in
      let b := b_class sample in
      match _make_buf a b with
      | Raise e => [Raise e]
      | Ok buf =>
          resampled_yields count (len a) (len b) buf
            (exact_test_prng_create EXACT seed) grouped_statistics
      end
  end.
End PermutationKernel.

(* ------------------------------------------------------------------ *)
(** ** Accumulators and the decision loop ([exact_test.py], lines 366-508) *)

(** The [log] argument of [exact_test]: a file object, or [None]. *)
Inductive LogSink : Type :=
| Stderr
| LogFile (path : string).

Record ResultAccumulator := mkAccumulator {
  trials : Z;
  lte_actual : Z;
  gte_actual : Z
}.

Section DecisionLoop.
Context {F : Type} `{PyFloat F}.
Variable EXACT : Kernel F.
(** [math.log]; [None] stands for [ValueError: math domain error]. *)
Variable math_log : F -> option F.
(** [csm(trials, eps, successes, log_inner_eps)], from the [csm] module. *)
Variable csm : Z -> F -> Z -> F -> bool * F.

(** What the two [print] calls write, before formatting. *)
Inductive LogLine : Type :=
| LogActual (actual_stats : @Values F)
| LogTest (trials : Z) (name : string) (lte_actual gte_actual : Z)
    (level monte_carlo_value actual : F).

(** What [exact_test] does to the outside world, in order: lines printed
    to the log, the native evaluation of the statistics on the actual
    data, and the start of the parallel sampler (whose first pull creates
    the pool and submits the work units). *)
Inductive Event : Type :=
| Printed (sink : LogSink) (line : LogLine)
| ActualComputed
| SamplerStarted.

(** A computation that emits events and then raises or returns. *)
Definition Prog (A : Type) : Type := (list Event * Run A)%type.

Definition pure {A} (a : A) : Prog A := ([], Ok a).
Definition lift {A} (r : Run A) : Prog A := ([], r).
Definition emit (e : Event) : Prog unit := ([e], Ok tt).

Definition pbind {A B} (c : Prog A) (k : A -> Prog B) : Prog B :=
  match c with
  | (out, Raise e) => (out, Raise e)
  | (out, Ok a) => let '(out', r) := k a in (out ++ out', r)
  end.

Notation "x <~ c ;; k" := (pbind c (fun x => k))
  (at level 61, c at next level, right associativity).

Fixpoint pfoldM {A S} (f : S -> A -> Prog S) (l : list A) (s : S) : Prog S :=
  match l with
  | [] => pure s
  | x :: l' => s' <~ f s x ;; pfoldM f l' s'
  end.

(** [if log: print(..., file=log)] *)
Definition print_to (log : option LogSink) (line : LogLine) : Prog unit :=
  match log with
  | Some sink => emit (Printed sink line)
  | None => pure tt
  end.

(** [max(x, y)]: the second argument wins only when it is greater. *)
Definition py_max (x y : F) : F := if flt x y then y else x.

(** [successes / trials < eps] *)
Definition in_tail (successes trials : Z) (eps : F) : Run bool :=
  if trials =? 0 then Raise ZeroDivisionError
  else Ok (flt (truediv successes trials) eps).

Definition with_judgement (partial_result : Result F) (j : Z) : Result F :=
  mkResult (actual_value partial_result) (Some j) (m partial_result)
    (n partial_result) (num_trials partial_result).

Definition _significance_test
    (ret : list (string * Result F)) (eps log_inner_eps : F) (name : string)
    (monte_carlo_value : F) (actual_data : Sample) (actual : F)
    (lte_actual gte_actual trials : Z) (log : option LogSink)
    : Prog (list (string * Result F)) :=
  let '(lt_significant, lt_level) := csm trials eps lte_actual log_inner_eps in
  let '(gt_significant, gt_level) := csm trials eps gte_actual log_inner_eps in
  _ <~ print_to log
         (LogTest trials name lte_actual gte_actual
            (py_max lt_level gt_level) monte_carlo_value actual) ;;
  let partial_result :=
    mkResult actual None (len (a_class actual_data))
      (len (b_class actual_data)) trials in
  let count_in_middle := 0 in
  lift (
    low <- (if lt_significant then in_tail lte_actual trials eps
            else Ok false) ;;
    if low then
      Ok (dict_set String.eqb ret name (with_judgement partial_result (-1)))
    else
      let count_in_middle :=
        if lt_significant then count_in_middle + 1 else count_in_middle in
      high <- (if gt_significant then in_tail gte_actual trials eps
               else Ok false) ;;
      if high then
        Ok (dict_set String.eqb ret name (with_judgement partial_result 1))
      else
        let count_in_middle :=
          if gt_significant then count_in_middle + 1 else count_in_middle in
        if count_in_middle =? 2 then
          Ok (dict_set String.eqb ret name (with_judgement partial_result 0))
        else Ok ret).

(** The state of the [for sample in ...] loop. *)
Record LoopState := mkLoopState {
  accumulators : list (string * ResultAccumulator);
  ret : list (string * Result F);
  seen : Z;
  test_every : Z
}.

(** The three assignments to [current] for one resampled value. *)
Definition count_value (actual stat : F) (current : ResultAccumulator)
    : ResultAccumulator :=
  let current :=
    if fle stat actual
    then mkAccumulator (trials current) (lte_actual current + 1)
           (gte_actual current)
    else current in
  let current :=
    if fge stat actual
    then mkAccumulator (trials current) (lte_actual current)
           (gte_actual current + 1)
    else current in
  mkAccumulator (trials current + 1) (lte_actual current) (gte_actual current).

(** The body of [for name, stat in sample.items()]. *)
Definition count_entry (actual_stats : @Values F)
    (accumulators : list (string * ResultAccumulator)) (entry : string * F)
    : Run (list (string * ResultAccumulator)) :=
  let '(name, stat) := entry in
  actual <- dict_lookup actual_stats name ;;
  current <- dict_lookup accumulators name ;;
  Ok (dict_set String.eqb accumulators name (count_value actual stat current)).

(** The body of [for name, acc in accumulators.items()]. *)
Definition test_entry (eps log_inner_eps : F) (actual_data : Sample)
    (actual_stats sample : @Values F) (log : option LogSink)
    (ret : list (string * Result F)) (entry : string * ResultAccumulator)
    : Prog (list (string * Result F)) :=
  let '(name, acc) := entry in
  if dict_mem String.eqb ret name then pure ret
  else
    monte_carlo_value <~ lift (dict_lookup sample name) ;;
    actual <~ lift (dict_lookup actual_stats name) ;;
    _significance_test ret eps log_inner_eps name monte_carlo_value
      actual_data actual (lte_actual acc) (gte_actual acc) (trials acc) log.

(** [{name: ret[name] for name in actual_stats}] *)
Definition collect_results (actual_stats : @Values F)
    (ret : list (string * Result F)) : Run (list (string * Result F)) :=
  foldM (fun out entry =>
           result <- dict_lookup ret (fst entry) ;;
           Ok (dict_set String.eqb out (fst entry) result))
        actual_stats [].

Inductive LoopStep : Type :=
| Continue (st : LoopState)
| Return (results : list (string * Result F)).

(** One turn of the [for sample in ...] loop. *)
Definition loop_body (eps log_inner_eps : F) (actual_data : Sample)
    (actual_stats : @Values F) (log : option LogSink)
    (st : LoopState) (sample : @Values F) : Prog LoopStep :=
  accumulators <~ lift (foldM (count_entry actual_stats) sample
                          (accumulators st)) ;;
  let seen := seen st + 1 in
  if negb (seen mod test_every st =? 0) then
    pure (Continue (mkLoopState accumulators (ret st) seen (test_every st)))
  else
    let test_every :=
      if seen >=? 40 * test_every st then test_every st * 10
      else test_every st in
    ret <~ pfoldM (test_entry eps log_inner_eps actual_data actual_stats
                     sample log) accumulators (ret st) ;;
    if len ret =? len actual_stats then
      results <~ lift (collect_results actual_stats ret) ;;
      pure (Return results)
    else pure (Continue (mkLoopState accumulators ret seen test_every)).

(** How far [exact_test] got on a finite prefix of the merged stream. *)
Inductive Outcome : Type :=
| Returned (results : list (string * Result F))
| Running (st : LoopState).

(** The loop over the values pulled from the merged stream; a pull can
    raise what a worker or the local generator raised. *)
Fixpoint exact_test_loop (eps log_inner_eps : F) (actual_data : Sample)
    (actual_stats : @Values F) (log : option LogSink)
    (stream : list (Run (@Values F))) (st : LoopState) : Prog Outcome :=
  match stream with
  | [] => pure (Running st)
  | pulled :: stream' =>
      sample <~ lift pulled ;;
      step <~ loop_body eps log_inner_eps actual_data actual_stats log
                st sample ;;
      match step with
      | Continue st' =>
          exact_test_loop eps log_inner_eps actual_data actual_stats log
            stream' st'
      | Return results => pure (Returned results)
      end
  end.

(** [eps /= 2 * num_stats * 1.1] *)
Definition corrected_eps (eps : F) (num_stats : Z) : F :=
  fdiv eps (fmul (of_int (2 * num_stats)) (flit 1.1)).

(** [math.log(eps / 10)] *)
Definition inner_eps_log (eps : F) : Run F :=
  match math_log (fdiv eps (of_int 10)) with
  | Some l => Ok l
  | None => Raise (ValueError "math domain error")
  end.

(** [for stat_name in actual_stats: accumulators[stat_name] = ResultAccumulator()] *)
Definition initial_accumulators (actual_stats : @Values F)
    : list (string * ResultAccumulator) :=
  fold_left (fun accumulators entry =>
               dict_set String.eqb accumulators (fst entry)
                 (mkAccumulator 0 0 0))
            actual_stats [].

(** The plan handed to each new work unit. *)
Definition group_unfathomed_statistics (statistics : list (Statistic F))
    (ret : list (string * Result F)) : Plan F :=
  _group_statistics_in_plan
    (filter (fun stat => negb (dict_mem String.eqb ret (name stat)))
       statistics).

(** [exact_test(a, b, statistics, eps, log)] run against the values
    [stream] that the merged sampler delivers; [seed] is the state of the
    native PRNG seed when the actual statistics are computed. *)
Definition exact_test (seed : Z) (a b : list Z)
    (statistics : list (Statistic F)) (eps : F) (log : option LogSink)
    (stream : list (Run (@Values F))) : Prog Outcome :=
  match statistics with
  | [] => pure (Returned [])
  | _ :: _ =>
      let actual_data : Sample := (a, b) in
      let num_stats := len statistics in
      let eps := corrected_eps eps num_stats in
      log_inner_eps <~ lift (inner_eps_log eps) ;;
      _ <~ emit ActualComputed ;;
      actual_stats <~ lift (_actual_data_results EXACT seed actual_data
                              statistics) ;;
      _ <~ print_to log (LogActual actual_stats) ;;
      let accumulators := initial_accumulators actual_stats in
      let ret := [] in
      let seen := 0 in
      let test_every := 250 in
      _ <~ emit SamplerStarted ;;
      exact_test_loop eps log_inner_eps actual_data actual_stats log stream
        (mkLoopState accumulators ret seen test_every)
  end.

(** The same decision with the high tail examined before the low tail;
    used only to state that the order of the two checks is immaterial. *)
Definition _significance_test_high_first
    (ret : list (string * Result F)) (eps log_inner_eps : F) (name : string)
    (monte_carlo_value : F) (actual_data : Sample) (actual : F)
    (lte_actual gte_actual trials : Z) (log : option LogSink)
    : Prog (list (string * Result F)) :=
  let '(lt_significant, lt_level) := csm trials eps lte_actual log_inner_eps in
  let '(gt_significant, gt_level) := csm trials eps gte_actual log_inner_eps in
  _ <~ print_to log
         (LogTest trials name lte_actual gte_actual
            (py_max lt_level gt_level) monte_carlo_value actual) ;;
  let partial_result :=
    mkResult actual None (len (a_class actual_data))
      (len (b_class actual_data)) trials in
  let count_in_middle := 0 in
  lift (
    high <- (if gt_significant then in_tail gte_actual trials eps
             else Ok false) ;;
    if high then
      Ok (dict_set String.eqb ret name (with_judgement partial_result 1))
    else
      let count_in_middle :=
        if gt_significant then count_in_middle + 1 else count_in_middle in
      low <- (if lt_significant then in_tail lte_actual trials eps
              else Ok false) ;;
      if low then
        Ok (dict_set String.eqb ret name (with_judgement partial_result (-1)))
      else
        let count_in_middle :=
          if lt_significant then count_in_middle + 1 else count_in_middle in
        if count_in_middle =? 2 then
          Ok (dict_set String.eqb ret name (with_judgement partial_result 0))
        else Ok ret).
End DecisionLoop.

(* ------------------------------------------------------------------ *)
(** ** The worker of [exact_test.py] (lines 247-271) *)

Section QueueWorker.
Variable V : Type.

(** The locals of [_generate_in_parallel_worker], the batches put on the
    queue so far, and whether the function has returned. *)
Record WorkerState := mkWorkerState {
  batch : list V;
  batch_size : Z;
  total : Z;
  queue : list (list V);
  returned : bool
}.

(** The body of [for value in generator_fn( *generator_args)]. *)
Definition worker_step (max_batch_size return_after : Z)
    (w : WorkerState) (value : V) : WorkerState :=
  if returned w then w
  else
    let batch := batch w ++ [value] in
    if len batch >=? batch_size w then
      let total := total w + len batch in
      let queue := queue w ++ [batch] in
      if total >=? return_after then
        mkWorkerState batch (batch_size w) total queue true
      else
        let batch_size :=
          if batch_size w <? max_batch_size then batch_size w + 1
          else batch_size w in
        mkWorkerState [] batch_size total queue false
    else mkWorkerState batch (batch_size w) (total w) (queue w) false.

(** The worker run on the first [values] of its generator. *)
Definition _generate_in_parallel_worker (values : list V)
    (initial_batch_size max_batch_size return_after : Z) : WorkerState :=
  fold_left (worker_step max_batch_size return_after) values
    (mkWorkerState [] initial_batch_size 0 [] false).
End QueueWorker.

(** The arguments [(initial_batch_size, max_batch_size, return_after)] of
    the work units that [_generate_in_parallel] of [exact_test.py] submits
    before its loop, for [ncpu = os.cpu_count()] and the default
    [batch_size = 10 * ncpu]: [ncpu] units from [add_work_unit(0)], then
    two from [add_work_unit()]. *)
Definition initial_work_units (ncpu : Z) : list (Z * Z * Z) :=
  let batch_size := 10 * ncpu in
  repeat (0, batch_size, 2 * batch_size) (Z.to_nat ncpu)
  ++ repeat (batch_size, batch_size, 2 * batch_size) 2.

(** The unit submitted for each completed one:
    [add_work_unit(return_after=5 * batch_size)]. *)
Definition next_work_unit (ncpu : Z) : Z * Z * Z :=
  let batch_size := 10 * ncpu in
  (batch_size, batch_size, 5 * batch_size).

(* ------------------------------------------------------------------ *)
(** ** The parallel generator of [exact_test_sampler.py] (lines 140-240) *)

Module exact_test_sampler.

Definition INITIAL_BATCH_SIZE : Z := 10.
Definition MAX_BATCH_SIZE : Z := 100 * 1000.
Definition BATCH_SIZE_GROWTH_FACTOR : Z := 2.

Section Generator.
Context {F : Type} `{PyFloat F}.
Variables V Args : Type.
(** [os.cpu_count() - 1] *)
Variable POOL_SIZE : Z.

Definition PROPORTIONAL_DELAY : F := flit 0.05.
Definition MIN_DELAY : F := flit 0.01.
Definition MAX_DELAY : F := of_int 10.

(** A work unit submitted with [pool.apply_async]: the arguments of
    [_generate_in_parallel_worker], and a number that tells futures apart. *)
Record Future := mkFuture {
  future_id : nat;
  generator_args : Args;
  max_results : Z;
  max_delay : F
}.

(** What one pass of the loop in [fill_pending_list] reads from the
    outside: the size of the pool's task queue, the time elapsed since
    [begin], and the value of [generator_args_fn()]. *)
Record PoolReading := mkPoolReading {
  qsize : Z;
  elapsed : F;
  fresh_args : Args
}.

(** The locals of [_generate_in_parallel] that change. *)
Record Generator := mkGenerator {
  batch_size : Z;
  pending : list Future;
  submitted : nat
}.

Definition max_waiting : Z := 2.

Definition add_work_unit (reading : PoolReading) (g : Generator) : Generator :=
  let delay := fmul PROPORTIONAL_DELAY (elapsed reading) in
  let delay := if flt delay MIN_DELAY then MIN_DELAY else delay in
  let delay := if flt MAX_DELAY delay then MAX_DELAY else delay in
  let future_results :=
    mkFuture (submitted g) (fresh_args reading) (batch_size g) delay in
  mkGenerator (batch_size g) (pending g ++ [future_results]) (S (submitted g)).

Fixpoint fill_pending_loop (count : nat) (readings : list PoolReading)
    (g : Generator) : Generator :=
  match count, readings with
  | S count', reading :: readings' =>
      if qsize reading >=? max_waiting then g
      else fill_pending_loop count' readings' (add_work_unit reading g)
  | _, _ => g
  end.

Definition fill_pending_list (readings : list PoolReading) (g : Generator)
    : Generator :=
  fill_pending_loop (Z.to_nat (POOL_SIZE + max_waiting)) readings g.

(** The partition made by [consume_completed_futures]: (active, completed). *)
Definition consume_completed_futures (ready : nat -> bool)
    (pending : list Future) : list Future * list Future :=
  (filter (fun future => negb (ready (future_id future))) pending,
   filter (fun future => ready (future_id future)) pending).

(** What one turn of [for value in generate_values()] meets: the value
    from the local generator, which futures are ready, what they hold,
    and the readings made while refilling the pending list. *)
Record Turn := mkTurn {
  value : V;
  ready : nat -> bool;
  get : nat -> Run (list V);
  pool : list PoolReading
}.

Definition any_completed (g : Generator) (t : Turn) : bool :=
  match snd (consume_completed_futures (ready t) (pending g)) with
  | [] => false
  | _ :: _ => true
  end.

(** One turn: the values yielded, and the generator afterwards unless a
    completed future re-raises its worker's exception. *)
Definition generate_turn (g : Generator) (t : Turn)
    : list V * Run Generator :=
  let '(active, completed) := consume_completed_futures (ready t) (pending g) in
  match mapM (fun future => get t (future_id future)) completed with
  | Raise e => ([value t], Raise e)
  | Ok results =>
      (value t :: List.concat results,
       Ok (match completed with
           | [] => mkGenerator (batch_size g) active (submitted g)
           | _ :: _ =>
               fill_pending_list (pool t)
                 (mkGenerator
                    (Z.min (BATCH_SIZE_GROWTH_FACTOR * batch_size g)
                       MAX_BATCH_SIZE)
                    active (submitted g))
           end))
  end.

(** The state when the loop is entered, after the first [fill_pending_list()]. *)
Definition generator_start (readings : list PoolReading) : Generator :=
  fill_pending_list readings (mkGenerator INITIAL_BATCH_SIZE [] O).

Fixpoint generate_turns (g : Generator) (turns : list Turn)
    : list V * Run Generator :=
  match turns with
  | [] => ([], Ok g)
  | t :: turns' =>
      match generate_turn g t with
      | (yielded, Raise e) => (yielded, Raise e)
      | (yielded, Ok g') =>
          let '(more, r) := generate_turns g' turns' in (yielded ++ more, r)
      end
  end.

(** [_generate_in_parallel] run for the given turns. *)
Definition _generate_in_parallel (readings : list PoolReading)
    (turns : list Turn) : list V * Run Generator :=
  generate_turns (generator_start readings) turns.

(** The number of turns, among [turns], in which a future had completed. *)
Fixpoint completions (g : Generator) (turns : list Turn) : nat :=
  match turns with
  | [] => O
  | t :: turns' =>
      match snd (generate_turn g t) with
      | Raise _ => O
      | Ok g' =>
          ((if any_completed g t then 1 else 0) + completions g' turns')%nat
      end
  end.
End Generator.
End exact_test_sampler.

(* ------------------------------------------------------------------ *)
(** ** Exact arithmetic: an executable instance of the float interface

    Rationals kept in lowest terms, so that [==] is structural equality.
    Rounding is absent: this instance is the idealised arithmetic in which
    the specification's inequalities are read. *)

Module ExactArith.

Definition eqb (x y : Q) : bool :=
  (Qnum x =? Qnum y) && (Qden x =? Qden y)%positive.
Definition le (x y : Q) : bool := Qle_bool x y.
Definition ge (x y : Q) : bool := Qle_bool y x.
Definition lt (x y : Q) : bool := negb (Qle_bool y x).
Definition mul (x y : Q) : Q := Qred (x * y).
Definition div (x y : Q) : Q := Qred (x / y).
Definition int_div (i j : Z) : Q := Qred (inject_Z i / inject_Z j).

#[global] Instance exact_arith : PyFloat Q := {|
  feqb := eqb;
  fle := le;
  fge := ge;
  flt := lt;
  fmul := mul;
  fdiv := div;
  of_int := inject_Z;
  truediv := int_div;
  flit := Qred
|}.

(** Stand-ins for the functions that live outside the Python sources,
    used only to evaluate the definitions on concrete inputs. *)

(** [math.log]: defined on positive arguments only.  The logarithm itself
    is not rational; its value is only ever handed to [csm], so a fixed
    representative is returned. *)
Definition log (x : Q) : option Q :=
  if lt 0 x then Some (Qred (x - 1)) else None.

(** [csm]: reports significance once 250 trials have been made. *)
Definition csm (trials : Z) (eps : Q) (successes : Z) (log_inner_eps : Q)
    : bool * Q :=
  (250 <=? trials, int_div successes (Z.max 1 trials)).

(** The number of pairs [(x, y)] of [xs] and [ys] with [x <= y]. *)
Definition count_lte (xs ys : list Z) : Z :=
  len (filter (fun xy => fst xy <=? snd xy) (list_prod xs ys)).

(** [exact.so]: the sort and the shuffle leave the buffer as it is and
    advance the PRNG; the shuffle rejects a probability outside [0, 1];
    the only statistic is the probability that A <= B. *)
Definition kernel : Kernel Q :=
  mkKernel
    (fun seed : Z => seed)
    (fun xoshiro buf m n a_offset b_offset => (xoshiro + 1, buf))
    (fun xoshiro buf m n p_a_lower =>
       if le 0 p_a_lower && le p_a_lower 1 then (xoshiro + 1, buf, None)
       else (xoshiro, buf, Some "p_a_lower out of range"%string))
    (fun fn_name =>
       if String.eqb fn_name "exact_test_lte_prob" then
         Some (fun buf m n (_ : list Q) =>
                 int_div
                   (count_lte (firstn (Z.to_nat m) buf)
                      (skipn (Z.to_nat m) buf))
                   (Z.max 1 (m * n)))
       else None).

End ExactArith.

(* ------------------------------------------------------------------ *)
(** ** Concrete inputs on which the statements are instantiated *)

Module Scenario.
Local Open Scope string_scope.

Definition stat_p : Statistic Q := lte_prob "p" (flit 0.5) 0 0.
Definition stat_p_shifted : Statistic Q := lte_prob "p" (flit 0.5) 0 1.
Definition stat_q : Statistic Q := lte_prob "q" (flit 0.25) 0 0.

(** Resampled values: always 0 for "p", always 1 for "q". *)
Definition sample : @Values Q := [("p", 0%Q); ("q", 1%Q)].
Definition stream (count : nat) : list (Run (@Values Q)) :=
  repeat (Ok sample) count.

(** Resampled values for "p" alone. *)
Definition stream_p (count : nat) : list (Run (@Values Q)) :=
  repeat (Ok [("p", 0%Q)]) count.

(** [exact_test] on the stand-ins of [ExactArith]. *)
Definition run :=
  exact_test ExactArith.kernel ExactArith.log ExactArith.csm 0.

(** A [csm] that differs from [ExactArith.csm] wherever [eps] is not
    [1 / 44000]. *)
Definition other_csm (trials : Z) (eps : Q) (successes : Z)
    (log_inner_eps : Q) : bool * Q :=
  if ExactArith.eqb eps (1 # 44000)
  then ExactArith.csm trials eps successes log_inner_eps
  else (true, 0%Q).

(** A generator turn in which the future numbered 0 has completed. *)
Definition turn : exact_test_sampler.Turn nat unit :=
  exact_test_sampler.mkTurn 7%nat (fun id => Nat.eqb id 0)
    (fun _ => Ok [8%nat; 9%nat])
    [exact_test_sampler.mkPoolReading 0 (0 : Q) tt].

End Scenario.

(* ------------------------------------------------------------------ *)
(** ** Predicates used in the statements *)

Section Predicates.
Context {F : Type} `{PyFloat F}.

(** Keys are unique at both levels of a plan. *)
Definition plan_keys_unique (plan : Plan F) : Prop :=
  NoDup (map fst plan)
  /\ forall p stats_for_p,
       In (p, stats_for_p) plan -> NoDup (map fst stats_for_p).

(** A result as the result map may hold it. *)
Definition valid_result (result : Result F) : Prop :=
  (judgement result = Some (-1) \/ judgement result = Some 0
   \/ judgement result = Some 1)
  /\ 0 < num_trials result.

(** The result map at the point an outcome describes. *)
Definition outcome_results (o : @Outcome F) : list (string * Result F) :=
  match o with
  | Returned results => results
  | Running st => ret st
  end.

Definition accumulator_bounds (acc : ResultAccumulator) : Prop :=
  0 <= lte_actual acc <= trials acc /\ 0 <= gte_actual acc <= trials acc.

Definition accumulator_covers (acc : ResultAccumulator) : Prop :=
  trials acc <= lte_actual acc + gte_actual acc.

Definition accumulator_le (acc acc' : ResultAccumulator) : Prop :=
  trials acc <= trials acc' /\ lte_actual acc <= lte_actual acc'
  /\ gte_actual acc <= gte_actual acc'.

(** Every accumulator of the first mapping is still there in the second,
    with no field smaller. *)
Definition accumulators_le
    (accumulators accumulators' : list (string * ResultAccumulator)) : Prop :=
  forall name acc,
    dict_get String.eqb accumulators name = Some acc ->
    exists acc',
      dict_get String.eqb accumulators' name = Some acc'
      /\ accumulator_le acc acc'.

(** Every accumulator of the mapping satisfies [P]; names are unique. *)
Definition accumulators_ok (P : ResultAccumulator -> Prop)
    (accumulators : list (string * ResultAccumulator)) : Prop :=
  NoDup (map fst accumulators)
  /\ forall name acc, In (name, acc) accumulators -> P acc.

(** The accumulator of [name] has seen at least one trial. *)
Definition counted (name : string)
    (accumulators : list (string * ResultAccumulator)) : Prop :=
  forall acc, In (name, acc) accumulators -> 1 <= trials acc.

Definition results_valid (ret : list (string * Result F)) : Prop :=
  forall name result, In (name, result) ret -> valid_result result.

Definition is_print (e : @Event F) : bool :=
  match e with
  | Printed _ _ => true
  | _ => false
  end.

(** The events that are not lines written to the log. *)
Definition silent_events (events : list (@Event F)) : list (@Event F) :=
  filter (fun e => negb (is_print e)) events.
(** What the loop maintains: bounded accumulators under unique names, and
    a result map that holds only valid results. *)
Definition loop_invariant (st : @LoopState F) : Prop :=
  accumulators_ok accumulator_bounds (accumulators st)
  /\ results_valid (ret st).

Definition step_invariant (step : @LoopStep F) : Prop :=
  match step with
  | Continue st => loop_invariant st
  | Return results => results_valid results
  end.

(** The state in which the loop is entered. *)
Definition initial_state (actual_stats : @Values F) : @LoopState F :=
  mkLoopState (initial_accumulators actual_stats) [] 0 250.

(** Two runs that differ by the log only: same outcome, and the same
    events once the printed lines are left out. *)
Definition same_but_log {A} (c c' : @Prog F A) : Prop :=
  snd c = snd c' /\ silent_events (fst c) = silent_events (fst c').

(** A computation that prints nothing. *)
Definition silent {A} (c : @Prog F A) : Prop :=
  Forall (fun e => is_print e = false) (fst c).

End Predicates.

Section JudgementRule.
Context {F : Type} `{PyFloat F}.
Variable csm : Z -> F -> Z -> F -> bool * F.

(** The result map after [_significance_test], as the specification words
    it, for a call with [trials <> 0]. *)
Definition judged (ret : list (string * Result F)) (eps log_inner_eps : F)
    (name : string) (actual_data : Sample) (actual : F)
    (lte_actual gte_actual trials : Z) : list (string * Result F) :=
  let partial_result :=
    mkResult actual None (len (a_class actual_data))
      (len (b_class actual_data)) trials in
  let lt_significant := fst (csm trials eps lte_actual log_inner_eps) in
  let gt_significant := fst (csm trials eps gte_actual log_inner_eps) in
  if lt_significant && flt (truediv lte_actual trials) eps then
    dict_set String.eqb ret name (with_judgement partial_result (-1))
  else if gt_significant && flt (truediv gte_actual trials) eps then
    dict_set String.eqb ret name (with_judgement partial_result 1)
  else if lt_significant && gt_significant then
    dict_set String.eqb ret name (with_judgement partial_result 0)
  else ret.
End JudgementRule.

(* ------------------------------------------------------------------ *)
(** ** Further predicates on the decision loop *)

Section LoopPredicates.
Context {F : Type} `{PyFloat F}.

(** The names of a list, each at its first occurrence, skipping those
    already [seen]. *)
Fixpoint first_occurrences (seen names : list string) : list string :=
  match names with
  | [] => []
  | name :: names' =>
      if existsb (String.eqb name) seen then first_occurrences seen names'
      else name :: first_occurrences (seen ++ [name]) names'
  end.

(** What holds of the keys of the loop's three mappings. *)
Definition loop_keys_invariant (actual_stats : @Values F)
    (st : @LoopState F) : Prop :=
  map fst (accumulators st) = map fst actual_stats
  /\ NoDup (map fst actual_stats)
  /\ NoDup (map fst (ret st))
  /\ incl (map fst (ret st)) (map fst actual_stats).

(** Every entry of the first result map is in the second, unchanged. *)
Definition ret_extends (ret ret' : list (string * Result F)) : Prop :=
  forall name result,
    dict_get String.eqb ret name = Some result ->
    dict_get String.eqb ret' name = Some result.

(** The test period is 250 times a power of ten, and lies between a
    fortieth and a quarter of the samples seen once it has grown. *)
Definition schedule_invariant (st : @LoopState F) : Prop :=
  (exists j : nat, test_every st = 250 * 10 ^ Z.of_nat j)
  /\ 0 <= seen st < 40 * test_every st
  /\ (test_every st = 250 \/ 4 * test_every st <= seen st).
(** Every result of the map reports the sizes of the two classes and the
    value of its statistic on the actual data. *)
Definition reports_actual (actual_data : Sample) (actual_stats : @Values F)
    (ret : list (string * Result F)) : Prop :=
  forall name result,
    In (name, result) ret ->
    m result = len (a_class actual_data)
    /\ n result = len (b_class actual_data)
    /\ dict_get String.eqb actual_stats name = Some (actual_value result).

(** The outcome of one turn, as far as names are concerned. *)
Definition keys_after (actual_stats : @Values F) (st : @LoopState F)
    (step : @LoopStep F) : Prop :=
  match step with
  | Continue st' =>
      loop_keys_invariant actual_stats st'
      /\ ret_extends (ret st) (ret st')
      /\ (List.length (ret st) < List.length actual_stats ->
          List.length (ret st') < List.length actual_stats)%nat
  | Return results =>
      map fst results = map fst actual_stats
      /\ ret_extends (ret st) results
  end.
End LoopPredicates.

(* ------------------------------------------------------------------ *)
(** ** The parallel generator of [exact_test.py] (lines 274-353) *)

Module exact_test_queue.
Section Generator.
Variables V Args : Type.
(** [os.cpu_count()], and [batch_size] ([10 * ncpu] unless given) *)
Variable ncpu : Z.
Variable batch_size : Z.
(** The value of [generator_args_fn()] at each submission, in order. *)
Variable fresh_args : nat -> Args.

(** A work unit submitted with [pool.apply_async]: the arguments of
    [_generate_in_parallel_worker], and a number that tells units apart. *)
Record WorkUnit := mkWorkUnit {
  unit_id : nat;
  generator_args : Args;
  initial_batch_size : Z;
  max_batch_size : Z;
  return_after : Z
}.

Record Generator := mkGenerator {
  pending : list WorkUnit;
  submitted : nat
}.

Definition add_work_unit (initial_batch_size return_after : Z)
    (g : Generator) : Generator :=
  mkGenerator
    (pending g
     ++ [mkWorkUnit (submitted g) (fresh_args (submitted g))
           initial_batch_size batch_size return_after])
    (S (submitted g)).

(** [for _ in range(ncpu): add_work_unit(0)], then
    [for _ in range(2): add_work_unit()]. *)
Definition generator_start : Generator :=
  Nat.iter 2 (add_work_unit batch_size (2 * batch_size))
    (Nat.iter (Z.to_nat ncpu) (add_work_unit 0 (2 * batch_size))
       (mkGenerator [] O)).

(** The partition made by [consume_completed_futures]: (active, completed). *)
Definition consume_completed_futures (ready : nat -> bool)
    (pending : list WorkUnit) : list WorkUnit * list WorkUnit :=
  (filter (fun unit => negb (ready (unit_id unit))) pending,
   filter (fun unit => ready (unit_id unit)) pending).

(** What one turn of [for value in generate_values()] meets: the value
    from the local generator, or the exception it raises; which futures
    are ready; what [future.get(0)] does (the worker returns nothing, or
    has raised); and the batches that [get_nowait()] finds on the queue
    before it finds none. *)
Record Turn := mkTurn {
  value : Run V;
  ready : nat -> bool;
  get : nat -> Run unit;
  queued : list (list V)
}.

(** One turn: the local generator is advanced; a work unit is submitted
    for each completed one; then the value and the queued batches are
    yielded.  An exception of the local generator, or of a completed
    future whose worker raised, ends the generator before anything is
    yielded. *)
Definition generate_turn (g : Generator) (t : Turn)
    : list V * Run Generator :=
  match value t with
  | Raise e => ([], Raise e)
  | Ok value =>
      let '(active, completed) :=
        consume_completed_futures (ready t) (pending g) in
      match mapM (fun unit => get t (unit_id unit)) completed with
      | Raise e => ([], Raise e)
      | Ok results =>
          (value :: List.concat (queued t),
           Ok (fold_left
                 (fun g (_ : unit) =>
                    add_work_unit batch_size (5 * batch_size) g)
                 results (mkGenerator active (submitted g))))
      end
  end.

Fixpoint generate_turns (g : Generator) (turns : list Turn)
    : list V * Run Generator :=
  match turns with
  | [] => ([], Ok g)
  | t :: turns' =>
      match generate_turn g t with
      | (yielded, Raise e) => (yielded, Raise e)
      | (yielded, Ok g') =>
          let '(more, r) := generate_turns g' turns' in (yielded ++ more, r)
      end
  end.

(** [_generate_in_parallel] run for the given turns. *)
Definition _generate_in_parallel (turns : list Turn)
    : list V * Run Generator :=
  generate_turns generator_start turns.

(** The worker arguments of a unit, as [initial_work_units] lists them. *)
Definition unit_parameters (unit : WorkUnit) : Z * Z * Z :=
  (initial_batch_size unit, max_batch_size unit, return_after unit).

(** The worker arguments that the generator submits: the ramp-up units
    start from empty batches, and only units submitted at the start or
    for a completed unit exist. *)
Definition unit_as_submitted (unit : WorkUnit) : Prop :=
  max_batch_size unit = batch_size
  /\ ((initial_batch_size unit = 0 /\ return_after unit = 2 * batch_size)
      \/ (initial_batch_size unit = batch_size
          /\ (return_after unit = 2 * batch_size
              \/ return_after unit = 5 * batch_size))).

(** What a turn yields when nothing raises. *)
Definition turn_values (t : Turn) : list V :=
  match value t with
  | Raise _ => []
  | Ok value => value :: List.concat (queued t)
  end.
End Generator.
End exact_test_queue.

Section QueueWorkerPredicates.
Variable V : Type.

(** What holds of a worker of [exact_test.py] that has consumed the values
    [consumed]. *)
Definition worker_invariant
    (initial_batch_size max_batch_size return_after : Z)
    (consumed : list V) (w : WorkerState V) : Prop :=
  total w = len (List.concat (queue w))
  /\ Forall (fun batch =>
               1 <= len batch
               <= Z.max 1 (Z.max initial_batch_size max_batch_size))
       (queue w)
  /\ batch_size w <= Z.max initial_batch_size max_batch_size
  /\ (returned w = true ->
      return_after <= total w
      /\ exists rest, consumed = List.concat (queue w) ++ rest)
  /\ (returned w = false ->
      consumed = List.concat (queue w) ++ batch w
      /\ len (batch w) < Z.max 1 (batch_size w)
      /\ (queue w = [] \/ total w < return_after)).
End QueueWorkerPredicates.

(* ------------------------------------------------------------------ *)
(** ** The pool worker of [exact_test_sampler.py] (lines 127-137) *)

Module exact_test_sampler_worker.
Section Worker.
Context {F : Type} `{PyFloat F}.
Variable V : Type.
(** Float addition, for [time.monotonic() + max_delay]. *)
Variable fadd : F -> F -> F.
(** [time.monotonic()]: [now 0] is the reading when the worker starts,
    [now k] the reading of the test made with [k] results in hand. *)
Variable now : nat -> F.

(** The loop over the values of the generator, each of which the
    generator yields or fails to yield with an exception; [None] is the
    [None] that the function returns when the generator is exhausted
    before either limit is met. *)
Fixpoint worker_loop (max_results : Z) (end_ : F) (results : list V)
    (values : list (Run V)) : Run (option (list V)) :=
  match values with
  | [] => Ok None
  | Raise e :: _ => Raise e
  | Ok value :: values' =>
      let results := results ++ [value] in
      if (len results >=? max_results)
         || fge (now (List.length results)) end_
      then Ok (Some results)
      else worker_loop max_results end_ results values'
  end.

Definition _generate_in_parallel_worker (values : list (Run V))
    (max_results : Z) (max_delay : F) : Run (option (list V)) :=
  let results := [] in
  let end_ := fadd (now O) max_delay in
  worker_loop max_results end_ results values.

(** The test that ends the loop, with [k] results in hand. *)
Definition limit_met (max_results : Z) (max_delay : F) (k : nat) : bool :=
  (Z.of_nat k >=? max_results) || fge (now k) (fadd (now O) max_delay).
End Worker.
End exact_test_sampler_worker.

(* ------------------------------------------------------------------ *)
(** ** Predicates on the generator of [exact_test_sampler.py] *)

Section SamplerPredicates.
Context {F : Type} `{PyFloat F}.
Variable Args : Type.

(** A future asks its worker for between [INITIAL_BATCH_SIZE] results and
    the given batch size. *)
Definition future_bounded (batch_size : Z)
    (future : @exact_test_sampler.Future F Args) : Prop :=
  exact_test_sampler.INITIAL_BATCH_SIZE
  <= exact_test_sampler.max_results future <= batch_size.

(** The delay of a future is neither below [MIN_DELAY] nor above
    [MAX_DELAY]. *)
Definition delay_clamped (future : @exact_test_sampler.Future F Args) : Prop :=
  flt (exact_test_sampler.max_delay future) exact_test_sampler.MIN_DELAY
  = false
  /\ flt exact_test_sampler.MAX_DELAY (exact_test_sampler.max_delay future)
     = false.

(** The batch size stays between its initial value and its cap, and no
    pending future asks for more than the current batch size. *)
Definition sampler_invariant (g : @exact_test_sampler.Generator F Args)
    : Prop :=
  exact_test_sampler.INITIAL_BATCH_SIZE <= exact_test_sampler.batch_size g
  <= exact_test_sampler.MAX_BATCH_SIZE
  /\ Forall (future_bounded (exact_test_sampler.batch_size g))
       (exact_test_sampler.pending g).
End SamplerPredicates.

(* ------------------------------------------------------------------ *)
(** ** Predicates on plans, on failures and on test turns *)

Section PlanPredicates.
Context {F : Type} `{PyFloat F}.

(** No key of the plan is [==] to a key that comes after it, and the
    pairs of offsets under a key are distinct. *)
Definition plan_keys_distinct (plan : Plan F) : Prop :=
  ForallOrdPairs (fun p p' => feqb p p' = false) (map fst plan)
  /\ forall p stats_for_p,
       In (p, stats_for_p) plan -> NoDup (map fst stats_for_p).

(** Every statistic of the plan is found under a key that is [==] to its
    [probability_a_lower], or is that very value, and under its own pair
    of offsets. *)
Definition plan_keyed (plan : Plan F) : Prop :=
  forall p stats_for_p offsets bucket stat,
    In (p, stats_for_p) plan -> In (offsets, bucket) stats_for_p ->
    In stat bucket ->
    (feqb p (probability_a_lower stat) = true
     \/ p = probability_a_lower stat)
    /\ offsets = (a_offset stat, b_offset stat).

(** A statistic under another name. *)
Definition renamed (rename : string -> string) (stat : Statistic F)
    : Statistic F :=
  mkStatistic (rename (name stat)) (probability_a_lower stat)
    (a_offset stat) (b_offset stat) (fn_name stat) (fn_args stat).
End PlanPredicates.

(** Two computations raise the same exception, or both return. *)
Definition same_failure {A B} (r : Run A) (r' : Run B) : Prop :=
  match r, r' with
  | Raise e, Raise e' => e = e'
  | Ok _, Ok _ => True
  | _, _ => False
  end.

Section TestTurn.
Context {F : Type} `{PyFloat F}.
Variable csm : Z -> F -> Z -> F -> bool * F.

(** What a test turn makes of the result map, one accumulator at a time:
    a name that has a result is skipped, any other name is judged by the
    rule, with [csm] applied to the given [eps] and [log_inner_eps]. *)
Definition judge_entry (eps log_inner_eps : F) (actual_data : Sample)
    (actual_stats : @Values F) (ret : list (string * Result F))
    (entry : string * ResultAccumulator) : list (string * Result F) :=
  let '(name, acc) := entry in
  if dict_mem String.eqb ret name then ret
  else
    match dict_get String.eqb actual_stats name with
    | Some actual =>
        judged csm ret eps log_inner_eps name actual_data actual
          (lte_actual acc) (gte_actual acc) (trials acc)
    | None => ret
    end.

Definition judge_all (eps log_inner_eps : F) (actual_data : Sample)
    (actual_stats : @Values F)
    (accumulators : list (string * ResultAccumulator))
    (ret : list (string * Result F)) : list (string * Result F) :=
  fold_left (judge_entry eps log_inner_eps actual_data actual_stats)
    accumulators ret.
End TestTurn.

(* ------------------------------------------------------------------ *)
(** ** Floats with a NaN: an executable instance of the float interface

    [None] is NaN: every comparison with it is false, and arithmetic on
    it gives NaN. *)

Module NanArith.

Definition compare2 (f : Q -> Q -> bool) (x y : option Q) : bool :=
  match x, y with
  | Some x, Some y => f x y
  | _, _ => false
  end.

Definition arith2 (f : Q -> Q -> Q) (x y : option Q) : option Q :=
  match x, y with
  | Some x, Some y => Some (f x y)
  | _, _ => None
  end.

#[global] Instance nan_arith : PyFloat (option Q) := {|
  feqb := compare2 ExactArith.eqb;
  fle := compare2 ExactArith.le;
  fge := compare2 ExactArith.ge;
  flt := compare2 ExactArith.lt;
  fmul := arith2 ExactArith.mul;
  fdiv := arith2 ExactArith.div;
  of_int := fun i => Some (inject_Z i);
  truediv := fun i j => Some (ExactArith.int_div i j);
  flit := fun q => Some (Qred q)
|}.

(** [math.log]: NaN on NaN, otherwise as [ExactArith.log]. *)
Definition log (x : option Q) : option (option Q) :=
  match x with
  | None => Some None
  | Some x =>
      match ExactArith.log x with
      | Some l => Some (Some l)
      | None => None
      end
  end.

Definition csm (trials : Z) (eps : option Q) (successes : Z)
    (log_inner_eps : option Q) : bool * option Q :=
  (250 <=? trials, Some (ExactArith.int_div successes (Z.max 1 trials))).

(** [exact.so] as in [ExactArith.kernel]. *)
Definition kernel : Kernel (option Q) :=
  mkKernel
    (fun seed : Z => seed)
    (fun xoshiro buf m n a_offset b_offset => (xoshiro + 1, buf))
    (fun xoshiro buf m n p_a_lower =>
       if fle (Some 0%Q) p_a_lower && fle p_a_lower (Some 1%Q)
       then (xoshiro + 1, buf, None)
       else (xoshiro, buf, Some "p_a_lower out of range"%string))
    (fun fn_name =>
       if String.eqb fn_name "exact_test_lte_prob" then
         Some (fun buf m n (_ : list (option Q)) =>
                 Some (ExactArith.int_div
                         (ExactArith.count_lte (firstn (Z.to_nat m) buf)
                            (skipn (Z.to_nat m) buf))
                         (Z.max 1 (m * n))))
       else None).

End NanArith.

(* ------------------------------------------------------------------ *)
(** ** Further concrete inputs *)

Module Cases.
Local Open Scope string_scope.

(** A [csm] that reports significance only for a tail that no resampled
    value has reached, once 250 trials have been made. *)
Definition strict_csm (trials : Z) (eps : Q) (successes : Z)
    (log_inner_eps : Q) : bool * Q :=
  ((250 <=? trials)%Z && (successes =? 0)%Z, 0%Q).

(** [exact_test] with that [csm]. *)
Definition strict_run :=
  exact_test ExactArith.kernel ExactArith.log strict_csm 0.

(** Resampled values for "q" alone. *)
Definition stream_q (count : nat) : list (Run (@Values Q)) :=
  repeat (Ok [("q", 1%Q)]) count.

(** Turns of the generator of [exact_test.py]: one in which the work unit
    numbered 0 has completed, and one in which its worker has raised. *)
Definition queue_turn : exact_test_queue.Turn nat :=
  exact_test_queue.mkTurn (Ok 7%nat) (fun id => Nat.eqb id 0)
    (fun _ => Ok tt) [[8%nat; 9%nat]].

Definition failing_turn : exact_test_queue.Turn nat :=
  exact_test_queue.mkTurn (Ok 10%nat) (fun id => Nat.eqb id 1)
    (fun _ => Raise (TypeError "exceptions must derive from BaseException"))
    [[11%nat]].

(** A clock that advances by one second per value. *)
Definition clock (k : nat) : Q := inject_Z (Z.of_nat k).

(** Readings of the pool: an empty task queue at three different times,
    then a full one. *)
Definition readings : list (exact_test_sampler.PoolReading unit) :=
  [exact_test_sampler.mkPoolReading 0 (0 : Q) tt;
   exact_test_sampler.mkPoolReading 0 (100 : Q) tt;
   exact_test_sampler.mkPoolReading 1 (1000 : Q) tt;
   exact_test_sampler.mkPoolReading 2 (1000 : Q) tt].

(** Resampled values for "p" below and above the actual value 1. *)
Definition stream_low (count : nat) : list (Run (@Values Q)) :=
  repeat (Ok [("p", 0%Q)]) count.
Definition stream_high (count : nat) : list (Run (@Values Q)) :=
  repeat (Ok [("p", 2%Q)]) count.

(** A statistic for the floats with a NaN, and resampled values that are
    NaN. *)
Definition nan_stat : Statistic (option Q) :=
  lte_prob "p" (Some (1 # 2)) 0 0.
Definition nan_stream (count : nat) : list (Run (@Values (option Q))) :=
  repeat (Ok [("p", None)]) count.
End Cases.

(* ================================================================== *)
(** * Properties *)

Unset Implicit Arguments.

(* ------------------------------------------------------------------ *)
(** ** Python dicts *)

Section PyDictFacts.
Context {K V : Type}.
Variable keqb : K -> K -> bool.

Lemma dict_get_In (d : list (K * V)) k v :
  dict_get keqb d k = Some v -> exists k', In (k', v) d /\ keqb k' k = true.
Proof.
  induction d as [|[k0 v0] d IH]; simpl; [discriminate|].
  destruct (keqb k0 k) eqn:E; intros Hg.
  - injection Hg as <-. exists k0. auto.
  - destruct (IH Hg) as [k' [Hin Hk]]. exists k'. auto.
Qed.

Lemma In_dict_set (d : list (K * V)) k v k' v' :
  In (k', v') (dict_set keqb d k v) ->
  v' = v /\ (k' = k \/ keqb k' k = true) \/ In (k', v') d.
Proof.
  induction d as [|[k0 v0] d IH]; simpl.
  - intros [Heq|[]]. injection Heq as <- <-. auto.
  - destruct (keqb k0 k) eqn:E; simpl; intros [Heq|Hin]; auto.
    + injection Heq as <- <-. auto.
    + destruct (IH Hin) as [?|?]; auto.
Qed.

(** Replacing the value under a key moves exactly the old value's content
    out and the new value's content in, whatever the content is. *)
Lemma flat_map_dict_set {X} (f : V -> list X) (dflt : V)
    (d : list (K * V)) k v :
  f dflt = [] ->
  Permutation
    (f (dict_get_default keqb d k dflt)
       ++ flat_map (fun e => f (snd e)) (dict_set keqb d k v))
    (f v ++ flat_map (fun e => f (snd e)) d).
Proof.
  intros Hd. unfold dict_get_default.
  induction d as [|[k0 v0] d IH]; simpl.
  - rewrite Hd. reflexivity.
  - destruct (keqb k0 k) eqn:E; simpl.
    + apply Permutation_app_swap_app.
    + rewrite Permutation_app_swap_app.
      rewrite (Permutation_app_swap_app (f v) (f v0)).
      apply Permutation_app_head. exact IH.
Qed.

Hypothesis keqb_eq : forall x y, keqb x y = true <-> x = y.

Lemma keqb_refl k : keqb k k = true.
Proof. apply keqb_eq. reflexivity. Qed.

Lemma keqb_neq k k' : k <> k' -> keqb k k' = false.
Proof.
  intros Hn. destruct (keqb k k') eqn:E; [|reflexivity].
  apply keqb_eq in E. contradiction.
Qed.

Lemma dict_get_set (d : list (K * V)) k v k' :
  dict_get keqb (dict_set keqb d k v) k'
  = if keqb k k' then Some v else dict_get keqb d k'.
Proof.
  induction d as [|[k0 v0] d IH]; simpl.
  - destruct (keqb k k'); reflexivity.
  - destruct (keqb k0 k) eqn:E; simpl.
    + apply keqb_eq in E. subst k0. destruct (keqb k k'); reflexivity.
    + destruct (keqb k0 k') eqn:E'.
      * apply keqb_eq in E'. subst k0.
        destruct (keqb k k') eqn:E2; [|reflexivity].
        apply keqb_eq in E2. subst k. rewrite keqb_refl in E. discriminate.
      * exact IH.
Qed.

Lemma dict_set_keys (d : list (K * V)) k v :
  map fst (dict_set keqb d k v)
  = if dict_mem keqb d k then map fst d else map fst d ++ [k].
Proof.
  unfold dict_mem.
  induction d as [|[k0 v0] d IH]; simpl; [reflexivity|].
  destruct (keqb k0 k) eqn:E; simpl; [reflexivity|].
  rewrite IH. destruct (dict_get keqb d k); reflexivity.
Qed.

Lemma dict_get_None (d : list (K * V)) k :
  dict_get keqb d k = None -> ~ In k (map fst d).
Proof.
  induction d as [|[k0 v0] d IH]; simpl; [tauto|].
  destruct (keqb k0 k) eqn:E; [discriminate|].
  intros Hg [Heq|Hin]; [|exact (IH Hg Hin)].
  subst k0. rewrite keqb_refl in E. discriminate.
Qed.

Lemma NoDup_dict_set (d : list (K * V)) k v :
  NoDup (map fst d) -> NoDup (map fst (dict_set keqb d k v)).
Proof.
  intros Hnd. rewrite dict_set_keys. unfold dict_mem.
  destruct (dict_get keqb d k) eqn:E; [exact Hnd|].
  apply NoDup_app; [exact Hnd|repeat constructor; auto|].
  intros x Hx [<-|[]]. exact (dict_get_None _ _ E Hx).
Qed.

Lemma In_dict_get (d : list (K * V)) k v :
  NoDup (map fst d) -> In (k, v) d -> dict_get keqb d k = Some v.
Proof.
  induction d as [|[k0 v0] d IH]; simpl; [tauto|].
  intros Hnd [Heq|Hin].
  - injection Heq as -> ->. rewrite keqb_refl. reflexivity.
  - inversion Hnd as [|? ? Hnot Hnd']; subst.
    destruct (keqb k0 k) eqn:E.
    + apply keqb_eq in E. subst k0. exfalso. apply Hnot.
      apply (in_map fst) in Hin. exact Hin.
    + apply IH; assumption.
Qed.
End PyDictFacts.

Lemma offsets_eqb_eq (x y : Z * Z) : offsets_eqb x y = true <-> x = y.
Proof.
  unfold offsets_eqb. destruct x as [x1 x2], y as [y1 y2]. simpl.
  rewrite andb_true_iff, !Z.eqb_eq. split.
  - intros [-> ->]. reflexivity.
  - intros Heq. injection Heq as -> ->. auto.
Qed.

(* ------------------------------------------------------------------ *)
(** ** Grouping statistics in a plan *)

Section DictSetFacts.
Context {K V : Type}.
Variable keqb : K -> K -> bool.

(** The entry that [d[k] = v] writes: a new one under [k] when the lookup
    of [k] finds nothing, otherwise the one that the lookup finds. *)
Lemma In_dict_set_found (d : list (K * V)) k v k' v' :
  In (k', v') (dict_set keqb d k v) ->
  (v' = v
   /\ ((dict_get keqb d k = None /\ k' = k)
       \/ exists v0, In (k', v0) d /\ keqb k' k = true
                     /\ dict_get keqb d k = Some v0))
  \/ In (k', v') d.
Proof.
  induction d as [|[k0 v0] d IH]; simpl.
  - intros [Heq|[]]. injection Heq as <- <-. auto.
  - destruct (keqb k0 k) eqn:E; simpl; intros [Heq|Hin].
    + injection Heq as <- <-. left. split; [reflexivity|]. right.
      exists v0. auto.
    + auto.
    + injection Heq as <- <-. auto.
    + destruct (IH Hin) as [[-> [[Hnone ->]|[v1 [Hin1 [Hk Hget]]]]]|Hold].
      * left. auto.
      * left. split; [reflexivity|]. right. exists v1. auto.
      * auto.
Qed.

Lemma dict_get_None_keys (d : list (K * V)) k :
  dict_get keqb d k = None -> Forall (fun k' => keqb k' k = false) (map fst d).
Proof.
  induction d as [|[k0 v0] d IH]; simpl; [constructor|].
  destruct (keqb k0 k) eqn:E; [discriminate|].
  intros Hget. constructor; [exact E|exact (IH Hget)].
Qed.

Lemma ForallOrdPairs_snoc {A} (R : A -> A -> Prop) (l : list A) x :
  ForallOrdPairs R l -> Forall (fun y => R y x) l ->
  ForallOrdPairs R (l ++ [x]).
Proof.
  induction 1 as [|a l Ha Hl IH]; simpl; intros Hall.
  - constructor; constructor.
  - inversion Hall as [|? ? Hax Hlx]; subst. constructor.
    + apply Forall_app. split; [exact Ha|]. constructor; [exact Hax|constructor].
    + exact (IH Hlx).
Qed.

Lemma dict_set_keys_distinct (d : list (K * V)) k v :
  ForallOrdPairs (fun k1 k2 => keqb k1 k2 = false) (map fst d) ->
  ForallOrdPairs (fun k1 k2 => keqb k1 k2 = false)
    (map fst (dict_set keqb d k v)).
Proof.
  intros Hd. rewrite dict_set_keys. unfold dict_mem.
  destruct (dict_get keqb d k) eqn:E; [exact Hd|].
  apply ForallOrdPairs_snoc; [exact Hd|].
  exact (dict_get_None_keys _ _ E).
Qed.
End DictSetFacts.

Section PlanFacts.
Context {F : Type} `{PyFloat F}.

Lemma plan_add_statistics (plan : Plan F) (stat : Statistic F) :
  Permutation (plan_statistics (plan_add plan stat))
              (plan_statistics plan ++ [stat]).
Proof.
  unfold plan_add, plan_statistics.
  set (p := probability_a_lower stat).
  set (offsets := (a_offset stat, b_offset stat)).
  set (stats_for_p := dict_get_default feqb plan p []).
  set (bucket := dict_get_default offsets_eqb stats_for_p offsets []).
  pose proof (flat_map_dict_set offsets_eqb (fun b : Bucket F => b) []
                stats_for_p offsets (bucket ++ [stat]) eq_refl) as Hin.
  cbv beta in Hin. fold bucket in Hin.
  rewrite <- app_assoc in Hin. apply Permutation_app_inv_l in Hin.
  pose proof (flat_map_dict_set feqb (@offset_plan_statistics F) [] plan p
                (dict_set offsets_eqb stats_for_p offsets (bucket ++ [stat]))
                eq_refl) as Hout.
  fold stats_for_p in Hout.
  unfold offset_plan_statistics at 1 3 in Hout.
  rewrite Hin in Hout.
  rewrite (Permutation_app_comm [stat]) in Hout.
  rewrite <- app_assoc in Hout. apply Permutation_app_inv_l in Hout.
  rewrite Hout. apply Permutation_app_comm.
Qed.

Lemma fold_plan_add_statistics (statistics : list (Statistic F)) plan :
  Permutation (plan_statistics (fold_left plan_add statistics plan))
              (plan_statistics plan ++ statistics).
Proof.
  revert plan. induction statistics as [|stat statistics IH]; intros plan.
  - simpl. rewrite app_nil_r. reflexivity.
  - simpl. rewrite IH, plan_add_statistics, <- app_assoc. reflexivity.
Qed.

(** What holds of the keys whatever [==] does on floats. *)
Lemma stats_for_p_NoDup (plan : Plan F) p :
  (forall p' stats_for_p,
     In (p', stats_for_p) plan -> NoDup (map fst stats_for_p)) ->
  NoDup (map fst (dict_get_default feqb plan p [])).
Proof.
  intros Hin. unfold dict_get_default.
  destruct (dict_get feqb plan p) as [stats_for_p|] eqn:E; [|constructor].
  apply dict_get_In in E. destruct E as [k' [E _]]. exact (Hin _ _ E).
Qed.

Lemma plan_add_keys_distinct (plan : Plan F) stat :
  plan_keys_distinct plan -> plan_keys_distinct (plan_add plan stat).
Proof.
  intros [Hout Hin]. unfold plan_add. split.
  - apply dict_set_keys_distinct. exact Hout.
  - intros p stats_for_p Hmem.
    apply In_dict_set in Hmem. destruct Hmem as [[-> _]|Hmem].
    + apply NoDup_dict_set; [exact offsets_eqb_eq|].
      apply stats_for_p_NoDup. exact Hin.
    + exact (Hin _ _ Hmem).
Qed.

Lemma plan_add_keyed (plan : Plan F) stat :
  plan_keyed plan -> plan_keyed (plan_add plan stat).
Proof.
  intros Hk p' stats_for_p' offsets' bucket' stat' Hp Ho Hs.
  unfold plan_add in Hp. apply In_dict_set_found in Hp.
  destruct Hp as [[-> Hkey]|Hp]; [|exact (Hk _ _ _ _ _ Hp Ho Hs)].
  assert (Hold : forall offsets0 bucket0,
            In (offsets0, bucket0)
              (dict_get_default feqb plan (probability_a_lower stat) []) ->
            In stat' bucket0 ->
            (feqb p' (probability_a_lower stat') = true
             \/ p' = probability_a_lower stat')
            /\ offsets0 = (a_offset stat', b_offset stat')).
  { intros offsets0 bucket0 Ho0 Hs0. unfold dict_get_default in Ho0.
    destruct Hkey as [[Hnone _]|[v0 [Hin0 [_ Hget]]]].
    - rewrite Hnone in Ho0. destruct Ho0.
    - rewrite Hget in Ho0. exact (Hk _ _ _ _ _ Hin0 Ho0 Hs0). }
  apply In_dict_set in Ho. destruct Ho as [[-> Hoff]|Ho];
    [|exact (Hold _ _ Ho Hs)].
  assert (offsets' = (a_offset stat, b_offset stat)) as ->.
  { destruct Hoff as [Heq|Heq]; [exact Heq|].
    apply offsets_eqb_eq. exact Heq. }
  apply in_app_or in Hs. destruct Hs as [Hs|[<-|[]]].
  - unfold dict_get_default in Hs at 1.
    destruct (dict_get offsets_eqb _ (a_offset stat, b_offset stat))
      as [bucket|] eqn:Eb; [|destruct Hs].
    apply dict_get_In in Eb. destruct Eb as [o' [Eb Ho']].
    apply offsets_eqb_eq in Ho'. subst o'.
    exact (Hold _ _ Eb Hs).
  - split; [|reflexivity].
    destruct Hkey as [[_ ->]|[v0 [_ [Hfeq _]]]]; auto.
Qed.

Lemma fold_plan_add_keys_distinct (statistics : list (Statistic F)) plan :
  plan_keys_distinct plan ->
  plan_keys_distinct (fold_left plan_add statistics plan).
Proof.
  revert plan. induction statistics as [|stat statistics IH]; intros plan Hp.
  - exact Hp.
  - simpl. apply IH, plan_add_keys_distinct, Hp.
Qed.

Lemma fold_plan_add_keyed (statistics : list (Statistic F)) plan :
  plan_keyed plan -> plan_keyed (fold_left plan_add statistics plan).
Proof.
  revert plan. induction statistics as [|stat statistics IH]; intros plan Hp.
  - exact Hp.
  - simpl. apply IH, plan_add_keyed, Hp.
Qed.

Hypothesis feqb_eq : forall x y : F, feqb x y = true <-> x = y.

Lemma plan_add_keys_unique (plan : Plan F) stat :
  plan_keys_unique plan -> plan_keys_unique (plan_add plan stat).
Proof.
  intros [Hout Hin]. unfold plan_add. split.
  - apply NoDup_dict_set; assumption.
  - intros p stats_for_p Hmem.
    apply In_dict_set in Hmem. destruct Hmem as [[-> _]|Hmem].
    + apply NoDup_dict_set; [exact offsets_eqb_eq|].
      unfold dict_get_default.
      destruct (dict_get feqb plan (probability_a_lower stat)) eqn:E.
      * apply dict_get_In in E. destruct E as [k' [E _]].
        exact (Hin _ _ E).
      * constructor.
    + exact (Hin _ _ Hmem).
Qed.

Lemma fold_plan_add_keys_unique (statistics : list (Statistic F)) plan :
  plan_keys_unique plan ->
  plan_keys_unique (fold_left plan_add statistics plan).
Proof.
  revert plan. induction statistics as [|stat statistics IH]; intros plan Hp.
  - exact Hp.
  - simpl. apply IH, plan_add_keys_unique, Hp.
Qed.

Lemma dict_get_default_set {K V} (keqb : K -> K -> bool)
    (keqb_eq : forall x y, keqb x y = true <-> x = y)
    (d : list (K * V)) k v k' dflt :
  dict_get_default keqb (dict_set keqb d k v) k' dflt
  = if keqb k k' then v else dict_get_default keqb d k' dflt.
Proof.
  unfold dict_get_default. rewrite (dict_get_set keqb keqb_eq).
  destruct (keqb k k'); reflexivity.
Qed.

Lemma plan_add_bucket (plan : Plan F) stat p offsets :
  plan_bucket (plan_add plan stat) p offsets
  = if grouped_under p offsets stat
    then plan_bucket plan p offsets ++ [stat]
    else plan_bucket plan p offsets.
Proof.
  unfold plan_bucket, plan_add, grouped_under.
  rewrite (dict_get_default_set feqb feqb_eq).
  destruct (feqb (probability_a_lower stat) p) eqn:Ep; simpl.
  - apply feqb_eq in Ep. subst p.
    rewrite (dict_get_default_set offsets_eqb offsets_eqb_eq).
    destruct (offsets_eqb (a_offset stat, b_offset stat) offsets) eqn:Eo.
    + apply offsets_eqb_eq in Eo. subst offsets. reflexivity.
    + reflexivity.
  - reflexivity.
Qed.

Lemma fold_plan_add_bucket (statistics : list (Statistic F)) plan p offsets :
  plan_bucket (fold_left plan_add statistics plan) p offsets
  = plan_bucket plan p offsets ++ filter (grouped_under p offsets) statistics.
Proof.
  revert plan. induction statistics as [|stat statistics IH]; intros plan.
  - simpl. rewrite app_nil_r. reflexivity.
  - simpl. rewrite IH, plan_add_bucket.
    destruct (grouped_under p offsets stat).
    + rewrite <- app_assoc. reflexivity.
    + reflexivity.
Qed.

Lemma plan_bucket_In (plan : Plan F) p stats_for_p offsets bucket :
  plan_keys_unique plan ->
  In (p, stats_for_p) plan -> In (offsets, bucket) stats_for_p ->
  plan_bucket plan p offsets = bucket.
Proof.
  intros [Hout Hin] Hp Ho. unfold plan_bucket, dict_get_default.
  rewrite (In_dict_get feqb feqb_eq _ _ _ Hout Hp).
  rewrite (In_dict_get offsets_eqb offsets_eqb_eq _ _ _ (Hin _ _ Hp) Ho).
  reflexivity.
Qed.

End PlanFacts.

Section PlanTheorem.
Context {F : Type} `{PyFloat F}.

(** C7.  Grouping is lossless and structural, whatever [==] does on
    floats: the statistics of the plan are a permutation of the input (each
    one appears exactly once); every statistic is found under a key that is
    [==] to its [probability_a_lower] (or is that very value) and under its
    own pair [(a_offset, b_offset)]; no key is [==] to a later key, and the
    pairs of offsets under a key are distinct; and the empty input gives
    the empty plan.  When [==] on [probability_a_lower] is equality, the
    list found under the keys [p] and [offsets] is moreover exactly the
    sub-list of the input that carries these keys, in input order. *)
Theorem group_statistics_in_plan_lossless (statistics : list (Statistic F)) :
  Permutation (plan_statistics (_group_statistics_in_plan statistics))
    statistics
  /\ _group_statistics_in_plan (@nil (Statistic F)) = []
  /\ (forall p stats_for_p offsets bucket stat,
        In (p, stats_for_p) (_group_statistics_in_plan statistics) ->
        In (offsets, bucket) stats_for_p ->
        In stat bucket ->
        In stat statistics
        /\ (feqb p (probability_a_lower stat) = true
            \/ p = probability_a_lower stat)
        /\ offsets = (a_offset stat, b_offset stat))
  /\ ForallOrdPairs (fun p p' => feqb p p' = false)
       (map fst (_group_statistics_in_plan statistics))
  /\ (forall p stats_for_p,
        In (p, stats_for_p) (_group_statistics_in_plan statistics) ->
        NoDup (map fst stats_for_p))
  /\ ((forall x y : F, feqb x y = true <-> x = y) ->
      NoDup (map fst (_group_statistics_in_plan statistics))
      /\ (forall p stats_for_p,
            In (p, stats_for_p) (_group_statistics_in_plan statistics) ->
            NoDup (map fst stats_for_p)
            /\ forall offsets bucket,
                 In (offsets, bucket) stats_for_p ->
                 bucket = filter (grouped_under p offsets) statistics
                 /\ forall stat, In stat bucket ->
                      In stat statistics
                      /\ probability_a_lower stat = p
                      /\ (a_offset stat, b_offset stat) = offsets)).
Proof.
  pose proof (fold_plan_add_statistics statistics []) as Hperm.
  split; [exact Hperm|].
  split; [reflexivity|].
  assert (Hkeyed : plan_keyed (_group_statistics_in_plan statistics)).
  { apply fold_plan_add_keyed. intros ? ? ? ? ? []. }
  assert (Hdistinct :
            plan_keys_distinct (_group_statistics_in_plan statistics)).
  { apply fold_plan_add_keys_distinct.
    split; [constructor|intros ? ? []]. }
  split; [|split; [exact (proj1 Hdistinct)|split; [exact (proj2 Hdistinct)|]]].
  { intros p stats_for_p offsets bucket stat Hp Ho Hs.
    split; [|exact (Hkeyed _ _ _ _ _ Hp Ho Hs)].
    apply (Permutation_in _ Hperm). unfold plan_statistics.
    apply in_flat_map. exists (p, stats_for_p). split; [exact Hp|].
    unfold offset_plan_statistics. apply in_flat_map.
    exists (offsets, bucket). auto. }
  intros feqb_eq.
  assert (Hu : plan_keys_unique (_group_statistics_in_plan statistics)).
  { apply (fold_plan_add_keys_unique feqb_eq).
    split; [constructor|intros ? ? []]. }
  split; [exact (proj1 Hu)|].
  intros p stats_for_p Hp. split; [exact (proj2 Hu _ _ Hp)|].
  intros offsets bucket Ho.
  assert (Hb : bucket = filter (grouped_under p offsets) statistics).
  { rewrite <- (plan_bucket_In feqb_eq _ _ _ _ _ Hu Hp Ho).
    unfold _group_statistics_in_plan.
    rewrite (fold_plan_add_bucket feqb_eq). reflexivity. }
  split; [exact Hb|].
  intros stat Hs. rewrite Hb in Hs. apply filter_In in Hs.
  destruct Hs as [Hs Hg]. unfold grouped_under in Hg.
  apply andb_true_iff in Hg. destruct Hg as [Hg1 Hg2].
  apply feqb_eq in Hg1. apply offsets_eqb_eq in Hg2. auto.
Qed.
End PlanTheorem.

(* ------------------------------------------------------------------ *)
(** ** Fallible computations *)

Lemma bind_Ok_inv {A B} (c : Run A) (k : A -> Run B) b :
  bind c k = Ok b -> exists a, c = Ok a /\ k a = Ok b.
Proof. destruct c as [e|a]; simpl; [discriminate|]. eauto. Qed.

Lemma foldM_cons {A S} (f : S -> A -> Run S) x l s :
  foldM f (x :: l) s = bind (f s x) (fun s' => foldM f l s').
Proof. reflexivity. Qed.

Lemma foldM_invariant {A S} (P : S -> Prop) (f : S -> A -> Run S) l :
  (forall s x s', In x l -> P s -> f s x = Ok s' -> P s') ->
  forall s s', P s -> foldM f l s = Ok s' -> P s'.
Proof.
  induction l as [|x l IH]; simpl; intros Hstep s s' Hs Hrun.
  - injection Hrun as <-. exact Hs.
  - apply bind_Ok_inv in Hrun. destruct Hrun as [s1 [H1 H2]].
    apply (IH (fun s x s' Hx => Hstep s x s' (or_intror Hx)) s1 s');
      [|exact H2].
    exact (Hstep s x s1 (or_introl eq_refl) Hs H1).
Qed.

Lemma dict_lookup_Ok {V} (d : list (string * V)) key v :
  dict_lookup d key = Ok v -> dict_get String.eqb d key = Some v.
Proof.
  unfold dict_lookup. destruct (dict_get String.eqb d key); [|discriminate].
  intros Heq. injection Heq as <-. reflexivity.
Qed.

Section ProgFacts.
Context {F : Type} `{PyFloat F}.

Lemma pbind_Ok_inv {A B} (c : Prog A) (k : A -> @Prog F B) b :
  snd (pbind c k) = Ok b -> exists a, snd c = Ok a /\ snd (k a) = Ok b.
Proof.
  destruct c as [out [e|a]]; simpl; [discriminate|].
  destruct (k a) as [out' r] eqn:E. simpl. intros ->.
  exists a. rewrite E. auto.
Qed.

Lemma pfoldM_invariant {A S} (P : S -> Prop) (f : S -> A -> @Prog F S) l :
  (forall s x s', In x l -> P s -> snd (f s x) = Ok s' -> P s') ->
  forall s s', P s -> snd (pfoldM f l s) = Ok s' -> P s'.
Proof.
  induction l as [|x l IH]; simpl; intros Hstep s s' Hs Hrun.
  - injection Hrun as <-. exact Hs.
  - apply pbind_Ok_inv in Hrun. destruct Hrun as [s1 [H1 H2]].
    apply (IH (fun s x s' Hx => Hstep s x s' (or_intror Hx)) s1 s');
      [|exact H2].
    exact (Hstep s x s1 (or_introl eq_refl) Hs H1).
Qed.
End ProgFacts.

(* ------------------------------------------------------------------ *)
(** ** The accumulators *)

Section AccumulatorFacts.
Context {F : Type} `{PyFloat F}.

Lemma count_value_spec (actual stat : F) current :
  trials (count_value actual stat current) = trials current + 1
  /\ lte_actual (count_value actual stat current)
     = lte_actual current + (if fle stat actual then 1 else 0)
  /\ gte_actual (count_value actual stat current)
     = gte_actual current + (if fge stat actual then 1 else 0).
Proof.
  unfold count_value.
  destruct (fle stat actual), (fge stat actual); simpl; lia.
Qed.

Lemma count_value_bounds (actual stat : F) current :
  accumulator_bounds current ->
  accumulator_bounds (count_value actual stat current).
Proof.
  unfold accumulator_bounds.
  destruct (count_value_spec actual stat current) as [-> [-> ->]].
  destruct (fle stat actual), (fge stat actual); lia.
Qed.

Lemma count_value_covers (actual stat : F) current :
  fle stat actual = true \/ fge stat actual = true ->
  accumulator_covers current ->
  accumulator_covers (count_value actual stat current).
Proof.
  unfold accumulator_covers.
  destruct (count_value_spec actual stat current) as [-> [-> ->]].
  intros [-> | ->]; [destruct (fge stat actual)|destruct (fle stat actual)];
    lia.
Qed.

Lemma count_value_le (actual stat : F) current :
  accumulator_le current (count_value actual stat current).
Proof.
  unfold accumulator_le.
  destruct (count_value_spec actual stat current) as [-> [-> ->]].
  destruct (fle stat actual), (fge stat actual); lia.
Qed.

Lemma string_eqb_eq (x y : string) : String.eqb x y = true <-> x = y.
Proof. apply String.eqb_eq. Qed.

Lemma count_entry_ok (P : ResultAccumulator -> Prop)
    (actual_stats : @Values F) accs entry accs' :
  (forall actual stat current, P current -> P (count_value actual stat current)) ->
  accumulators_ok P accs ->
  count_entry actual_stats accs entry = Ok accs' ->
  accumulators_ok P accs'.
Proof.
  intros HP [Hnd Hall]. destruct entry as [name stat]. unfold count_entry.
  intros Hrun. apply bind_Ok_inv in Hrun. destruct Hrun as [actual [_ Hrun]].
  apply bind_Ok_inv in Hrun. destruct Hrun as [current [Hcur Hrun]].
  injection Hrun as <-. split.
  - apply NoDup_dict_set; [exact string_eqb_eq|exact Hnd].
  - intros name0 acc Hin. apply In_dict_set in Hin.
    destruct Hin as [[-> _]|Hin]; [|exact (Hall _ _ Hin)].
    apply HP. apply dict_lookup_Ok, dict_get_In in Hcur.
    destruct Hcur as [k' [Hk _]]. exact (Hall _ _ Hk).
Qed.

Lemma count_sample_ok (P : ResultAccumulator -> Prop)
    (actual_stats sample : @Values F) accs accs' :
  (forall actual stat current, P current -> P (count_value actual stat current)) ->
  accumulators_ok P accs ->
  foldM (count_entry actual_stats) sample accs = Ok accs' ->
  accumulators_ok P accs'.
Proof.
  intros HP. apply foldM_invariant.
  intros s x s' _ Hs Hrun. exact (count_entry_ok P _ _ _ _ HP Hs Hrun).
Qed.

Lemma bounds_nonneg acc : accumulator_bounds acc -> 0 <= trials acc.
Proof. unfold accumulator_bounds. lia. Qed.

Lemma count_entry_counted (actual_stats : @Values F) accs name stat accs' :
  accumulators_ok accumulator_bounds accs ->
  count_entry actual_stats accs (name, stat) = Ok accs' ->
  counted name accs' /\ forall name0, counted name0 accs -> counted name0 accs'.
Proof.
  intros Hok Hrun.
  pose proof (count_entry_ok _ _ _ _ _ count_value_bounds Hok Hrun) as Hok'.
  destruct Hok as [Hnd Hall]. destruct Hok' as [Hnd' _].
  unfold count_entry in Hrun.
  apply bind_Ok_inv in Hrun. destruct Hrun as [actual [_ Hrun]].
  apply bind_Ok_inv in Hrun. destruct Hrun as [current [Hcur Hrun]].
  injection Hrun as <-.
  assert (Hnew : 1 <= trials (count_value actual stat current)).
  { destruct (count_value_spec actual stat current) as [-> _].
    apply dict_lookup_Ok, dict_get_In in Hcur.
    destruct Hcur as [k' [Hk _]]. apply Hall, bounds_nonneg in Hk. lia. }
  split.
  - intros acc Hin.
    apply (In_dict_get String.eqb string_eqb_eq _ _ _ Hnd') in Hin.
    rewrite (dict_get_set String.eqb string_eqb_eq) in Hin.
    rewrite String.eqb_refl in Hin. injection Hin as <-. exact Hnew.
  - intros name0 Hc acc Hin. apply In_dict_set in Hin.
    destruct Hin as [[-> _]|Hin]; [exact Hnew|exact (Hc _ Hin)].
Qed.

Lemma count_sample_counted (actual_stats sample : @Values F) accs accs' :
  accumulators_ok accumulator_bounds accs ->
  foldM (count_entry actual_stats) sample accs = Ok accs' ->
  forall name, In name (map fst sample) -> counted name accs'.
Proof.
  revert accs. induction sample as [|[name0 stat] sample IH];
    intros accs Hok Hrun name Hin; [destruct Hin|].
  rewrite foldM_cons in Hrun. apply bind_Ok_inv in Hrun.
  destruct Hrun as [accs1 [H1 H2]].
  pose proof (count_entry_ok _ _ _ _ _ count_value_bounds Hok H1) as Hok1.
  destruct (count_entry_counted _ _ _ _ _ Hok H1) as [Hc Hkeep].
  assert (Hrest : forall name1, counted name1 accs1 -> counted name1 accs').
  { intros name1 Hc1.
    apply (foldM_invariant
             (fun s => accumulators_ok accumulator_bounds s /\ counted name1 s)
             (count_entry actual_stats) sample) with (s := accs1);
      [|split; assumption|exact H2].
    intros s [n0 v0] s' _ [Hs1 Hs2] Hstep. split.
    - exact (count_entry_ok _ _ _ _ _ count_value_bounds Hs1 Hstep).
    - exact (proj2 (count_entry_counted _ _ _ _ _ Hs1 Hstep) _ Hs2). }
  destruct Hin as [Heq|Hin].
  - simpl in Heq. subst name0. apply Hrest, Hc.
  - exact (IH accs1 Hok1 H2 name Hin).
Qed.

Lemma initial_accumulators_ok (P : ResultAccumulator -> Prop)
    (actual_stats : @Values F) :
  P (mkAccumulator 0 0 0) -> accumulators_ok P (initial_accumulators actual_stats).
Proof.
  intros HP. unfold initial_accumulators.
  assert (Hgen : forall l accs, accumulators_ok P accs ->
            accumulators_ok P
              (fold_left (fun accumulators (entry : string * F) =>
                 dict_set String.eqb accumulators (fst entry)
                   (mkAccumulator 0 0 0)) l accs)).
  { induction l as [|x l IH]; intros accs Hok; [exact Hok|].
    simpl. apply IH. destruct Hok as [Hnd Hall]. split.
    - apply NoDup_dict_set; [exact string_eqb_eq|exact Hnd].
    - intros name acc Hin. apply In_dict_set in Hin.
      destruct Hin as [[-> _]|Hin]; [exact HP|exact (Hall _ _ Hin)]. }
  apply Hgen. split; [constructor|intros ? ? []].
Qed.
End AccumulatorFacts.

(* ------------------------------------------------------------------ *)
(** ** The significance test and the decision loop *)

Section DecisionFacts.
Context {F : Type} `{PyFloat F}.
Variable EXACT : Kernel F.
Variable math_log : F -> option F.
Variable csm : Z -> F -> Z -> F -> bool * F.

Lemma significance_test_judged ret eps log_inner_eps name monte_carlo_value
    actual_data actual lte_actual gte_actual trials log :
  trials <> 0 ->
  snd (_significance_test csm ret eps log_inner_eps name monte_carlo_value
         actual_data actual lte_actual gte_actual trials log)
  = Ok (judged csm ret eps log_inner_eps name actual_data actual
          lte_actual gte_actual trials).
Proof.
  intros Ht. unfold _significance_test, judged, in_tail.
  apply Z.eqb_neq in Ht. rewrite Ht.
  destruct (csm trials eps lte_actual log_inner_eps) as [lt_significant ?].
  destruct (csm trials eps gte_actual log_inner_eps) as [gt_significant ?].
  destruct log; simpl;
    destruct lt_significant, gt_significant; simpl;
    destruct (flt (truediv lte_actual trials) eps); simpl;
    try destruct (flt (truediv gte_actual trials) eps); reflexivity.
Qed.

Lemma judged_valid ret eps log_inner_eps name actual_data actual
    lte_actual gte_actual trials :
  0 < trials -> results_valid ret ->
  results_valid (judged csm ret eps log_inner_eps name actual_data actual
                   lte_actual gte_actual trials).
Proof.
  intros Ht Hret. unfold judged.
  assert (Hset : forall j, j = -1 \/ j = 0 \/ j = 1 ->
            results_valid
              (dict_set String.eqb ret name
                 (with_judgement
                    (mkResult actual None (len (a_class actual_data))
                       (len (b_class actual_data)) trials) j))).
  { intros j Hj name0 result Hin. apply In_dict_set in Hin.
    destruct Hin as [[-> _]|Hin]; [|exact (Hret _ _ Hin)].
    unfold valid_result. simpl. split; [|exact Ht].
    destruct Hj as [->|[->| ->]]; auto. }
  destruct (_ && _); [apply Hset; auto|].
  destruct (_ && _); [apply Hset; auto|].
  destruct (_ && _); [apply Hset; auto|exact Hret].
Qed.

Lemma test_entry_valid eps log_inner_eps actual_data
    (actual_stats sample : @Values F) log ret name acc ret' :
  (In name (map fst sample) -> 1 <= trials acc) ->
  results_valid ret ->
  snd (test_entry csm eps log_inner_eps actual_data actual_stats sample log
         ret (name, acc)) = Ok ret' ->
  results_valid ret'.
Proof.
  intros Hcount Hret. unfold test_entry.
  destruct (dict_mem String.eqb ret name).
  - simpl. intros Heq. injection Heq as <-. exact Hret.
  - intros Hrun. apply pbind_Ok_inv in Hrun.
    destruct Hrun as [monte_carlo_value [Hmc Hrun]].
    apply pbind_Ok_inv in Hrun. destruct Hrun as [actual [_ Hrun]].
    simpl in Hmc. apply dict_lookup_Ok, dict_get_In in Hmc.
    destruct Hmc as [k' [Hk Hkey]]. apply String.eqb_eq in Hkey. subst k'.
    apply (in_map fst) in Hk. simpl in Hk. apply Hcount in Hk.
    rewrite significance_test_judged in Hrun by lia.
    injection Hrun as <-. apply judged_valid; [lia|exact Hret].
Qed.

Lemma collect_results_valid (actual_stats : @Values F) ret results :
  results_valid ret ->
  collect_results actual_stats ret = Ok results ->
  results_valid results.
Proof.
  intros Hret. unfold collect_results.
  apply foldM_invariant; [|intros ? ? []].
  intros out entry out' _ Hout Hrun.
  apply bind_Ok_inv in Hrun. destruct Hrun as [result [Hres Hrun]].
  injection Hrun as <-. intros name0 result0 Hin.
  apply In_dict_set in Hin. destruct Hin as [[-> _]|Hin]; [|exact (Hout _ _ Hin)].
  apply dict_lookup_Ok, dict_get_In in Hres.
  destruct Hres as [k' [Hk _]]. exact (Hret _ _ Hk).
Qed.

Lemma loop_body_invariant eps log_inner_eps actual_data actual_stats log
    st sample step :
  loop_invariant st ->
  snd (loop_body csm eps log_inner_eps actual_data actual_stats log st sample)
  = Ok step ->
  step_invariant step.
Proof.
  intros [Hacc Hret] Hrun. unfold loop_body in Hrun.
  apply pbind_Ok_inv in Hrun. destruct Hrun as [accs [Hcount Hrun]].
  simpl in Hcount.
  pose proof (count_sample_ok _ _ _ _ _ count_value_bounds Hacc Hcount)
    as Hacc'.
  pose proof (count_sample_counted _ _ _ _ Hacc Hcount) as Hcounted.
  destruct (negb (_ =? 0)).
  - simpl in Hrun. injection Hrun as <-. split; assumption.
  - apply pbind_Ok_inv in Hrun. destruct Hrun as [ret' [Htest Hrun]].
    assert (Hret' : results_valid ret').
    { revert Htest. apply pfoldM_invariant; [|exact Hret].
      intros s [name acc] s' Hin Hs Hstep.
      apply (test_entry_valid _ _ _ _ _ _ _ _ _ _
               (fun Hn => Hcounted name Hn acc Hin) Hs Hstep). }
    destruct (_ =? _).
    + apply pbind_Ok_inv in Hrun. destruct Hrun as [results [Hcol Hrun]].
      simpl in Hrun, Hcol. injection Hrun as <-. simpl.
      exact (collect_results_valid _ _ _ Hret' Hcol).
    + simpl in Hrun. injection Hrun as <-. split; assumption.
Qed.

Lemma exact_test_loop_invariant eps log_inner_eps actual_data actual_stats
    log stream : forall st o,
  loop_invariant st ->
  snd (exact_test_loop csm eps log_inner_eps actual_data actual_stats log
         stream st) = Ok o ->
  match o with
  | Returned results => results_valid results
  | Running st' => loop_invariant st'
  end.
Proof.
  induction stream as [|pulled stream IH]; intros st o Hinv Hrun.
  - simpl in Hrun. injection Hrun as <-. exact Hinv.
  - cbn [exact_test_loop] in Hrun.
    apply pbind_Ok_inv in Hrun. destruct Hrun as [sample [_ Hrun]].
    apply pbind_Ok_inv in Hrun. destruct Hrun as [step [Hstep Hrun]].
    apply (loop_body_invariant _ _ _ _ _ _ _ _ Hinv) in Hstep.
    destruct step as [st'|results].
    + exact (IH st' o Hstep Hrun).
    + simpl in Hrun. injection Hrun as <-. exact Hstep.
Qed.

Lemma exact_test_Ok_inv seed a b stat statistics eps log stream o :
  snd (exact_test EXACT math_log csm seed a b (stat :: statistics) eps log
         stream) = Ok o ->
  exists log_inner_eps actual_stats,
    inner_eps_log math_log
      (corrected_eps eps (len (stat :: statistics))) = Ok log_inner_eps
    /\ _actual_data_results EXACT seed (a, b) (stat :: statistics)
       = Ok actual_stats
    /\ snd (exact_test_loop csm
              (corrected_eps eps (len (stat :: statistics)))
              log_inner_eps (a, b) actual_stats log stream
              (initial_state actual_stats)) = Ok o.
Proof.
  unfold exact_test. intros Hrun.
  apply pbind_Ok_inv in Hrun. destruct Hrun as [log_inner_eps [Hlog Hrun]].
  apply pbind_Ok_inv in Hrun. destruct Hrun as [_ [_ Hrun]].
  apply pbind_Ok_inv in Hrun. destruct Hrun as [actual_stats [Hact Hrun]].
  apply pbind_Ok_inv in Hrun. destruct Hrun as [_ [_ Hrun]].
  apply pbind_Ok_inv in Hrun. destruct Hrun as [_ [_ Hrun]].
  exists log_inner_eps, actual_stats. auto.
Qed.

Lemma initial_state_invariant (actual_stats : @Values F) :
  loop_invariant (initial_state actual_stats).
Proof.
  split; simpl.
  - apply initial_accumulators_ok. unfold accumulator_bounds. simpl. lia.
  - intros ? ? [].
Qed.

(** C1.  The judgement written by [_significance_test] follows the rule:
    -1 when the low side is significant and [lte_actual / trials < eps];
    otherwise +1 when the high side is significant and
    [gte_actual / trials < eps]; otherwise 0 when both sides are
    significant; otherwise the result map is left as it is.  And whatever
    the values the sampler delivers, every result that [exact_test] holds
    in its result map, or returns, has a judgement among -1, 0, +1 and
    [num_trials > 0]. *)
Theorem significance_test_judgement :
  (forall ret eps log_inner_eps name monte_carlo_value actual_data actual
          lte_actual gte_actual trials log,
     trials <> 0 ->
     snd (_significance_test csm ret eps log_inner_eps name monte_carlo_value
            actual_data actual lte_actual gte_actual trials log)
     = Ok (let partial_result :=
             mkResult actual None (len (a_class actual_data))
               (len (b_class actual_data)) trials in
           let lt_significant :=
             fst (csm trials eps lte_actual log_inner_eps) in
           let gt_significant :=
             fst (csm trials eps gte_actual log_inner_eps) in
           if lt_significant && flt (truediv lte_actual trials) eps then
             dict_set String.eqb ret name
               (with_judgement partial_result (-1))
           else if gt_significant && flt (truediv gte_actual trials) eps then
             dict_set String.eqb ret name (with_judgement partial_result 1)
           else if lt_significant && gt_significant then
             dict_set String.eqb ret name (with_judgement partial_result 0)
           else ret))
  /\ (forall seed a b statistics eps log stream o,
        snd (exact_test EXACT math_log csm seed a b statistics eps log stream)
        = Ok o ->
        forall name result,
          In (name, result) (outcome_results o) ->
          (judgement result = Some (-1) \/ judgement result = Some 0
           \/ judgement result = Some 1)
          /\ 0 < num_trials result).
Proof.
  split.
  - intros. apply significance_test_judged. assumption.
  - intros seed a b statistics eps log stream o Hrun name result Hin.
    destruct statistics as [|stat statistics].
    + simpl in Hrun. injection Hrun as <-. destruct Hin.
    + apply exact_test_Ok_inv in Hrun.
      destruct Hrun as [log_inner_eps [actual_stats [_ [_ Hrun]]]].
      apply exact_test_loop_invariant in Hrun;
        [|apply initial_state_invariant].
      destruct o as [results|st]; simpl in Hin.
      * exact (Hrun _ _ Hin).
      * exact (proj2 Hrun _ _ Hin).
Qed.
End DecisionFacts.

(* ------------------------------------------------------------------ *)
(** ** The accumulators along the loop *)

Section AccumulatorsAlongLoop.
Context {F : Type} `{PyFloat F}.
Variable EXACT : Kernel F.
Variable math_log : F -> option F.
Variable csm : Z -> F -> Z -> F -> bool * F.

Lemma snd_pbind {A B} (c : Prog A) (k : A -> @Prog F B) :
  snd (pbind c k)
  = match snd c with
    | Raise e => Raise e
    | Ok a => snd (k a)
    end.
Proof.
  destruct c as [out [e|a]]; simpl; [reflexivity|].
  destruct (k a); reflexivity.
Qed.

Lemma exact_test_snd seed a b stat statistics eps log stream :
  snd (exact_test EXACT math_log csm seed a b (stat :: statistics) eps log
         stream)
  = match inner_eps_log math_log
            (corrected_eps eps (len (stat :: statistics))) with
    | Raise e => Raise e
    | Ok log_inner_eps =>
        match _actual_data_results EXACT seed (a, b) (stat :: statistics) with
        | Raise e => Raise e
        | Ok actual_stats =>
            snd (exact_test_loop csm
                   (corrected_eps eps (len (stat :: statistics)))
                   log_inner_eps (a, b) actual_stats log stream
                   (initial_state actual_stats))
        end
    end.
Proof.
  unfold exact_test.
  destruct (inner_eps_log _ _) as [e|lie]; [reflexivity|]. simpl.
  destruct (_actual_data_results EXACT seed (a, b) (stat :: statistics))
    as [e|actual_stats]; simpl; [reflexivity|].
  fold (initial_state actual_stats).
  destruct log; simpl;
    destruct (exact_test_loop _ _ _ _ _ _ _ _); reflexivity.
Qed.

Lemma loop_body_accumulators eps log_inner_eps actual_data actual_stats log
    st sample st' :
  snd (loop_body csm eps log_inner_eps actual_data actual_stats log st sample)
  = Ok (Continue st') ->
  foldM (count_entry actual_stats) sample (accumulators st)
  = Ok (accumulators st').
Proof.
  unfold loop_body. intros Hrun.
  apply pbind_Ok_inv in Hrun. destruct Hrun as [accs [Hcount Hrun]].
  simpl in Hcount. rewrite Hcount.
  destruct (negb (_ =? 0)).
  - simpl in Hrun. injection Hrun as <-. reflexivity.
  - apply pbind_Ok_inv in Hrun. destruct Hrun as [ret' [_ Hrun]].
    destruct (_ =? _).
    + apply pbind_Ok_inv in Hrun. destruct Hrun as [results [_ Hrun]].
      discriminate.
    + simpl in Hrun. injection Hrun as <-. reflexivity.
Qed.

(** Whatever the counting step preserves holds of the accumulators after
    every turn of the loop. *)
Lemma exact_test_loop_accumulators (P : ResultAccumulator -> Prop)
    eps log_inner_eps actual_data actual_stats log stream :
  (forall actual stat current, P current -> P (count_value actual stat current)) ->
  forall st st',
  accumulators_ok P (accumulators st) ->
  snd (exact_test_loop csm eps log_inner_eps actual_data actual_stats log
         stream st) = Ok (Running st') ->
  accumulators_ok P (accumulators st').
Proof.
  intros HP. induction stream as [|pulled stream IH]; intros st st' Hok Hrun.
  - simpl in Hrun. injection Hrun as <-. exact Hok.
  - cbn [exact_test_loop] in Hrun.
    apply pbind_Ok_inv in Hrun. destruct Hrun as [sample [_ Hrun]].
    apply pbind_Ok_inv in Hrun. destruct Hrun as [step [Hstep Hrun]].
    destruct step as [st1|results]; [|discriminate].
    apply loop_body_accumulators in Hstep.
    apply (IH st1 st'); [|exact Hrun].
    exact (count_sample_ok P _ _ _ _ HP Hok Hstep).
Qed.

Lemma accumulators_le_refl accs : accumulators_le accs accs.
Proof.
  intros name acc Hget. exists acc. split; [exact Hget|].
  unfold accumulator_le. lia.
Qed.

Lemma accumulators_le_trans accs1 accs2 accs3 :
  accumulators_le accs1 accs2 -> accumulators_le accs2 accs3 ->
  accumulators_le accs1 accs3.
Proof.
  intros H12 H23 name acc Hget.
  destruct (H12 _ _ Hget) as [acc2 [Hget2 Hle2]].
  destruct (H23 _ _ Hget2) as [acc3 [Hget3 Hle3]].
  exists acc3. split; [exact Hget3|].
  unfold accumulator_le in *. lia.
Qed.

Lemma count_entry_le (actual_stats : @Values F) accs entry accs' :
  count_entry actual_stats accs entry = Ok accs' ->
  accumulators_le accs accs'.
Proof.
  destruct entry as [name stat]. unfold count_entry. intros Hrun.
  apply bind_Ok_inv in Hrun. destruct Hrun as [actual [_ Hrun]].
  apply bind_Ok_inv in Hrun. destruct Hrun as [current [Hcur Hrun]].
  injection Hrun as <-. apply dict_lookup_Ok in Hcur.
  intros name0 acc Hget.
  rewrite (dict_get_set String.eqb string_eqb_eq).
  destruct (String.eqb name name0) eqn:E.
  - apply String.eqb_eq in E. subst name0.
    rewrite Hcur in Hget. injection Hget as <-.
    eexists. split; [reflexivity|apply count_value_le].
  - exists acc. split; [exact Hget|]. unfold accumulator_le. lia.
Qed.

Lemma count_sample_le (actual_stats sample : @Values F) accs accs' :
  foldM (count_entry actual_stats) sample accs = Ok accs' ->
  accumulators_le accs accs'.
Proof.
  revert accs. induction sample as [|entry sample IH]; intros accs Hrun.
  - simpl in Hrun. injection Hrun as <-. apply accumulators_le_refl.
  - rewrite foldM_cons in Hrun. apply bind_Ok_inv in Hrun.
    destruct Hrun as [accs1 [H1 H2]].
    eapply accumulators_le_trans; [exact (count_entry_le _ _ _ _ H1)|].
    exact (IH _ H2).
Qed.

Lemma exact_test_loop_le eps log_inner_eps actual_data actual_stats log
    stream : forall st st',
  snd (exact_test_loop csm eps log_inner_eps actual_data actual_stats log
         stream st) = Ok (Running st') ->
  accumulators_le (accumulators st) (accumulators st').
Proof.
  induction stream as [|pulled stream IH]; intros st st' Hrun.
  - simpl in Hrun. injection Hrun as <-. apply accumulators_le_refl.
  - cbn [exact_test_loop] in Hrun.
    apply pbind_Ok_inv in Hrun. destruct Hrun as [sample [_ Hrun]].
    apply pbind_Ok_inv in Hrun. destruct Hrun as [step [Hstep Hrun]].
    destruct step as [st1|results]; [|discriminate].
    apply loop_body_accumulators, count_sample_le in Hstep.
    eapply accumulators_le_trans; [exact Hstep|exact (IH _ _ Hrun)].
Qed.

Lemma exact_test_loop_app eps log_inner_eps actual_data actual_stats log
    stream more : forall st st1,
  snd (exact_test_loop csm eps log_inner_eps actual_data actual_stats log
         stream st) = Ok (Running st1) ->
  snd (exact_test_loop csm eps log_inner_eps actual_data actual_stats log
         (stream ++ more) st)
  = snd (exact_test_loop csm eps log_inner_eps actual_data actual_stats log
           more st1).
Proof.
  induction stream as [|pulled stream IH]; intros st st1 Hrun.
  - simpl in Hrun. injection Hrun as <-. reflexivity.
  - cbn [exact_test_loop app] in *. rewrite snd_pbind in *.
    destruct (snd (lift pulled)) as [e|sample]; [discriminate|].
    rewrite snd_pbind in *.
    destruct (snd (loop_body csm eps log_inner_eps actual_data actual_stats
                     log st sample)) as [e|[st'|results]];
      [discriminate| |discriminate].
    exact (IH _ _ Hrun).
Qed.

End AccumulatorsAlongLoop.

(* ------------------------------------------------------------------ *)
(** ** The entry point: corrected eps, the empty list, the log *)

Section EntryPointFacts.
Context {F : Type} `{PyFloat F}.
Variable EXACT : Kernel F.
Variable math_log : F -> option F.

Lemma pbind_ext {A B} (c : @Prog F A) (k k' : A -> @Prog F B) :
  (forall a, k a = k' a) -> pbind c k = pbind c k'.
Proof.
  intros Hk. destruct c as [out [e|a]]; simpl; [reflexivity|].
  rewrite Hk. reflexivity.
Qed.

Lemma pfoldM_ext {A S} (f g : S -> A -> @Prog F S) l :
  (forall s x, f s x = g s x) -> forall s, pfoldM f l s = pfoldM g l s.
Proof.
  intros Hfg. induction l as [|x l IH]; intros s; simpl; [reflexivity|].
  rewrite Hfg. destruct (g s x) as [out [e|s']]; simpl; [reflexivity|].
  rewrite IH. reflexivity.
Qed.

Section TwoCsm.
Variables csm1 csm2 : Z -> F -> Z -> F -> bool * F.
Variables eps log_inner_eps : F.
Hypothesis agree :
  forall trials successes,
    csm1 trials eps successes log_inner_eps
    = csm2 trials eps successes log_inner_eps.

Lemma significance_test_csm ret name monte_carlo_value actual_data actual
    lte_actual gte_actual trials log :
  _significance_test csm1 ret eps log_inner_eps name monte_carlo_value
    actual_data actual lte_actual gte_actual trials log
  = _significance_test csm2 ret eps log_inner_eps name monte_carlo_value
      actual_data actual lte_actual gte_actual trials log.
Proof. unfold _significance_test. rewrite !agree. reflexivity. Qed.

Lemma test_entry_csm actual_data actual_stats sample log ret entry :
  test_entry csm1 eps log_inner_eps actual_data actual_stats sample log
    ret entry
  = test_entry csm2 eps log_inner_eps actual_data actual_stats sample log
      ret entry.
Proof.
  unfold test_entry. destruct entry as [name acc].
  destruct (dict_mem String.eqb ret name); [reflexivity|].
  apply pbind_ext. intros mc. apply pbind_ext. intros actual.
  apply significance_test_csm.
Qed.

Lemma loop_body_csm actual_data actual_stats log st sample :
  loop_body csm1 eps log_inner_eps actual_data actual_stats log st sample
  = loop_body csm2 eps log_inner_eps actual_data actual_stats log st sample.
Proof.
  unfold loop_body. apply pbind_ext. intros accs.
  destruct (negb (_ =? 0)); [reflexivity|].
  rewrite (pfoldM_ext _ _ _
             (test_entry_csm actual_data actual_stats sample log)).
  reflexivity.
Qed.

Lemma exact_test_loop_csm actual_data actual_stats log stream : forall st,
  exact_test_loop csm1 eps log_inner_eps actual_data actual_stats log
    stream st
  = exact_test_loop csm2 eps log_inner_eps actual_data actual_stats log
      stream st.
Proof.
  induction stream as [|pulled stream IH]; intros st; [reflexivity|].
  cbn [exact_test_loop]. apply pbind_ext. intros sample.
  rewrite loop_body_csm. apply pbind_ext.
  intros [st'|results]; [apply IH|reflexivity].
Qed.
End TwoCsm.

(** C8.  On an empty list of statistics [exact_test] returns the empty map
    at once: whatever [a], [b] and [eps] are, nothing is raised, nothing is
    printed, the actual statistics are not computed, and the sampler is not
    started (no value of the stream is used). *)
Theorem exact_test_empty_statistics csm seed a b eps log stream :
  exact_test EXACT math_log csm seed a b [] eps log stream
  = ([], Ok (Returned [])).
Proof. reflexivity. Qed.

Lemma same_but_log_refl {A} (c : @Prog F A) : same_but_log c c.
Proof. split; reflexivity. Qed.

Lemma same_but_log_pbind {A B} (c c' : @Prog F A) (k k' : A -> @Prog F B) :
  same_but_log c c' -> (forall a, same_but_log (k a) (k' a)) ->
  same_but_log (pbind c k) (pbind c' k').
Proof.
  destruct c as [out r], c' as [out' r']. intros [Hr Hout] Hk.
  simpl in Hr, Hout. subst r'. destruct r as [e|a]; simpl.
  - split; [reflexivity|exact Hout].
  - destruct (Hk a) as [Hr Hs].
    destruct (k a) as [o1 r1], (k' a) as [o2 r2]. simpl in *.
    split; [exact Hr|]. unfold silent_events in *. cbn [fst].
    rewrite !filter_app, Hout, Hs. reflexivity.
Qed.

Lemma same_but_log_print log log' (line line' : @LogLine F) :
  same_but_log (print_to log line) (print_to log' line').
Proof. destruct log, log'; split; reflexivity. Qed.

Lemma same_but_log_pfoldM {A S} (f g : S -> A -> @Prog F S) l :
  (forall s x, same_but_log (f s x) (g s x)) ->
  forall s, same_but_log (pfoldM f l s) (pfoldM g l s).
Proof.
  intros Hfg. induction l as [|x l IH]; intros s; simpl.
  - apply same_but_log_refl.
  - apply same_but_log_pbind; [apply Hfg|exact IH].
Qed.

Section TwoLogs.
Variable csm : Z -> F -> Z -> F -> bool * F.
Variables log log' : option LogSink.

Lemma significance_test_log ret eps log_inner_eps name monte_carlo_value
    actual_data actual lte_actual gte_actual trials :
  same_but_log
    (_significance_test csm ret eps log_inner_eps name monte_carlo_value
       actual_data actual lte_actual gte_actual trials log)
    (_significance_test csm ret eps log_inner_eps name monte_carlo_value
       actual_data actual lte_actual gte_actual trials log').
Proof.
  unfold _significance_test.
  destruct (csm trials eps lte_actual log_inner_eps).
  destruct (csm trials eps gte_actual log_inner_eps).
  apply same_but_log_pbind; [apply same_but_log_print|].
  intros _. apply same_but_log_refl.
Qed.

Lemma test_entry_log eps log_inner_eps actual_data actual_stats sample
    ret entry :
  same_but_log
    (test_entry csm eps log_inner_eps actual_data actual_stats sample log
       ret entry)
    (test_entry csm eps log_inner_eps actual_data actual_stats sample log'
       ret entry).
Proof.
  unfold test_entry. destruct entry as [name acc].
  destruct (dict_mem String.eqb ret name); [apply same_but_log_refl|].
  apply same_but_log_pbind; [apply same_but_log_refl|]. intros mc.
  apply same_but_log_pbind; [apply same_but_log_refl|]. intros actual.
  apply significance_test_log.
Qed.

Lemma loop_body_log eps log_inner_eps actual_data actual_stats st sample :
  same_but_log
    (loop_body csm eps log_inner_eps actual_data actual_stats log st sample)
    (loop_body csm eps log_inner_eps actual_data actual_stats log' st sample).
Proof.
  unfold loop_body.
  apply same_but_log_pbind; [apply same_but_log_refl|]. intros accs.
  destruct (negb (_ =? 0)); [apply same_but_log_refl|].
  apply same_but_log_pbind.
  - apply same_but_log_pfoldM. intros s x. apply test_entry_log.
  - intros ret'. apply same_but_log_refl.
Qed.

Lemma exact_test_loop_log eps log_inner_eps actual_data actual_stats
    stream : forall st,
  same_but_log
    (exact_test_loop csm eps log_inner_eps actual_data actual_stats log
       stream st)
    (exact_test_loop csm eps log_inner_eps actual_data actual_stats log'
       stream st).
Proof.
  induction stream as [|pulled stream IH]; intros st.
  - apply same_but_log_refl.
  - cbn [exact_test_loop].
    apply same_but_log_pbind; [apply same_but_log_refl|]. intros sample.
    apply same_but_log_pbind; [apply loop_body_log|].
    intros [st'|results]; [apply IH|apply same_but_log_refl].
Qed.

Lemma exact_test_log seed a b statistics eps stream :
  same_but_log
    (exact_test EXACT math_log csm seed a b statistics eps log stream)
    (exact_test EXACT math_log csm seed a b statistics eps log' stream).
Proof.
  unfold exact_test. destruct statistics as [|stat statistics].
  - apply same_but_log_refl.
  - apply same_but_log_pbind; [apply same_but_log_refl|]. intros lie.
    apply same_but_log_pbind; [apply same_but_log_refl|]. intros _.
    apply same_but_log_pbind; [apply same_but_log_refl|]. intros actual_stats.
    apply same_but_log_pbind; [apply same_but_log_print|]. intros _.
    apply same_but_log_pbind; [apply same_but_log_refl|]. intros _.
    apply exact_test_loop_log.
Qed.
End TwoLogs.

Lemma print_to_None_silent (line : @LogLine F) :
  Forall (fun e => is_print e = false) (fst (print_to None line)).
Proof. constructor. Qed.

Lemma silent_pbind {A B} (c : @Prog F A) (k : A -> @Prog F B) :
  silent c -> (forall a, silent (k a)) -> silent (pbind c k).
Proof.
  unfold silent. destruct c as [out [e|a]]; simpl; [auto|].
  intros Hc Hk. specialize (Hk a). destruct (k a) as [out' r]. simpl in *.
  apply Forall_app. auto.
Qed.

Lemma silent_nil {A} (r : Run A) : silent (([], r) : @Prog F A).
Proof. constructor. Qed.

Lemma silent_pfoldM {A S} (f : S -> A -> @Prog F S) l :
  (forall s x, silent (f s x)) -> forall s, silent (pfoldM f l s).
Proof.
  intros Hf. induction l as [|x l IH]; intros s; simpl.
  - apply silent_nil.
  - apply silent_pbind; [apply Hf|exact IH].
Qed.

Lemma exact_test_loop_silent csm eps log_inner_eps actual_data actual_stats
    stream : forall st,
  silent (exact_test_loop csm eps log_inner_eps actual_data actual_stats None
            stream st).
Proof.
  induction stream as [|pulled stream IH]; intros st.
  - apply silent_nil.
  - cbn [exact_test_loop].
    apply silent_pbind; [apply silent_nil|]. intros sample.
    apply silent_pbind.
    + unfold loop_body. apply silent_pbind; [apply silent_nil|]. intros accs.
      destruct (negb (_ =? 0)); [apply silent_nil|].
      apply silent_pbind.
      * apply silent_pfoldM. intros s [name acc]. unfold test_entry.
        destruct (dict_mem String.eqb s name); [apply silent_nil|].
        apply silent_pbind; [apply silent_nil|]. intros mc.
        apply silent_pbind; [apply silent_nil|]. intros actual.
        unfold _significance_test.
        destruct (csm (trials acc) eps (lte_actual acc) log_inner_eps).
        destruct (csm (trials acc) eps (gte_actual acc) log_inner_eps).
        apply silent_pbind; [apply silent_nil|]. intros _. apply silent_nil.
      * intros ret'. destruct (_ =? _); [|apply silent_nil].
        apply silent_pbind; [apply silent_nil|]. intros. apply silent_nil.
    + intros [st'|results]; [apply IH|apply silent_nil].
Qed.

(** C10.  The log argument has no influence on what [exact_test] returns:
    on the same inputs and the same stream of resampled values, a run with
    a log sink and a run with [log=None] end in the same outcome (the same
    map of names to results, the same error, or the same loop state), and
    perform the same actions apart from printing; with [log=None] nothing
    is printed. *)
Theorem exact_test_result_independent_of_log
    csm seed a b statistics eps sink stream :
  snd (exact_test EXACT math_log csm seed a b statistics eps (Some sink)
         stream)
  = snd (exact_test EXACT math_log csm seed a b statistics eps None stream)
  /\ silent_events
       (fst (exact_test EXACT math_log csm seed a b statistics eps
               (Some sink) stream))
     = fst (exact_test EXACT math_log csm seed a b statistics eps None
              stream)
  /\ Forall (fun e => is_print e = false)
       (fst (exact_test EXACT math_log csm seed a b statistics eps None
               stream)).
Proof.
  assert (Hsilent :
    silent (exact_test EXACT math_log csm seed a b statistics eps None
              stream)).
  { unfold exact_test. destruct statistics as [|stat statistics].
    - apply silent_nil.
    - apply silent_pbind; [apply silent_nil|]. intros lie.
      apply silent_pbind; [repeat constructor|]. intros _.
      apply silent_pbind; [apply silent_nil|]. intros actual_stats.
      apply silent_pbind; [apply silent_nil|]. intros _.
      apply silent_pbind; [repeat constructor|]. intros _.
      apply exact_test_loop_silent. }
  destruct (exact_test_log csm (Some sink) None seed a b statistics eps stream)
    as [Hout Hev].
  split; [exact Hout|]. split; [|exact Hsilent].
  rewrite Hev. unfold silent_events.
  apply forallb_filter_id. apply forallb_forall.
  unfold silent in Hsilent. rewrite Forall_forall in Hsilent.
  intros e He. rewrite (Hsilent e He). reflexivity.
Qed.
End EntryPointFacts.

(* ------------------------------------------------------------------ *)
(** ** What the entry point checks, and what a failed shuffle raises *)

Section FailureFacts.
Context {F : Type} `{PyFloat F}.
Variable EXACT : Kernel F.
Variable math_log : F -> option F.
Variable csm : Z -> F -> Z -> F -> bool * F.

Lemma store_uint64_Ok x y :
  store_uint64 x = Ok y <-> y = x /\ 0 <= x < 2 ^ 64.
Proof.
  unfold store_uint64.
  destruct (0 <=? x) eqn:E1, (x <? 2 ^ 64) eqn:E2; simpl;
    rewrite ?Z.leb_le, ?Z.leb_gt, ?Z.ltb_lt, ?Z.ltb_ge in *;
    split; try discriminate; try lia.
  - intros Heq. injection Heq as <-. lia.
  - intros [-> _]. reflexivity.
Qed.

Lemma store_uint64_Raise x e :
  store_uint64 x = Raise e -> e = OverflowError x /\ ~ 0 <= x < 2 ^ 64.
Proof.
  unfold store_uint64.
  destruct (0 <=? x) eqn:E1, (x <? 2 ^ 64) eqn:E2; simpl;
    rewrite ?Z.leb_le, ?Z.leb_gt, ?Z.ltb_lt, ?Z.ltb_ge in *;
    try discriminate; intros Heq; injection Heq as <-; split;
    try reflexivity; lia.
Qed.

Lemma make_buf_cases a b :
  match _make_buf a b with
  | Ok buf => buf = a ++ b /\ Forall (fun x => 0 <= x < 2 ^ 64) (a ++ b)
  | Raise e =>
      exists x, In x (a ++ b) /\ ~ 0 <= x < 2 ^ 64 /\ e = OverflowError x
  end.
Proof.
  unfold _make_buf. induction (a ++ b) as [|x l IH]; simpl.
  - auto.
  - destruct (store_uint64 x) as [e|y] eqn:Ex; simpl.
    + apply store_uint64_Raise in Ex. destruct Ex as [-> Hx].
      exists x. auto.
    + apply store_uint64_Ok in Ex. destruct Ex as [-> Hx].
      destruct (mapM store_uint64 l) as [e|ys]; simpl.
      * destruct IH as [x0 [Hin [Hx0 ->]]]. exists x0. auto.
      * destruct IH as [-> Hall]. auto.
Qed.

Lemma eval_statistics_cases buf m n (statistics : list (Statistic F)) :
  forall results,
  match foldM (eval_statistic EXACT buf m n) statistics results with
  | Ok _ => Forall (fun stat => exact_fn EXACT (fn_name stat) <> None)
              statistics
  | Raise e =>
      exists stat, In stat statistics
                   /\ exact_fn EXACT (fn_name stat) = None
                   /\ e = AttributeError (fn_name stat)
  end.
Proof.
  induction statistics as [|stat statistics IH]; intros results.
  - simpl. constructor.
  - rewrite foldM_cons. unfold eval_statistic at 1, getattr_EXACT.
    destruct (exact_fn EXACT (fn_name stat)) as [fn|] eqn:Efn; simpl.
    + specialize (IH (dict_set String.eqb results (name stat)
                        (fn buf m n (fn_args stat)))).
      destruct (foldM _ statistics _) as [e|r].
      * destruct IH as [s [Hin Hs]]. exists s. auto.
      * constructor; [congruence|exact IH].
    + exists stat. auto.
Qed.

Lemma actual_data_results_cases seed a b (statistics : list (Statistic F)) :
  match _actual_data_results EXACT seed (a, b) statistics with
  | Ok _ =>
      Forall (fun x => 0 <= x < 2 ^ 64) (a ++ b)
      /\ Forall (fun stat => exact_fn EXACT (fn_name stat) <> None)
           statistics
  | Raise e =>
      (exists x, In x (a ++ b) /\ ~ 0 <= x < 2 ^ 64 /\ e = OverflowError x)
      \/ (Forall (fun x => 0 <= x < 2 ^ 64) (a ++ b)
          /\ exists stat, In stat statistics
                          /\ exact_fn EXACT (fn_name stat) = None
                          /\ e = AttributeError (fn_name stat))
  end.
Proof.
  unfold _actual_data_results, a_class, b_class. cbn [fst snd].
  pose proof (make_buf_cases a b) as Hbuf.
  destruct (_make_buf a b) as [e|buf]; simpl.
  - left. exact Hbuf.
  - destruct Hbuf as [-> Hfit].
    destruct (exact_test_offset_sort EXACT _ _ _ _ _ _) as [xoshiro copy].
    pose proof (eval_statistics_cases copy (len a) (len b) statistics [])
      as Hev.
    destruct (foldM (eval_statistic EXACT copy (len a) (len b)) statistics [])
      as [e|r]; auto.
Qed.

Lemma exact_test_prologue seed a b stat statistics eps log :
  snd (exact_test EXACT math_log csm seed a b (stat :: statistics) eps log [])
  = match math_log (fdiv (corrected_eps eps (len (stat :: statistics)))
                      (of_int 10)) with
    | None => Raise (ValueError "math domain error")
    | Some _ =>
        match _actual_data_results EXACT seed (a, b) (stat :: statistics) with
        | Raise e => Raise e
        | Ok actual_stats => Ok (Running (initial_state actual_stats))
        end
    end.
Proof.
  unfold exact_test, inner_eps_log.
  destruct (math_log _) as [lie|]; [|reflexivity]. simpl.
  destruct (_actual_data_results EXACT seed (a, b) (stat :: statistics))
    as [e|actual_stats]; simpl; [reflexivity|].
  destruct log; reflexivity.
Qed.

Lemma make_buf_fits a b :
  Forall (fun x => 0 <= x < 2 ^ 64) (a ++ b) -> _make_buf a b = Ok (a ++ b).
Proof.
  intros Hfit. pose proof (make_buf_cases a b) as Hbuf.
  destruct (_make_buf a b) as [e|buf].
  - destruct Hbuf as [x [Hin [Hx _]]]. rewrite Forall_forall in Hfit.
    exfalso. exact (Hx (Hfit x Hin)).
  - destruct Hbuf as [-> _]. reflexivity.
Qed.

Lemma make_buf_first_overflow a b before x after :
  a ++ b = before ++ x :: after ->
  Forall (fun x => 0 <= x < 2 ^ 64) before -> ~ 0 <= x < 2 ^ 64 ->
  _make_buf a b = Raise (OverflowError x).
Proof.
  unfold _make_buf. intros -> Hfit Hx.
  induction Hfit as [|y before Hy Hfit IH]; simpl.
  - unfold store_uint64.
    destruct (0 <=? x) eqn:E1, (x <? 2 ^ 64) eqn:E2; simpl;
      try reflexivity.
    apply Z.leb_le in E1. apply Z.ltb_lt in E2. exfalso. apply Hx. lia.
  - rewrite (proj2 (store_uint64_Ok y y) (conj eq_refl Hy)). simpl.
    rewrite IH. reflexivity.
Qed.

(** Whether the statistics can be evaluated depends on their [fn_name]s
    only: not on the buffer, and not on their names. *)
Lemma eval_statistics_same_failure buf m n buf' m' n' rename
    (statistics : list (Statistic F)) :
  forall results results',
  same_failure
    (foldM (eval_statistic EXACT buf m n) statistics results)
    (foldM (eval_statistic EXACT buf' m' n')
       (map (renamed rename) statistics) results').
Proof.
  induction statistics as [|stat statistics IH]; intros results results'.
  - exact I.
  - cbn [map]. rewrite !foldM_cons.
    unfold eval_statistic at 1 3, getattr_EXACT. cbn [renamed fn_name].
    destruct (exact_fn EXACT (fn_name stat)) as [fn|]; simpl.
    + apply IH.
    + reflexivity.
Qed.

Lemma actual_data_results_same_failure seed a b a' b' rename
    (statistics : list (Statistic F)) :
  Forall (fun x => 0 <= x < 2 ^ 64) (a ++ b) ->
  Forall (fun x => 0 <= x < 2 ^ 64) (a' ++ b') ->
  same_failure
    (_actual_data_results EXACT seed (a, b) statistics)
    (_actual_data_results EXACT seed (a', b')
       (map (renamed rename) statistics)).
Proof.
  intros Hfit Hfit'. unfold _actual_data_results, a_class, b_class.
  cbn [fst snd]. rewrite (make_buf_fits _ _ Hfit), (make_buf_fits _ _ Hfit').
  cbn [bind].
  destruct (exact_test_offset_sort EXACT _ (a ++ b) _ _ _ _) as [x1 copy].
  destruct (exact_test_offset_sort EXACT _ (a' ++ b') _ _ _ _) as [x2 copy'].
  apply eval_statistics_same_failure.
Qed.

Lemma actual_data_results_renamed seed a b rename
    (statistics : list (Statistic F)) :
  same_failure
    (_actual_data_results EXACT seed (a, b) statistics)
    (_actual_data_results EXACT seed (a, b)
       (map (renamed rename) statistics)).
Proof.
  unfold _actual_data_results, a_class, b_class. cbn [fst snd].
  destruct (_make_buf a b) as [e|buf]; cbn [bind]; [reflexivity|].
  destruct (exact_test_offset_sort EXACT _ buf _ _ _ _) as [x1 copy].
  apply eval_statistics_same_failure.
Qed.

Lemma map_renamed_id (statistics : list (Statistic F)) :
  map (renamed (fun name => name)) statistics = statistics.
Proof.
  induction statistics as [|[] statistics IH]; simpl; [reflexivity|].
  rewrite IH. reflexivity.
Qed.

Lemma same_failure_prologue {A B} (r : Run A) (r' : Run B)
    (k : A -> @Outcome F) (k' : B -> @Outcome F) (l : option F) :
  same_failure r r' ->
  same_failure
    (match l with
     | None => Raise (ValueError "math domain error")
     | Some _ => match r with
                 | Raise e => Raise e
                 | Ok x => Ok (k x)
                 end
     end)
    (match l with
     | None => Raise (ValueError "math domain error")
     | Some _ => match r' with
                 | Raise e => Raise e
                 | Ok x => Ok (k' x)
                 end
     end).
Proof.
  intros Hsame. destruct l; [|reflexivity].
  destruct r, r'; simpl in *; auto.
Qed.

(** C4, as the code has it.  [exact_test] has no validation of its own:
    what it does before sampling examines [eps] through [math.log] only,
    the observations through the store into a [uint64_t] buffer only, and
    the names of the statistics not at all.  When [math.log] rejects the
    corrected [eps / 10] the call raises [ValueError] at once, before
    anything else happens; any two values of [eps] that [math.log] accepts
    fare alike.  When an observation does not fit in a [uint64_t], the
    first such observation raises [OverflowError]; any two sets of
    observations that fit fare alike.  Giving the statistics other names,
    equal ones included, changes neither whether the call fails nor the
    exception. *)
Theorem exact_test_input_checks seed a b stat statistics eps log :
  let statistics := stat :: statistics in
  let scaled := fun eps : F =>
    fdiv (corrected_eps eps (len statistics)) (of_int 10) in
  (math_log (scaled eps) = None ->
   forall stream,
     exact_test EXACT math_log csm seed a b statistics eps log stream
     = ([], Raise (ValueError "math domain error")))
  /\ (forall eps',
        math_log (scaled eps) <> None -> math_log (scaled eps') <> None ->
        snd (exact_test EXACT math_log csm seed a b statistics eps log [])
        = snd (exact_test EXACT math_log csm seed a b statistics eps' log []))
  /\ (forall before x after stream,
        math_log (scaled eps) <> None ->
        a ++ b = before ++ x :: after ->
        Forall (fun x => 0 <= x < 2 ^ 64) before -> ~ 0 <= x < 2 ^ 64 ->
        snd (exact_test EXACT math_log csm seed a b statistics eps log stream)
        = Raise (OverflowError x))
  /\ (forall a' b',
        Forall (fun x => 0 <= x < 2 ^ 64) (a ++ b) ->
        Forall (fun x => 0 <= x < 2 ^ 64) (a' ++ b') ->
        same_failure
          (snd (exact_test EXACT math_log csm seed a b statistics eps log []))
          (snd (exact_test EXACT math_log csm seed a' b' statistics eps log
                  [])))
  /\ (forall rename,
        same_failure
          (snd (exact_test EXACT math_log csm seed a b statistics eps log []))
          (snd (exact_test EXACT math_log csm seed a b
                  (map (renamed rename) statistics) eps log []))).
Proof.
  intros statistics0 scaled. subst statistics0 scaled. cbv beta.
  split; [|split; [|split; [|split]]].
  - intros Hlog stream. unfold exact_test, inner_eps_log.
    rewrite Hlog. reflexivity.
  - intros eps' Hlog Hlog'. rewrite !exact_test_prologue.
    destruct (math_log _) as [lie|]; [|congruence].
    destruct (math_log _) as [lie'|]; [|congruence].
    reflexivity.
  - intros before x after stream Hlog Hsplit Hfit Hx.
    rewrite exact_test_snd. unfold inner_eps_log.
    destruct (math_log _) as [lie|]; [|congruence].
    unfold _actual_data_results, a_class, b_class. cbn [fst snd].
    rewrite (make_buf_first_overflow _ _ _ _ _ Hsplit Hfit Hx).
    reflexivity.
  - intros a' b' Hfit Hfit'. rewrite !exact_test_prologue.
    apply same_failure_prologue.
    rewrite <- (map_renamed_id (stat :: statistics)) at 2.
    apply actual_data_results_same_failure; assumption.
  - intros rename. cbn [map]. rewrite !exact_test_prologue.
    replace (len (renamed rename stat :: map (renamed rename) statistics))
      with (len (stat :: statistics))
      by (unfold len; simpl; rewrite length_map; reflexivity).
    apply same_failure_prologue.
    apply (actual_data_results_renamed seed a b rename (stat :: statistics)).
Qed.

(** C5, as the code has it.  When [exact_test_shuffle] returns false on the
    first group of the plan, [compute_results] does not raise the message
    left in [error_ptr]: the operand of [raise] is a string, so what is
    raised is the interpreter's [TypeError], the same for every message.
    That exception ends the run of [exact_test] when the stream delivers
    it. *)
Theorem shuffle_failure_raises_type_error
    m n buf xoshiro p_a_lt stats_for_p plan xoshiro' shuffled_buf message :
  exact_test_shuffle EXACT xoshiro buf m n p_a_lt
  = (xoshiro', shuffled_buf, Some message) ->
  compute_results EXACT m n buf xoshiro ((p_a_lt, stats_for_p) :: plan)
  = Raise (TypeError "exceptions must derive from BaseException")
  /\ forall seed a b statistics eps log stream st rest,
       snd (exact_test EXACT math_log csm seed a b statistics eps log stream)
       = Ok (Running st) ->
       snd (exact_test EXACT math_log csm seed a b statistics eps log
              (stream
               ++ match compute_results EXACT m n buf xoshiro
                          ((p_a_lt, stats_for_p) :: plan) with
                  | Raise e => Raise e
                  | Ok (_, results) => Ok results
                  end :: rest))
       = Raise (TypeError "exceptions must derive from BaseException").
Proof.
  intros Hshuffle.
  assert (Hraise :
    compute_results EXACT m n buf xoshiro ((p_a_lt, stats_for_p) :: plan)
    = Raise (TypeError "exceptions must derive from BaseException")).
  { unfold compute_results. rewrite foldM_cons.
    unfold compute_group at 1. rewrite Hshuffle. reflexivity. }
  split; [exact Hraise|].
  intros seed a b statistics eps log stream st rest Hrun. rewrite Hraise.
  destruct statistics as [|stat statistics]; [discriminate|].
  rewrite exact_test_snd in *.
  destruct (inner_eps_log _ _) as [e|lie]; [discriminate|].
  destruct (_actual_data_results EXACT seed (a, b) (stat :: statistics))
    as [e|actual_stats]; [discriminate|].
  rewrite (exact_test_loop_app _ _ _ _ _ _ _ _ _ _ Hrun). reflexivity.
Qed.
End FailureFacts.

(* ------------------------------------------------------------------ *)
(** ** The two tails exclude each other *)

Section TailFacts.
Context {F : Type} `{PyFloat F}.
Variable EXACT : Kernel F.
Variable math_log : F -> option F.
Variable csm : Z -> F -> Z -> F -> bool * F.

(** What is used of the arithmetic: [<] is transitive, and a quotient of
    two ints lies below one half only when twice the numerator lies below
    the denominator (division rounds monotonically and one half is a
    float). *)
Hypothesis flt_trans :
  forall x y z : F, flt x y = true -> flt y z = true -> flt x z = true.
Hypothesis truediv_below_half :
  forall i j, 0 < j -> flt (truediv i j) (flit 0.5) = true -> 2 * i < j.

Lemma tails_exclusive (eps : F) lte_actual gte_actual trials :
  lte_actual + gte_actual >= trials -> trials > 0 ->
  flt eps (flit 0.5) = true ->
  ~ (flt (truediv lte_actual trials) eps = true
     /\ flt (truediv gte_actual trials) eps = true).
Proof.
  intros Hsum Ht Heps [Hl Hg].
  pose proof (truediv_below_half lte_actual trials ltac:(lia)
                (flt_trans _ _ _ Hl Heps)).
  pose proof (truediv_below_half gte_actual trials ltac:(lia)
                (flt_trans _ _ _ Hg Heps)).
  lia.
Qed.

End TailFacts.

(* ------------------------------------------------------------------ *)
(** ** Batch sizes *)

Section SamplerFacts.
Context {F : Type} `{PyFloat F}.
Variables V Args : Type.
Variable POOL_SIZE : Z.

Lemma fill_pending_loop_batch_size count :
  forall (readings : list (exact_test_sampler.PoolReading Args))
         (g : exact_test_sampler.Generator Args),
  exact_test_sampler.batch_size
    (exact_test_sampler.fill_pending_loop count readings g)
  = exact_test_sampler.batch_size g.
Proof.
  induction count as [|count IH]; intros readings g; simpl; [reflexivity|].
  destruct readings as [|reading readings]; [reflexivity|].
  destruct (_ >=? _); [reflexivity|]. rewrite IH. reflexivity.
Qed.

Lemma generate_turn_batch_size
    (g : exact_test_sampler.Generator Args)
    (t : exact_test_sampler.Turn V Args) yielded g' :
  exact_test_sampler.generate_turn POOL_SIZE g t = (yielded, Ok g') ->
  exact_test_sampler.batch_size g'
  = if exact_test_sampler.any_completed g t
    then Z.min (exact_test_sampler.BATCH_SIZE_GROWTH_FACTOR
                * exact_test_sampler.batch_size g)
           exact_test_sampler.MAX_BATCH_SIZE
    else exact_test_sampler.batch_size g.
Proof.
  unfold exact_test_sampler.generate_turn, exact_test_sampler.any_completed.
  destruct (exact_test_sampler.consume_completed_futures _ _)
    as [active completed] eqn:E. cbn [snd].
  destruct (mapM _ completed) as [e|results]; [discriminate|].
  intros Heq. injection Heq as _ <-.
  destruct completed; [reflexivity|].
  unfold exact_test_sampler.fill_pending_list.
  rewrite fill_pending_loop_batch_size. reflexivity.
Qed.

Lemma generate_turns_batch_size
    (turns : list (exact_test_sampler.Turn V Args)) :
  forall (g : exact_test_sampler.Generator Args) yielded g' k,
  exact_test_sampler.batch_size g = Z.min (10 * 2 ^ Z.of_nat k) 100000 ->
  exact_test_sampler.generate_turns POOL_SIZE g turns = (yielded, Ok g') ->
  exact_test_sampler.batch_size g'
  = Z.min
      (10 * 2 ^ Z.of_nat (k + exact_test_sampler.completions POOL_SIZE g turns))
      100000.
Proof.
  induction turns as [|t turns IH]; intros g yielded g' k Hk Hrun.
  - simpl in *. injection Hrun as _ <-. rewrite Nat.add_0_r. exact Hk.
  - cbn [exact_test_sampler.generate_turns exact_test_sampler.completions]
      in *.
    destruct (exact_test_sampler.generate_turn POOL_SIZE g t)
      as [yielded1 [e|g1]] eqn:Eturn; [discriminate|].
    cbn [snd].
    destruct (exact_test_sampler.generate_turns POOL_SIZE g1 turns)
      as [more r] eqn:Erest.
    injection Hrun as _ ->.
    pose proof (generate_turn_batch_size _ _ _ _ Eturn) as Hstep.
    destruct (exact_test_sampler.any_completed g t).
    + rewrite (IH g1 more g' (S k)); [|rewrite Hstep, Hk|exact Erest].
      * f_equal. f_equal. f_equal. lia.
      * unfold exact_test_sampler.BATCH_SIZE_GROWTH_FACTOR,
          exact_test_sampler.MAX_BATCH_SIZE.
        rewrite Nat2Z.inj_succ, Z.pow_succ_r by lia.
        assert (0 < 2 ^ Z.of_nat k) by (apply Z.pow_pos_nonneg; lia).
        lia.
    + rewrite (IH g1 more g' k); [|rewrite Hstep; exact Hk|exact Erest].
      reflexivity.
Qed.

Lemma sampler_batch_size
    (readings : list (exact_test_sampler.PoolReading Args)) :
  exact_test_sampler.batch_size
    (exact_test_sampler.generator_start (F := F) POOL_SIZE readings)
  = exact_test_sampler.INITIAL_BATCH_SIZE
  /\ (forall (turns : list (exact_test_sampler.Turn V Args)) yielded g,
        exact_test_sampler._generate_in_parallel POOL_SIZE readings turns
        = (yielded, Ok g) ->
        exact_test_sampler.batch_size g
        = Z.min
            (exact_test_sampler.INITIAL_BATCH_SIZE
             * exact_test_sampler.BATCH_SIZE_GROWTH_FACTOR
               ^ Z.of_nat
                   (exact_test_sampler.completions POOL_SIZE
                      (exact_test_sampler.generator_start POOL_SIZE readings)
                      turns))
            exact_test_sampler.MAX_BATCH_SIZE).
Proof.
  assert (Hstart :
    exact_test_sampler.batch_size
      (exact_test_sampler.generator_start (F := F) POOL_SIZE readings) = 10).
  { unfold exact_test_sampler.generator_start,
      exact_test_sampler.fill_pending_list.
    rewrite fill_pending_loop_batch_size. reflexivity. }
  split; [exact Hstart|].
  intros turns yielded g Hrun.
  unfold exact_test_sampler._generate_in_parallel in Hrun.
  exact (generate_turns_batch_size turns _ yielded g O Hstart Hrun).
Qed.
End SamplerFacts.

Section QueueWorkerFacts.
Variable V : Type.

(** The worker of [exact_test.py] lets its batch size grow by one per batch
    put on the queue, up to [max_batch_size]. *)
Lemma queue_worker_batch_size (values : list V)
    initial_batch_size max_batch_size return_after :
  let w := _generate_in_parallel_worker values initial_batch_size
             max_batch_size return_after in
  returned w = false ->
  batch_size w
  = Z.max initial_batch_size
      (Z.min (initial_batch_size + len (queue w)) max_batch_size).
Proof.
  unfold _generate_in_parallel_worker.
  set (I := fun w : WorkerState V =>
              returned w = false ->
              batch_size w
              = Z.max initial_batch_size
                  (Z.min (initial_batch_size + len (queue w)) max_batch_size)).
  assert (Hstep : forall w value,
            I w -> I (worker_step max_batch_size return_after w value)).
  { intros w value Hw. unfold I, worker_step in *.
    destruct (returned w) eqn:Er; [intros; congruence|].
    specialize (Hw eq_refl).
    destruct (_ >=? batch_size w).
    - destruct (_ >=? return_after); simpl; [discriminate|]. intros _.
      assert (Hlen : len (queue w ++ [batch w ++ [value]]) = len (queue w) + 1).
      { unfold len. rewrite length_app, Nat2Z.inj_add. reflexivity. }
      rewrite Hlen.
      assert (Hq : 0 <= len (queue w)) by (unfold len; lia).
      destruct (batch_size w <? max_batch_size) eqn:E;
        [apply Z.ltb_lt in E|apply Z.ltb_ge in E]; lia.
    - simpl. intros _. exact Hw. }
  assert (Hfold : forall w, I w ->
            I (fold_left (worker_step max_batch_size return_after) values w)).
  { induction values as [|value values' IH]; intros w Hw; [exact Hw|].
    simpl. apply IH, Hstep, Hw. }
  apply Hfold. unfold I, len. simpl. intros _. lia.
Qed.

Lemma initial_work_units_bounds ncpu initial_batch_size max_batch_size
    return_after :
  In (initial_batch_size, max_batch_size, return_after)
    (initial_work_units ncpu) ->
  (initial_batch_size = 0 \/ initial_batch_size = 10 * ncpu)
  /\ max_batch_size = 10 * ncpu.
Proof.
  unfold initial_work_units. intros Hin. apply in_app_or in Hin.
  destruct Hin as [Hin|Hin]; apply repeat_spec in Hin;
    injection Hin as -> -> ->; auto.
Qed.
End QueueWorkerFacts.

Section BatchSizes.
Context {F : Type} `{PyFloat F}.
Variables V Args : Type.
Variable POOL_SIZE : Z.

(** C6, as the code has it.  In the parallel generator of
    [exact_test_sampler.py], [batch_size] is [INITIAL_BATCH_SIZE] = 10 when
    the loop is entered; a turn in which some worker's future has completed
    multiplies it by [BATCH_SIZE_GROWTH_FACTOR] = 2, capped at
    [MAX_BATCH_SIZE] = 10^5, and any other turn leaves it as it is, so that
    it is [min (10 * 2^c) 10^5] after [c] turns that saw a completion.  The
    generator of [exact_test.py] does not grow its batches that way: a
    worker starts at its [initial_batch_size] (0 or [10 * ncpu] for the
    units submitted before the loop) and adds one after each batch put on
    the queue, up to [max_batch_size] ([10 * ncpu]). *)
Theorem batch_size_growth_by_generator :
  exact_test_sampler.INITIAL_BATCH_SIZE = 10
  /\ exact_test_sampler.BATCH_SIZE_GROWTH_FACTOR = 2
  /\ exact_test_sampler.MAX_BATCH_SIZE = 10 ^ 5
  /\ (forall readings : list (exact_test_sampler.PoolReading Args),
        exact_test_sampler.batch_size
          (exact_test_sampler.generator_start (F := F) POOL_SIZE readings)
        = exact_test_sampler.INITIAL_BATCH_SIZE)
  /\ (forall (g : exact_test_sampler.Generator (F := F) Args)
             (t : exact_test_sampler.Turn V Args) yielded g',
        exact_test_sampler.generate_turn POOL_SIZE g t = (yielded, Ok g') ->
        exact_test_sampler.batch_size g'
        = if exact_test_sampler.any_completed g t
          then Z.min (exact_test_sampler.BATCH_SIZE_GROWTH_FACTOR
                      * exact_test_sampler.batch_size g)
                 exact_test_sampler.MAX_BATCH_SIZE
          else exact_test_sampler.batch_size g)
  /\ (forall (readings : list (exact_test_sampler.PoolReading (F := F) Args))
             (turns : list (exact_test_sampler.Turn V Args)) yielded g,
        exact_test_sampler._generate_in_parallel POOL_SIZE readings turns
        = (yielded, Ok g) ->
        exact_test_sampler.batch_size g
        = Z.min
            (exact_test_sampler.INITIAL_BATCH_SIZE
             * exact_test_sampler.BATCH_SIZE_GROWTH_FACTOR
               ^ Z.of_nat
                   (exact_test_sampler.completions POOL_SIZE
                      (exact_test_sampler.generator_start POOL_SIZE readings)
                      turns))
            exact_test_sampler.MAX_BATCH_SIZE)
  /\ (forall (values : list V) initial_batch_size max_batch_size
             return_after,
        returned (_generate_in_parallel_worker values initial_batch_size
                    max_batch_size return_after) = false ->
        batch_size (_generate_in_parallel_worker values initial_batch_size
                      max_batch_size return_after)
        = Z.max initial_batch_size
            (Z.min
               (initial_batch_size
                + len (queue (_generate_in_parallel_worker values
                                initial_batch_size max_batch_size
                                return_after)))
               max_batch_size))
  /\ (forall ncpu initial_batch_size max_batch_size return_after,
        In (initial_batch_size, max_batch_size, return_after)
          (initial_work_units ncpu) ->
        (initial_batch_size = 0 \/ initial_batch_size = 10 * ncpu)
        /\ max_batch_size = 10 * ncpu).
Proof.
  split; [reflexivity|]. split; [reflexivity|]. split; [reflexivity|].
  split.
  { intros readings.
    exact (proj1 (sampler_batch_size V Args POOL_SIZE readings)). }
  split; [exact (generate_turn_batch_size V Args POOL_SIZE)|].
  split.
  { intros readings.
    exact (proj2 (sampler_batch_size V Args POOL_SIZE readings)). }
  split; [exact (queue_worker_batch_size V)|].
  exact initial_work_units_bounds.
Qed.
End BatchSizes.

(* ------------------------------------------------------------------ *)
(** ** The result map along the loop *)

Section ResultMapFacts.
Context {F : Type} `{PyFloat F}.
Variable EXACT : Kernel F.
Variable math_log : F -> option F.
Variable csm : Z -> F -> Z -> F -> bool * F.

Lemma dict_mem_In {V} (d : list (string * V)) name :
  dict_mem String.eqb d name = true <-> In name (map fst d).
Proof.
  unfold dict_mem. split.
  - destruct (dict_get String.eqb d name) as [v|] eqn:E; [|discriminate].
    intros _. apply dict_get_In in E. destruct E as [k' [Hin Hk]].
    apply String.eqb_eq in Hk. subst k'.
    apply (in_map fst) in Hin. exact Hin.
  - intros Hin.
    destruct (dict_get String.eqb d name) eqn:E; [reflexivity|].
    exfalso. exact (dict_get_None String.eqb string_eqb_eq d name E Hin).
Qed.

Lemma dict_set_keys_present {V} (d : list (string * V)) name v :
  In name (map fst d) -> map fst (dict_set String.eqb d name v) = map fst d.
Proof.
  intros Hin. rewrite (dict_set_keys String.eqb).
  apply dict_mem_In in Hin. rewrite Hin. reflexivity.
Qed.

Lemma dict_set_keys_absent {V} (d : list (string * V)) name v :
  dict_mem String.eqb d name = false ->
  map fst (dict_set String.eqb d name v) = map fst d ++ [name].
Proof.
  intros Hmem. rewrite (dict_set_keys String.eqb), Hmem.
  reflexivity.
Qed.

Lemma dict_lookup_In {V} (d : list (string * V)) name v :
  dict_lookup d name = Ok v -> In name (map fst d).
Proof.
  intros Hl. apply dict_lookup_Ok in Hl. apply dict_mem_In.
  unfold dict_mem. rewrite Hl. reflexivity.
Qed.

(** What [_significance_test] can do to the result map. *)
Lemma significance_test_shape ret eps log_inner_eps name monte_carlo_value
    actual_data actual lte_actual gte_actual trials log ret' :
  snd (_significance_test csm ret eps log_inner_eps name monte_carlo_value
         actual_data actual lte_actual gte_actual trials log) = Ok ret' ->
  ret' = ret \/ exists result, ret' = dict_set String.eqb ret name result.
Proof.
  unfold _significance_test.
  destruct (csm trials eps lte_actual log_inner_eps) as [lt_significant ?].
  destruct (csm trials eps gte_actual log_inner_eps) as [gt_significant ?].
  rewrite snd_pbind. destruct log; cbn [print_to emit pure snd lift];
    destruct lt_significant, gt_significant; unfold in_tail;
    destruct (trials =? 0); cbn [bind];
    try discriminate;
    repeat match goal with
           | |- context [if ?c then _ else _] => destruct c; cbn [bind]
           end;
    intros Heq; injection Heq as <-; eauto.
Qed.

Lemma count_entry_keys (actual_stats : @Values F) accs entry accs' :
  count_entry actual_stats accs entry = Ok accs' ->
  map fst accs' = map fst accs.
Proof.
  destruct entry as [name stat]. unfold count_entry. intros Hrun.
  apply bind_Ok_inv in Hrun. destruct Hrun as [actual [_ Hrun]].
  apply bind_Ok_inv in Hrun. destruct Hrun as [current [Hcur Hrun]].
  injection Hrun as <-. apply dict_set_keys_present.
  exact (dict_lookup_In _ _ _ Hcur).
Qed.

Lemma count_sample_keys (actual_stats sample : @Values F) accs accs' :
  foldM (count_entry actual_stats) sample accs = Ok accs' ->
  map fst accs' = map fst accs.
Proof.
  apply (foldM_invariant (fun s => map fst s = map fst accs)); [|reflexivity].
  intros s x s' _ Hs Hstep. rewrite <- Hs.
  exact (count_entry_keys _ _ _ _ Hstep).
Qed.

Lemma ret_extends_refl (ret : list (string * Result F)) : ret_extends ret ret.
Proof. intros name result Hget. exact Hget. Qed.

Lemma ret_extends_trans (r1 r2 r3 : list (string * Result F)) :
  ret_extends r1 r2 -> ret_extends r2 r3 -> ret_extends r1 r3.
Proof. intros H12 H23 name result Hget. apply H23, H12, Hget. Qed.

(** One pass of the test loop over an accumulator: the result map keeps
    what it had, and gains at most the entry of a known, undecided name. *)
Lemma test_entry_keys eps log_inner_eps actual_data
    (actual_stats sample : @Values F) log ret name acc ret' :
  In name (map fst actual_stats) ->
  NoDup (map fst ret) -> incl (map fst ret) (map fst actual_stats) ->
  snd (test_entry csm eps log_inner_eps actual_data actual_stats sample log
         ret (name, acc)) = Ok ret' ->
  NoDup (map fst ret') /\ incl (map fst ret') (map fst actual_stats)
  /\ ret_extends ret ret'.
Proof.
  intros Hname Hnd Hincl. unfold test_entry.
  destruct (dict_mem String.eqb ret name) eqn:Emem.
  - simpl. intros Heq. injection Heq as <-.
    split; [exact Hnd|]. split; [exact Hincl|apply ret_extends_refl].
  - intros Hrun. apply pbind_Ok_inv in Hrun.
    destruct Hrun as [monte_carlo_value [_ Hrun]].
    apply pbind_Ok_inv in Hrun. destruct Hrun as [actual [_ Hrun]].
    apply significance_test_shape in Hrun.
    destruct Hrun as [->|[result ->]].
    + split; [exact Hnd|]. split; [exact Hincl|apply ret_extends_refl].
    + split; [apply NoDup_dict_set; [exact string_eqb_eq|exact Hnd]|].
      split.
      * rewrite (dict_set_keys_absent _ _ _ Emem).
        apply incl_app; [exact Hincl|].
        intros x [<-|[]]. exact Hname.
      * intros name0 result0 Hget.
        rewrite (dict_get_set String.eqb string_eqb_eq).
        destruct (String.eqb name name0) eqn:E; [|exact Hget].
        apply String.eqb_eq in E. subst name0.
        unfold dict_mem in Emem. rewrite Hget in Emem. discriminate.
Qed.

Lemma test_sample_keys eps log_inner_eps actual_data
    (actual_stats sample : @Values F) log accs ret ret' :
  incl (map fst accs) (map fst actual_stats) ->
  NoDup (map fst ret) -> incl (map fst ret) (map fst actual_stats) ->
  snd (pfoldM (test_entry csm eps log_inner_eps actual_data actual_stats
                 sample log) accs ret) = Ok ret' ->
  NoDup (map fst ret') /\ incl (map fst ret') (map fst actual_stats)
  /\ ret_extends ret ret'.
Proof.
  intros Haccs Hnd Hincl Hrun.
  apply (pfoldM_invariant
           (fun r => NoDup (map fst r)
                     /\ incl (map fst r) (map fst actual_stats)
                     /\ ret_extends ret r)
           (test_entry csm eps log_inner_eps actual_data actual_stats
              sample log) accs) with (s := ret); [| |exact Hrun].
  - intros s [name acc] s' Hin [Hs1 [Hs2 Hs3]] Hstep.
    assert (Hname : In name (map fst actual_stats)).
    { apply Haccs. apply (in_map fst) in Hin. exact Hin. }
    destruct (test_entry_keys _ _ _ _ _ _ _ _ _ _ Hname Hs1 Hs2 Hstep)
      as [Hn [Hi He]].
    split; [exact Hn|]. split; [exact Hi|].
    exact (ret_extends_trans _ _ _ Hs3 He).
  - split; [exact Hnd|]. split; [exact Hincl|apply ret_extends_refl].
Qed.

(** The dict comprehension that builds the returned map. *)
Lemma collect_results_fold (ret : list (string * Result F))
    (entries : @Values F) : forall out results,
  foldM (fun out entry =>
           bind (dict_lookup ret (fst entry))
             (fun result => Ok (dict_set String.eqb out (fst entry) result)))
        entries out = Ok results ->
  (forall name, In name (map fst entries) ->
     dict_get String.eqb results name = dict_get String.eqb ret name
     /\ dict_get String.eqb ret name <> None)
  /\ (forall name, ~ In name (map fst entries) ->
        dict_get String.eqb results name = dict_get String.eqb out name)
  /\ (NoDup (map fst out ++ map fst entries) ->
      map fst results = map fst out ++ map fst entries).
Proof.
  induction entries as [|[name0 v0] entries IH]; intros out results Hrun.
  - simpl in Hrun. injection Hrun as <-. simpl.
    split; [intros ? []|]. split; [reflexivity|].
    rewrite app_nil_r. reflexivity.
  - rewrite foldM_cons in Hrun. apply bind_Ok_inv in Hrun.
    destruct Hrun as [out1 [Hstep Hrun]]. cbn [fst] in Hstep.
    apply bind_Ok_inv in Hstep. destruct Hstep as [result [Hres Hstep]].
    injection Hstep as <-. apply dict_lookup_Ok in Hres.
    destruct (IH _ _ Hrun) as [IHin [IHout IHkeys]].
    split; [|split].
    + intros name Hin.
      destruct (in_dec string_dec name (map fst entries)) as [Hlater|Hnot].
      * exact (IHin name Hlater).
      * destruct Hin as [Heq|Hin]; [|contradiction]. simpl in Heq.
        subst name0. rewrite (IHout name Hnot).
        rewrite (dict_get_set String.eqb string_eqb_eq), String.eqb_refl.
        rewrite Hres. split; [reflexivity|discriminate].
    + intros name Hnot. simpl in Hnot.
      rewrite (IHout name (fun Hin => Hnot (or_intror Hin))).
      rewrite (dict_get_set String.eqb string_eqb_eq).
      destruct (String.eqb name0 name) eqn:E; [|reflexivity].
      apply String.eqb_eq in E. exfalso. apply Hnot. left. exact E.
    + intros Hnd. cbn [map fst] in Hnd.
      assert (Habsent : dict_mem String.eqb out name0 = false).
      { destruct (dict_mem String.eqb out name0) eqn:E; [|reflexivity].
        apply dict_mem_In in E. exfalso.
        apply NoDup_remove_2 in Hnd. apply Hnd.
        apply in_or_app. left. exact E. }
      rewrite IHkeys; rewrite (dict_set_keys_absent _ _ _ Habsent).
      * rewrite <- app_assoc. reflexivity.
      * rewrite <- app_assoc. exact Hnd.
Qed.
End ResultMapFacts.

(* ------------------------------------------------------------------ *)
(** ** Names: which results exist, and in which order *)

Section NameFacts.
Context {F : Type} `{PyFloat F}.
Variable EXACT : Kernel F.
Variable math_log : F -> option F.
Variable csm : Z -> F -> Z -> F -> bool * F.

Lemma dict_mem_existsb {V} (d : list (string * V)) name :
  dict_mem String.eqb d name = existsb (String.eqb name) (map fst d).
Proof.
  unfold dict_mem. induction d as [|[k v] d IH]; simpl; [reflexivity|].
  rewrite (String.eqb_sym name k).
  destruct (String.eqb k name); [reflexivity|exact IH].
Qed.

Lemma eval_statistics_keys buf m n (statistics : list (Statistic F)) :
  forall results0 results,
  foldM (eval_statistic EXACT buf m n) statistics results0 = Ok results ->
  map fst results
  = map fst results0
    ++ first_occurrences (map fst results0) (map (@name F) statistics).
Proof.
  induction statistics as [|stat statistics IH]; intros results0 results Hrun.
  - simpl in Hrun. injection Hrun as <-. simpl. rewrite app_nil_r.
    reflexivity.
  - rewrite foldM_cons in Hrun. apply bind_Ok_inv in Hrun.
    destruct Hrun as [results1 [Hstep Hrun]].
    unfold eval_statistic in Hstep. apply bind_Ok_inv in Hstep.
    destruct Hstep as [fn [_ Hstep]]. injection Hstep as <-.
    rewrite (IH _ _ Hrun). cbn [map first_occurrences].
    rewrite (dict_set_keys String.eqb), <- dict_mem_existsb.
    destruct (dict_mem String.eqb results0 (name stat)); [reflexivity|].
    rewrite <- app_assoc. reflexivity.
Qed.

Lemma eval_statistics_NoDup buf m n (statistics : list (Statistic F)) :
  forall results0 results,
  NoDup (map fst results0) ->
  foldM (eval_statistic EXACT buf m n) statistics results0 = Ok results ->
  NoDup (map fst results).
Proof.
  intros results0 results Hnd.
  apply (foldM_invariant (fun r => NoDup (map fst r))); [|exact Hnd].
  intros s stat s' _ Hs Hstep. unfold eval_statistic in Hstep.
  apply bind_Ok_inv in Hstep. destruct Hstep as [fn [_ Hstep]].
  injection Hstep as <-.
  apply NoDup_dict_set; [exact string_eqb_eq|exact Hs].
Qed.

Lemma actual_data_results_keys seed sample (statistics : list (Statistic F))
    actual_stats :
  _actual_data_results EXACT seed sample statistics = Ok actual_stats ->
  map fst actual_stats = first_occurrences [] (map (@name F) statistics)
  /\ NoDup (map fst actual_stats).
Proof.
  unfold _actual_data_results. intros Hrun.
  apply bind_Ok_inv in Hrun. destruct Hrun as [buf [_ Hrun]].
  destruct (exact_test_offset_sort EXACT _ _ _ _ _ _) as [xoshiro copy].
  split.
  - exact (eval_statistics_keys _ _ _ _ _ _ Hrun).
  - eapply eval_statistics_NoDup; [|exact Hrun]. constructor.
Qed.

Lemma initial_accumulators_keys (actual_stats : @Values F) :
  NoDup (map fst actual_stats) ->
  map fst (initial_accumulators actual_stats) = map fst actual_stats.
Proof.
  unfold initial_accumulators.
  assert (Hgen : forall (l : @Values F) accs,
            NoDup (map fst accs ++ map fst l) ->
            map fst (fold_left
                       (fun accumulators (entry : string * F) =>
                          dict_set String.eqb accumulators (fst entry)
                            (mkAccumulator 0 0 0)) l accs)
            = map fst accs ++ map fst l).
  { induction l as [|[name0 v] l IH]; intros accs Hnd.
    - simpl. rewrite app_nil_r. reflexivity.
    - cbn [fold_left fst map] in *.
      assert (Habsent : dict_mem String.eqb accs name0 = false).
      { destruct (dict_mem String.eqb accs name0) eqn:E; [|reflexivity].
        apply dict_mem_In in E. exfalso.
        apply NoDup_remove_2 in Hnd. apply Hnd.
        apply in_or_app. left. exact E. }
      rewrite IH; rewrite (dict_set_keys_absent _ _ _ Habsent);
        rewrite <- app_assoc; [reflexivity|exact Hnd]. }
  intros Hnd. exact (Hgen actual_stats [] Hnd).
Qed.

Lemma initial_state_keys (actual_stats : @Values F) :
  NoDup (map fst actual_stats) ->
  loop_keys_invariant actual_stats (initial_state actual_stats).
Proof.
  intros Hnd. unfold loop_keys_invariant. simpl.
  split; [exact (initial_accumulators_keys _ Hnd)|].
  split; [exact Hnd|]. split; [constructor|intros ? []].
Qed.


Lemma loop_body_keys eps log_inner_eps actual_data actual_stats log
    st sample step :
  loop_keys_invariant actual_stats st ->
  snd (loop_body csm eps log_inner_eps actual_data actual_stats log st sample)
  = Ok step ->
  keys_after actual_stats st step.
Proof.
  intros [Hkeys [Hnd [Hret Hincl]]] Hrun. unfold loop_body in Hrun.
  apply pbind_Ok_inv in Hrun. destruct Hrun as [accs [Hcount Hrun]].
  simpl in Hcount. apply count_sample_keys in Hcount.
  rewrite Hkeys in Hcount.
  destruct (negb (_ =? 0)).
  - simpl in Hrun. injection Hrun as <-. unfold keys_after. simpl.
    split; [repeat split; assumption|].
    split; [apply ret_extends_refl|auto].
  - apply pbind_Ok_inv in Hrun. destruct Hrun as [ret' [Htest Hrun]].
    apply test_sample_keys in Htest;
      [|rewrite Hcount; apply incl_refl|exact Hret|exact Hincl].
    destruct Htest as [Hret' [Hincl' Hext]].
    destruct (len ret' =? len actual_stats) eqn:Elen.
    + apply pbind_Ok_inv in Hrun. destruct Hrun as [results [Hcol Hrun]].
      simpl in Hrun, Hcol. injection Hrun as <-. unfold keys_after.
      unfold collect_results in Hcol.
      apply collect_results_fold in Hcol.
      destruct Hcol as [Hin [_ Hk]]. split; [exact (Hk Hnd)|].
      intros name result Hget. rewrite <- (Hext _ _ Hget).
      assert (Hname : In name (map fst (ret st))).
      { apply dict_mem_In. unfold dict_mem. rewrite Hget. reflexivity. }
      exact (proj1 (Hin name (Hincl name Hname))).
    + simpl in Hrun. injection Hrun as <-. unfold keys_after. simpl.
      split; [repeat split; assumption|]. split; [exact Hext|].
      intros _. apply Z.eqb_neq in Elen. unfold len in Elen.
      pose proof (NoDup_incl_length Hret' Hincl') as Hle.
      rewrite !length_map in Hle. lia.
Qed.

Lemma exact_test_loop_keys eps log_inner_eps actual_data actual_stats log
    stream : forall st o,
  loop_keys_invariant actual_stats st ->
  (List.length (ret st) < List.length actual_stats)%nat ->
  snd (exact_test_loop csm eps log_inner_eps actual_data actual_stats log
         stream st) = Ok o ->
  ret_extends (ret st) (outcome_results o)
  /\ match o with
     | Returned results => map fst results = map fst actual_stats
     | Running st' =>
         loop_keys_invariant actual_stats st'
         /\ (List.length (ret st') < List.length actual_stats)%nat
     end.
Proof.
  induction stream as [|pulled stream IH]; intros st o Hinv Hlt Hrun.
  - simpl in Hrun. injection Hrun as <-. simpl.
    split; [apply ret_extends_refl|auto].
  - cbn [exact_test_loop] in Hrun.
    apply pbind_Ok_inv in Hrun. destruct Hrun as [sample [_ Hrun]].
    apply pbind_Ok_inv in Hrun. destruct Hrun as [step [Hstep Hrun]].
    apply (loop_body_keys _ _ _ _ _ _ _ _ Hinv) in Hstep.
    destruct step as [st'|results]; unfold keys_after in Hstep.
    + destruct Hstep as [Hinv' [Hext Hlt']].
      destruct (IH st' o Hinv' (Hlt' Hlt) Hrun) as [Hext' Ho].
      split; [exact (ret_extends_trans _ _ _ Hext Hext')|exact Ho].
    + simpl in Hrun. injection Hrun as <-. simpl.
      destruct Hstep as [Hk Hext]. auto.
Qed.

Lemma first_occurrences_nonempty name names :
  first_occurrences [] (name :: names) <> [].
Proof. simpl. discriminate. Qed.

(** The loop of a run of [exact_test] on a non-empty list, with the facts
    about names that hold when it is entered. *)
Lemma exact_test_enters_loop seed a b stat statistics eps log stream o :
  snd (exact_test EXACT math_log csm seed a b (stat :: statistics) eps log
         stream) = Ok o ->
  exists log_inner_eps actual_stats,
    inner_eps_log math_log
      (corrected_eps eps (len (stat :: statistics))) = Ok log_inner_eps
    /\ _actual_data_results EXACT seed (a, b) (stat :: statistics)
       = Ok actual_stats
    /\ map fst actual_stats
       = first_occurrences [] (map (@name F) (stat :: statistics))
    /\ loop_keys_invariant actual_stats (initial_state actual_stats)
    /\ (List.length (ret (initial_state actual_stats))
        < List.length actual_stats)%nat
    /\ snd (exact_test_loop csm
              (corrected_eps eps (len (stat :: statistics)))
              log_inner_eps (a, b) actual_stats log stream
              (initial_state actual_stats)) = Ok o.
Proof.
  intros Hrun. apply exact_test_Ok_inv in Hrun.
  destruct Hrun as [log_inner_eps [actual_stats [Hlog [Hact Hrun]]]].
  pose proof (actual_data_results_keys _ _ _ _ Hact) as [Hkeys Hnd].
  exists log_inner_eps, actual_stats.
  split; [exact Hlog|]. split; [exact Hact|].
  split; [exact Hkeys|]. split; [exact (initial_state_keys _ Hnd)|].
  split; [|exact Hrun].
  simpl. apply (f_equal (@List.length string)) in Hkeys.
  rewrite length_map in Hkeys. rewrite Hkeys. simpl. lia.
Qed.

(** A run that is extended: the loop goes on from the state reached. *)
Lemma exact_test_prefix_loop seed a b stat statistics eps log stream more
    st o :
  snd (exact_test EXACT math_log csm seed a b (stat :: statistics) eps log
         stream) = Ok (Running st) ->
  snd (exact_test EXACT math_log csm seed a b (stat :: statistics) eps log
         (stream ++ more)) = Ok o ->
  exists log_inner_eps actual_stats,
    map fst actual_stats
    = first_occurrences [] (map (@name F) (stat :: statistics))
    /\ loop_keys_invariant actual_stats st
    /\ (List.length (ret st) < List.length actual_stats)%nat
    /\ snd (exact_test_loop csm
              (corrected_eps eps (len (stat :: statistics)))
              log_inner_eps (a, b) actual_stats log more st) = Ok o.
Proof.
  intros Hrun Hmore. apply exact_test_enters_loop in Hrun.
  destruct Hrun as [lie [actual_stats [Hlog [Hact [Hkeys [Hinit [Hlt Hrun]]]]]]].
  rewrite exact_test_snd, Hlog, Hact in Hmore.
  rewrite (exact_test_loop_app _ _ _ _ _ _ _ _ _ _ Hrun) in Hmore.
  apply (exact_test_loop_keys _ _ _ _ _ _ _ _ Hinit Hlt) in Hrun.
  destruct Hrun as [_ [Hinv Hlt']].
  exists lie, actual_stats. auto.
Qed.

(** X1.  A decision is final: a result that the result map holds at some
    point of a run is still there, unchanged, at every later point and in
    the map that [exact_test] returns. *)
Theorem decisions_are_final seed a b statistics eps log stream more st o :
  snd (exact_test EXACT math_log csm seed a b statistics eps log stream)
  = Ok (Running st) ->
  snd (exact_test EXACT math_log csm seed a b statistics eps log
         (stream ++ more)) = Ok o ->
  forall name result,
    dict_get String.eqb (ret st) name = Some result ->
    dict_get String.eqb (outcome_results o) name = Some result.
Proof.
  intros Hrun Hmore. destruct statistics as [|stat statistics];
    [discriminate|].
  destruct (exact_test_prefix_loop _ _ _ _ _ _ _ _ _ _ _ Hrun Hmore)
    as [lie [actual_stats [_ [Hinv [Hlt Hloop]]]]].
  exact (proj1 (exact_test_loop_keys _ _ _ _ _ _ _ _ Hinv Hlt Hloop)).
Qed.

(** X2.  The map that [exact_test] returns has one entry per distinct
    statistic name, in the order in which the names first occur in
    [statistics]. *)
Theorem returned_names_in_order seed a b statistics eps log stream results :
  snd (exact_test EXACT math_log csm seed a b statistics eps log stream)
  = Ok (Returned results) ->
  map fst results = first_occurrences [] (map (@name F) statistics)
  /\ NoDup (map fst results).
Proof.
  intros Hrun. destruct statistics as [|stat statistics].
  - simpl in Hrun. injection Hrun as <-. split; [reflexivity|constructor].
  - apply exact_test_enters_loop in Hrun.
    destruct Hrun as [lie [actual_stats [_ [_ [Hkeys [Hinit [Hlt Hrun]]]]]]].
    apply (exact_test_loop_keys _ _ _ _ _ _ _ _ Hinit Hlt) in Hrun.
    destruct Hrun as [_ Hres]. rewrite Hres. split; [exact Hkeys|].
    exact (proj1 (proj2 Hinit)).
Qed.

(** X3.  While [exact_test] is still sampling, some statistic is undecided:
    the result map is strictly smaller than the map of accumulators, and
    a name with an accumulator and no result exists. *)
Theorem running_has_undecided seed a b statistics eps log stream st :
  snd (exact_test EXACT math_log csm seed a b statistics eps log stream)
  = Ok (Running st) ->
  (List.length (ret st) < List.length (accumulators st))%nat
  /\ exists name,
       In name (map fst (accumulators st))
       /\ dict_get String.eqb (ret st) name = None.
Proof.
  intros Hrun. destruct statistics as [|stat statistics]; [discriminate|].
  apply exact_test_enters_loop in Hrun.
  destruct Hrun as [lie [actual_stats [_ [_ [_ [Hinit [Hlt Hrun]]]]]]].
  apply (exact_test_loop_keys _ _ _ _ _ _ _ _ Hinit Hlt) in Hrun.
  destruct Hrun as [_ [[Hkeys [Hnd [Hret Hincl]]] Hlt']].
  assert (Hlen : List.length (accumulators st) = List.length actual_stats).
  { rewrite <- (length_map fst (accumulators st)), Hkeys, length_map.
    reflexivity. }
  split; [lia|].
  destruct (find (fun name => negb (dict_mem String.eqb (ret st) name))
              (map fst (accumulators st))) as [name|] eqn:Efind.
  - apply find_some in Efind. destruct Efind as [Hin Hneg].
    exists name. split; [exact Hin|].
    apply negb_true_iff in Hneg. unfold dict_mem in Hneg.
    destruct (dict_get String.eqb (ret st) name); [discriminate|reflexivity].
  - exfalso.
    assert (Hall : incl (map fst actual_stats) (map fst (ret st))).
    { intros name Hin. rewrite <- Hkeys in Hin.
      pose proof (find_none _ _ Efind name Hin) as Hneg.
      apply negb_false_iff in Hneg. apply dict_mem_In. exact Hneg. }
    pose proof (NoDup_incl_length Hnd Hall) as Hle.
    rewrite !length_map in Hle. lia.
Qed.
End NameFacts.

(* ------------------------------------------------------------------ *)
(** ** The values that reach [csm] *)

Section CsmArguments.
Context {F : Type} `{PyFloat F}.
Variable EXACT : Kernel F.
Variable math_log : F -> option F.

(** A test turn applies the rule to every accumulator without a result,
    with [csm] called on the loop's [eps] and [log_inner_eps]. *)
Lemma test_sample_judged csm eps log_inner_eps actual_data
    (actual_stats sample : @Values F) log accs :
  forall ret ret',
  (forall name acc,
     In (name, acc) accs -> In name (map fst sample) -> trials acc <> 0) ->
  snd (pfoldM (test_entry csm eps log_inner_eps actual_data actual_stats
                 sample log) accs ret) = Ok ret' ->
  ret' = judge_all csm eps log_inner_eps actual_data actual_stats accs ret.
Proof.
  induction accs as [|[name acc] accs IH]; intros ret ret' Hcounted Hrun.
  - simpl in Hrun. injection Hrun as <-. reflexivity.
  - cbn [pfoldM] in Hrun. apply pbind_Ok_inv in Hrun.
    destruct Hrun as [ret1 [Hentry Hrun]].
    assert (Hret1 : ret1 = judge_entry csm eps log_inner_eps actual_data
                             actual_stats ret (name, acc)).
    { unfold test_entry in Hentry. unfold judge_entry.
      destruct (dict_mem String.eqb ret name).
      - simpl in Hentry. injection Hentry as <-. reflexivity.
      - apply pbind_Ok_inv in Hentry.
        destruct Hentry as [monte_carlo_value [Hmc Hentry]].
        apply pbind_Ok_inv in Hentry.
        destruct Hentry as [actual [Hactual Hentry]].
        simpl in Hmc, Hactual.
        apply dict_lookup_In in Hmc. apply dict_lookup_Ok in Hactual.
        rewrite Hactual.
        rewrite (significance_test_judged csm) in Hentry.
        + injection Hentry as <-. reflexivity.
        + exact (Hcounted name acc (or_introl eq_refl) Hmc). }
    subst ret1. unfold judge_all. cbn [fold_left].
    apply IH; [|exact Hrun].
    intros name0 acc0 Hin. apply Hcounted. right. exact Hin.
Qed.

Lemma dict_get_absent {V} (d : list (string * V)) name :
  ~ In name (map fst d) -> dict_get String.eqb d name = None.
Proof.
  intros Hnot. destruct (dict_get String.eqb d name) eqn:E; [|reflexivity].
  exfalso. apply Hnot. apply dict_mem_In. unfold dict_mem. rewrite E.
  reflexivity.
Qed.

Lemma loop_body_judged csm eps log_inner_eps actual_data actual_stats log
    st sample step :
  loop_invariant st -> loop_keys_invariant actual_stats st ->
  (seen st + 1) mod test_every st = 0 ->
  snd (loop_body csm eps log_inner_eps actual_data actual_stats log st sample)
  = Ok step ->
  exists accs,
    foldM (count_entry actual_stats) sample (accumulators st) = Ok accs
    /\ forall name,
         dict_get String.eqb
           match step with
           | Continue st' => ret st'
           | Return results => results
           end name
         = dict_get String.eqb
             (judge_all csm eps log_inner_eps actual_data actual_stats accs
                (ret st)) name.
Proof.
  intros [Hacc _] [Hkeys [Hnd [Hret Hincl]]] Hturn Hrun.
  unfold loop_body in Hrun.
  apply pbind_Ok_inv in Hrun. destruct Hrun as [accs [Hcount Hrun]].
  simpl in Hcount. exists accs. split; [exact Hcount|].
  pose proof (count_sample_counted _ _ _ _ Hacc Hcount) as Hcounted.
  pose proof (count_sample_keys _ _ _ _ Hcount) as Hacckeys.
  rewrite Hturn in Hrun. cbn [Z.eqb negb] in Hrun.
  apply pbind_Ok_inv in Hrun. destruct Hrun as [ret' [Htest Hrun]].
  pose proof Htest as Hjudged.
  apply test_sample_judged in Hjudged.
  - subst ret'.
    apply (test_sample_keys csm) in Htest;
      [|rewrite Hacckeys, Hkeys; apply incl_refl|exact Hret|exact Hincl].
    destruct Htest as [Hret' [Hincl' _]].
    destruct (len _ =? len actual_stats).
    + apply pbind_Ok_inv in Hrun. destruct Hrun as [results [Hcol Hrun]].
      simpl in Hrun, Hcol. injection Hrun as <-.
      unfold collect_results in Hcol. apply collect_results_fold in Hcol.
      destruct Hcol as [Hin [Hout _]]. intros name.
      destruct (in_dec string_dec name (map fst actual_stats)) as [Hn|Hn].
      * exact (proj1 (Hin name Hn)).
      * rewrite (Hout name Hn). simpl. symmetry. apply dict_get_absent.
        intros Hname. exact (Hn (Hincl' name Hname)).
    + simpl in Hrun. injection Hrun as <-. reflexivity.
  - intros name acc Hin Hname.
    pose proof (Hcounted name Hname acc Hin). lia.
Qed.

(** C2.  With a non-empty list of statistics, [exact_test] first replaces
    [eps] by [eps / (2 * len(statistics) * 1.1)] and takes
    [log_inner_eps = math.log(eps / 10)] of the corrected value; when the
    logarithm is undefined it raises before anything else happens.  Every
    call of [csm] receives these two values: two [csm] functions that agree
    wherever [eps] and [log_inner_eps] are the corrected ones give the same
    run, whatever they do elsewhere; and at every turn in which the loop
    tests, the result map becomes what the decision rule makes of it with
    [csm] applied to the trials and counts of each undecided accumulator,
    to the corrected [eps] and to that [log_inner_eps]. *)
Theorem corrected_eps_reaches_csm seed a b stat statistics eps log stream :
  let corrected :=
    fdiv eps (fmul (of_int (2 * len (stat :: statistics))) (flit 1.1)) in
  (forall csm,
     math_log (fdiv corrected (of_int 10)) = None ->
     exact_test EXACT math_log csm seed a b (stat :: statistics) eps log
       stream
     = ([], Raise (ValueError "math domain error")))
  /\ (forall csm1 csm2 log_inner_eps,
        math_log (fdiv corrected (of_int 10)) = Some log_inner_eps ->
        (forall trials successes,
           csm1 trials corrected successes log_inner_eps
           = csm2 trials corrected successes log_inner_eps) ->
        exact_test EXACT math_log csm1 seed a b (stat :: statistics) eps log
          stream
        = exact_test EXACT math_log csm2 seed a b (stat :: statistics) eps
            log stream)
  /\ (forall csm log_inner_eps actual_stats st sample o,
        math_log (fdiv corrected (of_int 10)) = Some log_inner_eps ->
        _actual_data_results EXACT seed (a, b) (stat :: statistics)
        = Ok actual_stats ->
        snd (exact_test EXACT math_log csm seed a b (stat :: statistics) eps
               log stream) = Ok (Running st) ->
        (seen st + 1) mod test_every st = 0 ->
        snd (exact_test EXACT math_log csm seed a b (stat :: statistics) eps
               log (stream ++ [Ok sample])) = Ok o ->
        exists accs,
          foldM (count_entry actual_stats) sample (accumulators st) = Ok accs
          /\ forall name,
               dict_get String.eqb (outcome_results o) name
               = dict_get String.eqb
                   (judge_all csm corrected log_inner_eps (a, b)
                      actual_stats accs (ret st)) name).
Proof.
  intros corrected. split; [|split].
  - intros csm Hlog. unfold exact_test, inner_eps_log, corrected_eps.
    fold corrected. rewrite Hlog. reflexivity.
  - intros csm1 csm2 log_inner_eps Hlog Hagree.
    unfold exact_test, inner_eps_log, corrected_eps.
    fold corrected. rewrite Hlog. simpl.
    destruct (_actual_data_results EXACT seed (a, b) (stat :: statistics))
      as [e|actual_stats]; simpl; [reflexivity|].
    rewrite (exact_test_loop_csm csm1 csm2 corrected log_inner_eps Hagree).
    reflexivity.
  - intros csm log_inner_eps actual_stats st sample o Hlog Hact Hrun Hturn
      Hmore.
    pose proof Hrun as Henter. apply exact_test_enters_loop in Henter.
    destruct Henter as [lie [actual_stats0 [Hlog0 [Hact0 [_ [Hkeys0 [Hlt0
                          Hloop]]]]]]].
    unfold inner_eps_log, corrected_eps in Hlog0. fold corrected in Hlog0.
    rewrite Hlog in Hlog0. injection Hlog0 as <-.
    rewrite Hact in Hact0. injection Hact0 as <-.
    fold (corrected_eps eps (len (stat :: statistics))) in corrected.
    rewrite exact_test_snd in Hmore. unfold inner_eps_log in Hmore.
    fold corrected in Hmore. rewrite Hlog, Hact in Hmore.
    rewrite (exact_test_loop_app _ _ _ _ _ _ _ _ _ _ Hloop) in Hmore.
    pose proof (exact_test_loop_invariant csm _ _ _ _ _ _ _ _
                  (initial_state_invariant actual_stats) Hloop) as Hinv.
    pose proof (exact_test_loop_keys csm _ _ _ _ _ _ _ _
                  Hkeys0 Hlt0 Hloop) as [_ [Hkeys _]].
    cbn [exact_test_loop] in Hmore.
    apply pbind_Ok_inv in Hmore. destruct Hmore as [sample0 [Hs Hmore]].
    simpl in Hs. injection Hs as <-.
    apply pbind_Ok_inv in Hmore. destruct Hmore as [step [Hstep Hmore]].
    destruct (loop_body_judged csm _ _ _ _ _ _ _ _ Hinv Hkeys Hturn Hstep)
      as [accs [Hcount Hjudged]].
    exists accs. split; [exact Hcount|].
    destruct step as [st'|results]; simpl in Hmore; injection Hmore as <-;
      exact Hjudged.
Qed.
End CsmArguments.

(* ------------------------------------------------------------------ *)
(** ** The test schedule *)

Section ScheduleFacts.
Context {F : Type} `{PyFloat F}.
Variable EXACT : Kernel F.
Variable math_log : F -> option F.
Variable csm : Z -> F -> Z -> F -> bool * F.

Lemma loop_body_seen eps log_inner_eps actual_data actual_stats log
    st sample st' :
  snd (loop_body csm eps log_inner_eps actual_data actual_stats log st sample)
  = Ok (Continue st') ->
  seen st' = seen st + 1
  /\ (((seen st + 1) mod test_every st =? 0) = false ->
      test_every st' = test_every st /\ ret st' = ret st)
  /\ (((seen st + 1) mod test_every st =? 0) = true ->
      test_every st'
      = if seen st + 1 >=? 40 * test_every st then test_every st * 10
        else test_every st).
Proof.
  unfold loop_body. intros Hrun.
  apply pbind_Ok_inv in Hrun. destruct Hrun as [accs [_ Hrun]].
  destruct ((seen st + 1) mod test_every st =? 0) eqn:E; cbn [negb] in Hrun.
  - apply pbind_Ok_inv in Hrun. destruct Hrun as [ret' [_ Hrun]].
    destruct (len ret' =? len actual_stats).
    + apply pbind_Ok_inv in Hrun. destruct Hrun as [results [_ Hrun]].
      discriminate.
    + simpl in Hrun. injection Hrun as <-. simpl.
      split; [reflexivity|]. split; [discriminate|reflexivity].
  - simpl in Hrun. injection Hrun as <-. simpl.
    split; [reflexivity|]. split; [auto|discriminate].
Qed.

Lemma loop_body_schedule eps log_inner_eps actual_data actual_stats log
    st sample st' :
  schedule_invariant st ->
  snd (loop_body csm eps log_inner_eps actual_data actual_stats log st sample)
  = Ok (Continue st') ->
  schedule_invariant st'.
Proof.
  intros [[j Hj] [Hseen Hgrown]] Hrun.
  apply loop_body_seen in Hrun. destruct Hrun as [Hs [Hskip Htest]].
  assert (Hpos : 0 < test_every st).
  { rewrite Hj. assert (0 < 10 ^ Z.of_nat j) by (apply Z.pow_pos_nonneg; lia).
    lia. }
  unfold schedule_invariant. rewrite Hs.
  destruct ((seen st + 1) mod test_every st =? 0) eqn:E.
  - rewrite (Htest eq_refl).
    destruct (seen st + 1 >=? 40 * test_every st) eqn:E40.
    + apply Z.geb_le in E40. split; [|lia].
      exists (S j). rewrite Hj, Nat2Z.inj_succ, Z.pow_succ_r by lia. lia.
    + rewrite Z.geb_leb in E40. apply Z.leb_gt in E40.
      split; [exists j; exact Hj|]. lia.
  - destruct (Hskip eq_refl) as [-> _].
    split; [exists j; exact Hj|].
    apply Z.eqb_neq in E.
    assert (seen st + 1 <> 40 * test_every st).
    { intros Heq. apply E. rewrite Heq. apply Z.mod_mul. lia. }
    lia.
Qed.

Lemma exact_test_loop_schedule eps log_inner_eps actual_data actual_stats
    log stream : forall st st',
  schedule_invariant st ->
  snd (exact_test_loop csm eps log_inner_eps actual_data actual_stats log
         stream st) = Ok (Running st') ->
  schedule_invariant st' /\ seen st' = seen st + len stream.
Proof.
  induction stream as [|pulled stream IH]; intros st st' Hinv Hrun.
  - simpl in Hrun. injection Hrun as <-. unfold len. simpl.
    split; [exact Hinv|lia].
  - cbn [exact_test_loop] in Hrun.
    apply pbind_Ok_inv in Hrun. destruct Hrun as [sample [_ Hrun]].
    apply pbind_Ok_inv in Hrun. destruct Hrun as [step [Hstep Hrun]].
    destruct step as [st1|results]; [|discriminate].
    pose proof (loop_body_schedule _ _ _ _ _ _ _ _ Hinv Hstep) as Hinv1.
    apply loop_body_seen in Hstep. destruct Hstep as [Hs _].
    destruct (IH st1 st' Hinv1 Hrun) as [Hinv' Hseen].
    split; [exact Hinv'|].
    rewrite Hseen, Hs. unfold len. cbn [List.length].
    rewrite Nat2Z.inj_succ. lia.
Qed.

Lemma exact_test_loop_warm_up eps log_inner_eps actual_data actual_stats
    log stream : forall st o,
  test_every st = 250 -> 0 <= seen st -> seen st + len stream < 250 ->
  snd (exact_test_loop csm eps log_inner_eps actual_data actual_stats log
         stream st) = Ok o ->
  exists st', o = Running st' /\ ret st' = ret st.
Proof.
  induction stream as [|pulled stream IH]; intros st o HT Hseen Hlen Hrun.
  - simpl in Hrun. injection Hrun as <-. eauto.
  - cbn [exact_test_loop] in Hrun.
    apply pbind_Ok_inv in Hrun. destruct Hrun as [sample [_ Hrun]].
    apply pbind_Ok_inv in Hrun. destruct Hrun as [step [Hstep Hrun]].
    unfold len in Hlen, IH. cbn [List.length] in Hlen.
    rewrite Nat2Z.inj_succ in Hlen.
    assert (Hmod : ((seen st + 1) mod test_every st =? 0) = false).
    { rewrite HT. apply Z.eqb_neq. rewrite Z.mod_small; lia. }
    destruct step as [st1|results].
    + apply loop_body_seen in Hstep. destruct Hstep as [Hs [Hskip _]].
      destruct (Hskip Hmod) as [HT1 Hret1].
      destruct (IH st1 o) as [st' [Ho Hret']];
        [congruence|lia|lia|exact Hrun|].
      exists st'. split; [exact Ho|congruence].
    + exfalso. unfold loop_body in Hstep.
      apply pbind_Ok_inv in Hstep. destruct Hstep as [accs [_ Hstep]].
      rewrite Hmod in Hstep. discriminate.
Qed.

Lemma initial_state_schedule (actual_stats : @Values F) :
  schedule_invariant (initial_state actual_stats).
Proof.
  unfold schedule_invariant. simpl.
  split; [exists O; reflexivity|]. lia.
Qed.

(** X4.  The test schedule.  While [exact_test] is sampling, [seen] is the
    number of samples consumed, and [test_every] is 250 times a power of
    ten that stays above a fortieth of [seen] and, once it has grown, below
    a quarter of it. *)
Theorem test_schedule seed a b statistics eps log stream st :
  snd (exact_test EXACT math_log csm seed a b statistics eps log stream)
  = Ok (Running st) ->
  seen st = len stream
  /\ (exists j : nat, test_every st = 250 * 10 ^ Z.of_nat j)
  /\ seen st < 40 * test_every st
  /\ (test_every st = 250 \/ 4 * test_every st <= seen st).
Proof.
  intros Hrun. destruct statistics as [|stat statistics]; [discriminate|].
  apply exact_test_Ok_inv in Hrun.
  destruct Hrun as [lie [actual_stats [_ [_ Hrun]]]].
  apply exact_test_loop_schedule in Hrun; [|apply initial_state_schedule].
  destruct Hrun as [[Hj [Hseen Hgrown]] Hlen]. simpl in Hlen.
  split; [lia|]. split; [exact Hj|]. split; [lia|exact Hgrown].
Qed.

(** X5.  No decision is made before 250 samples: on fewer samples a run
    that does not fail is still sampling, and its result map is empty. *)
Theorem no_decision_before_250_samples
    seed a b stat statistics eps log stream o :
  len stream < 250 ->
  snd (exact_test EXACT math_log csm seed a b (stat :: statistics) eps log
         stream) = Ok o ->
  exists st, o = Running st /\ ret st = [].
Proof.
  intros Hlen Hrun. apply exact_test_Ok_inv in Hrun.
  destruct Hrun as [lie [actual_stats [_ [_ Hrun]]]].
  apply exact_test_loop_warm_up in Hrun; simpl; try lia.
  exact Hrun.
Qed.
End ScheduleFacts.

(* ------------------------------------------------------------------ *)
(** ** What a run can raise *)

Section ExceptionFacts.
Context {F : Type} `{PyFloat F}.
Variable EXACT : Kernel F.
Variable math_log : F -> option F.
Variable csm : Z -> F -> Z -> F -> bool * F.

Lemma dict_lookup_Raise {V} (d : list (string * V)) name e :
  dict_lookup d name = Raise e -> e = KeyError name.
Proof.
  unfold dict_lookup. destruct (dict_get String.eqb d name); [discriminate|].
  intros Heq. injection Heq as <-. reflexivity.
Qed.

Lemma foldM_Raise {A S} (f : S -> A -> Run S) l : forall s e,
  foldM f l s = Raise e -> exists s0 x, In x l /\ f s0 x = Raise e.
Proof.
  induction l as [|x l IH]; intros s e Hrun; [discriminate|].
  rewrite foldM_cons in Hrun. destruct (f s x) as [e0|s1] eqn:E.
  - simpl in Hrun. injection Hrun as <-. exists s, x. simpl. auto.
  - simpl in Hrun. destruct (IH _ _ Hrun) as [s0 [x0 [Hin Hf]]].
    exists s0, x0. simpl. auto.
Qed.

Lemma pfoldM_Raise {A S} (f : S -> A -> @Prog F S) l : forall s e,
  snd (pfoldM f l s) = Raise e ->
  exists s0 x, In x l /\ snd (f s0 x) = Raise e.
Proof.
  induction l as [|x l IH]; intros s e Hrun; [discriminate|].
  cbn [pfoldM] in Hrun. rewrite snd_pbind in Hrun.
  destruct (snd (f s x)) as [e0|s1] eqn:E.
  - injection Hrun as <-. exists s, x. simpl. auto.
  - destruct (IH _ _ Hrun) as [s0 [x0 [Hin Hf]]].
    exists s0, x0. simpl. auto.
Qed.

Lemma count_sample_Raise (actual_stats sample : @Values F) accs e :
  foldM (count_entry actual_stats) sample accs = Raise e ->
  exists name, e = KeyError name.
Proof.
  intros Hrun. apply foldM_Raise in Hrun.
  destruct Hrun as [s0 [[name stat] [_ Hf]]]. unfold count_entry in Hf.
  destruct (dict_lookup actual_stats name) as [e0|actual] eqn:E1.
  - simpl in Hf. injection Hf as <-. exists name.
    exact (dict_lookup_Raise _ _ _ E1).
  - simpl in Hf. destruct (dict_lookup s0 name) as [e0|current] eqn:E2.
    + simpl in Hf. injection Hf as <-. exists name.
      exact (dict_lookup_Raise _ _ _ E2).
    + discriminate.
Qed.

Lemma test_entry_Raise eps log_inner_eps actual_data
    (actual_stats sample : @Values F) log ret name acc e :
  (In name (map fst sample) -> 1 <= trials acc) ->
  snd (test_entry csm eps log_inner_eps actual_data actual_stats sample log
         ret (name, acc)) = Raise e ->
  e = KeyError name.
Proof.
  intros Hcount. unfold test_entry.
  destruct (dict_mem String.eqb ret name); [discriminate|].
  rewrite snd_pbind. cbn [lift snd].
  destruct (dict_lookup sample name) as [e0|monte_carlo_value] eqn:E1.
  - intros Heq. injection Heq as <-. exact (dict_lookup_Raise _ _ _ E1).
  - rewrite snd_pbind. cbn [lift snd].
    destruct (dict_lookup actual_stats name) as [e0|actual] eqn:E2.
    + intros Heq. injection Heq as <-. exact (dict_lookup_Raise _ _ _ E2).
    + apply dict_lookup_In in E1. apply Hcount in E1.
      rewrite significance_test_judged by lia. discriminate.
Qed.

Lemma loop_body_Raise eps log_inner_eps actual_data actual_stats log
    st sample e :
  loop_invariant st ->
  snd (loop_body csm eps log_inner_eps actual_data actual_stats log st sample)
  = Raise e ->
  exists name, e = KeyError name.
Proof.
  intros [Hacc _]. unfold loop_body. rewrite snd_pbind. cbn [lift snd].
  destruct (foldM (count_entry actual_stats) sample (accumulators st))
    as [e0|accs] eqn:Ecount.
  - intros Heq. injection Heq as <-. exact (count_sample_Raise _ _ _ _ Ecount).
  - pose proof (count_sample_counted _ _ _ _ Hacc Ecount) as Hcounted.
    destruct (negb (_ =? 0)); [discriminate|].
    rewrite snd_pbind.
    destruct (snd (pfoldM _ accs (ret st))) as [e0|ret'] eqn:Etest.
    + intros Heq. injection Heq as <-. apply pfoldM_Raise in Etest.
      destruct Etest as [s0 [[name acc] [Hin Hf]]]. exists name.
      apply (test_entry_Raise _ _ _ _ _ _ _ _ _ _
               (fun Hn => Hcounted name Hn acc Hin) Hf).
    + destruct (len ret' =? len actual_stats); [|discriminate].
      rewrite snd_pbind. cbn [lift snd].
      destruct (collect_results actual_stats ret') as [e0|results] eqn:Ecol;
        [|discriminate].
      intros Heq. injection Heq as <-. unfold collect_results in Ecol.
      apply foldM_Raise in Ecol. destruct Ecol as [s0 [entry [_ Hf]]].
      destruct (dict_lookup ret' (fst entry)) as [e1|result] eqn:E;
        [|discriminate].
      simpl in Hf. injection Hf as <-. exists (fst entry).
      exact (dict_lookup_Raise _ _ _ E).
Qed.

Lemma exact_test_loop_Raise eps log_inner_eps actual_data actual_stats log
    stream : forall st e,
  loop_invariant st ->
  snd (exact_test_loop csm eps log_inner_eps actual_data actual_stats log
         stream st) = Raise e ->
  In (Raise e) stream \/ exists name, e = KeyError name.
Proof.
  induction stream as [|pulled stream IH]; intros st e Hinv Hrun;
    [discriminate|].
  cbn [exact_test_loop] in Hrun. rewrite snd_pbind in Hrun.
  cbn [lift snd] in Hrun. destruct pulled as [e0|sample].
  - injection Hrun as <-. left. left. reflexivity.
  - rewrite snd_pbind in Hrun.
    destruct (snd (loop_body csm eps log_inner_eps actual_data actual_stats
                     log st sample)) as [e0|[st'|results]] eqn:Estep.
    + injection Hrun as <-. right.
      exact (loop_body_Raise _ _ _ _ _ _ _ _ Hinv Estep).
    + pose proof (loop_body_invariant _ _ _ _ _ _ _ _ _ Hinv Estep) as Hinv'.
      destruct (IH st' e Hinv' Hrun) as [Hin|Hkey]; [left; right|right];
        assumption.
    + discriminate.
Qed.

(** Where an exception of a run comes from, the native calls being taken
    to return. *)
Lemma exact_test_Raise_cases seed a b statistics eps log stream e :
  snd (exact_test EXACT math_log csm seed a b statistics eps log stream)
  = Raise e ->
  e = ValueError "math domain error"
  \/ (exists x, e = OverflowError x)
  \/ (exists fn_name, e = AttributeError fn_name)
  \/ In (Raise e) stream
  \/ exists name, e = KeyError name.
Proof.
  intros Hrun.
  destruct statistics as [|stat statistics]; [discriminate|].
  rewrite exact_test_snd in Hrun. unfold inner_eps_log in Hrun.
  destruct (math_log _) as [lie|].
  - pose proof (actual_data_results_cases EXACT seed a b
                  (stat :: statistics)) as Hact.
    destruct (_actual_data_results EXACT seed (a, b) (stat :: statistics))
      as [e0|actual_stats].
    + injection Hrun as <-.
      destruct Hact as [[x [_ [_ ->]]]|[_ [s [_ [_ ->]]]]]; eauto.
    + apply exact_test_loop_Raise in Hrun;
        [|apply initial_state_invariant].
      destruct Hrun as [Hin|Hkey]; auto.
  - injection Hrun as <-. left. reflexivity.
Qed.

(** X6.  The divisions [lte_actual / trials] and [gte_actual / trials] of
    [_significance_test] are never by zero in a run of [exact_test]: every
    accumulator that is tested has counted the sample of its turn.  The run
    does not end in [ZeroDivisionError], unless the sampler delivers that
    very exception. *)
Theorem exact_test_never_divides_by_zero
    seed a b statistics eps log stream e :
  snd (exact_test EXACT math_log csm seed a b statistics eps log stream)
  = Raise e ->
  ~ In (Raise ZeroDivisionError) stream ->
  e <> ZeroDivisionError.
Proof.
  intros Hrun Hstream ->.
  destruct (exact_test_Raise_cases _ _ _ _ _ _ _ _ Hrun)
    as [Hc|[[x Hc]|[[s Hc]|[Hc|[n Hc]]]]]; try discriminate.
  exact (Hstream Hc).
Qed.
End ExceptionFacts.

(* ------------------------------------------------------------------ *)
(** ** The values computed on the actual data and on a permutation *)

Section KernelFacts.
Context {F : Type} `{PyFloat F}.
Variable EXACT : Kernel F.

Lemma foldM_app {A S} (f : S -> A -> Run S) l1 l2 s :
  foldM f (l1 ++ l2) s = bind (foldM f l1 s) (fun s1 => foldM f l2 s1).
Proof.
  revert s. induction l1 as [|x l1 IH]; intros s; [reflexivity|].
  simpl. destruct (f s x) as [e|s1]; [reflexivity|]. simpl. apply IH.
Qed.

Lemma dict_set_In_keys {V} (d : list (string * V)) key v name :
  In name (map fst (dict_set String.eqb d key v))
  <-> name = key \/ In name (map fst d).
Proof.
  rewrite (dict_set_keys String.eqb).
  destruct (dict_mem String.eqb d key) eqn:E.
  - apply dict_mem_In in E. split; [auto|].
    intros [->|Hin]; assumption.
  - rewrite in_app_iff. simpl. split.
    + intros [Hin|[<-|[]]]; auto.
    + intros [->|Hin]; auto.
Qed.

Lemma eval_statistic_Ok buf m n results stat results' :
  eval_statistic EXACT buf m n results stat = Ok results' ->
  exists fn,
    exact_fn EXACT (fn_name stat) = Some fn
    /\ results'
       = dict_set String.eqb results (name stat) (fn buf m n (fn_args stat)).
Proof.
  unfold eval_statistic, getattr_EXACT.
  destruct (exact_fn EXACT (fn_name stat)) as [fn|]; [|discriminate].
  simpl. intros Heq. injection Heq as <-. eauto.
Qed.

Lemma eval_statistics_In_keys buf m n (statistics : list (Statistic F)) :
  forall results0 results,
  foldM (eval_statistic EXACT buf m n) statistics results0 = Ok results ->
  forall name0,
    In name0 (map fst results)
    <-> In name0 (map fst results0) \/ In name0 (map (@name F) statistics).
Proof.
  induction statistics as [|stat statistics IH]; intros results0 results Hrun
    name0.
  - simpl in Hrun. injection Hrun as <-. simpl. tauto.
  - rewrite foldM_cons in Hrun. apply bind_Ok_inv in Hrun.
    destruct Hrun as [results1 [Hstep Hrun]].
    apply eval_statistic_Ok in Hstep. destruct Hstep as [fn [_ ->]].
    rewrite (IH _ _ Hrun name0), dict_set_In_keys. simpl.
    split; intros Hcase; intuition auto.
Qed.

Lemma eval_statistics_other buf m n (statistics : list (Statistic F)) :
  forall results0 results,
  foldM (eval_statistic EXACT buf m n) statistics results0 = Ok results ->
  forall name0,
    ~ In name0 (map (@name F) statistics) ->
    dict_get String.eqb results name0 = dict_get String.eqb results0 name0.
Proof.
  induction statistics as [|stat statistics IH]; intros results0 results Hrun
    name0 Hnot.
  - simpl in Hrun. injection Hrun as <-. reflexivity.
  - rewrite foldM_cons in Hrun. apply bind_Ok_inv in Hrun.
    destruct Hrun as [results1 [Hstep Hrun]].
    apply eval_statistic_Ok in Hstep. destruct Hstep as [fn [_ ->]].
    simpl in Hnot.
    rewrite (IH _ _ Hrun name0 (fun Hin => Hnot (or_intror Hin))).
    rewrite (dict_get_set String.eqb string_eqb_eq).
    destruct (String.eqb (name stat) name0) eqn:E; [|reflexivity].
    apply String.eqb_eq in E. exfalso. apply Hnot. left. exact E.
Qed.

(** X7.  [_actual_data_results] on statistics that share a name keeps one
    entry for the name, at the place of its first occurrence, and the value
    is that of the last statistic carrying the name, computed on the
    buffer that [exact_test_offset_sort] leaves for offsets (0, 0). *)
Theorem actual_data_results_last_wins
    seed a b (before after : list (Statistic F)) stat actual_stats fn :
  _actual_data_results EXACT seed (a, b) (before ++ stat :: after)
  = Ok actual_stats ->
  (forall later, In later after -> name later <> name stat) ->
  exact_fn EXACT (fn_name stat) = Some fn ->
  map fst actual_stats
  = first_occurrences [] (map (@name F) (before ++ stat :: after))
  /\ NoDup (map fst actual_stats)
  /\ dict_get String.eqb actual_stats (name stat)
     = Some (fn (snd (exact_test_offset_sort EXACT
                        (exact_test_prng_create EXACT seed) (a ++ b)
                        (len a) (len b) 0 0))
                (len a) (len b) (fn_args stat)).
Proof.
  intros Hrun Hlater Hfn.
  destruct (actual_data_results_keys EXACT _ _ _ _ Hrun) as [Hkeys Hnd].
  split; [exact Hkeys|]. split; [exact Hnd|].
  unfold _actual_data_results, a_class, b_class in Hrun. cbn [fst snd] in Hrun.
  pose proof (make_buf_cases a b) as Hbuf.
  destruct (_make_buf a b) as [e|buf]; [discriminate|].
  destruct Hbuf as [-> _]. cbn [bind] in Hrun.
  destruct (exact_test_offset_sort EXACT _ _ _ _ _ _) as [xoshiro copy].
  cbn [snd]. rewrite foldM_app in Hrun. apply bind_Ok_inv in Hrun.
  destruct Hrun as [results1 [_ Hrun]].
  rewrite foldM_cons in Hrun. apply bind_Ok_inv in Hrun.
  destruct Hrun as [results2 [Hstep Hrun]].
  apply eval_statistic_Ok in Hstep. destruct Hstep as [fn' [Hfn' ->]].
  rewrite Hfn in Hfn'. injection Hfn' as <-.
  rewrite (eval_statistics_other _ _ _ _ _ _ Hrun (name stat)).
  - rewrite (dict_get_set String.eqb string_eqb_eq), String.eqb_refl.
    reflexivity.
  - intros Hin. apply in_map_iff in Hin. destruct Hin as [later [Heq Hin]].
    exact (Hlater later Hin Heq).
Qed.

(** The names that the inner two loops of [compute_results] add. *)
Lemma compute_offsets_In_keys m n shuffled_buf
    (stats_for_p : OffsetPlan F) : forall state state',
  foldM (compute_offsets EXACT m n shuffled_buf) stats_for_p state
  = Ok state' ->
  forall name0,
    In name0 (map fst (snd state'))
    <-> In name0 (map fst (snd state))
        \/ In name0 (map (@name F) (offset_plan_statistics stats_for_p)).
Proof.
  induction stats_for_p as [|[[a_off b_off] bucket] stats_for_p IH];
    intros state state' Hrun name0.
  - simpl in Hrun. injection Hrun as <-. simpl. tauto.
  - rewrite foldM_cons in Hrun. apply bind_Ok_inv in Hrun.
    destruct Hrun as [[xoshiro1 results1] [Hstep Hrun]].
    destruct state as [xoshiro results]. unfold compute_offsets in Hstep.
    destruct (exact_test_offset_sort EXACT _ _ _ _ _ _) as [xoshiro2 sorted].
    apply bind_Ok_inv in Hstep. destruct Hstep as [results2 [Hev Hstep]].
    injection Hstep as <- <-.
    rewrite (IH _ _ Hrun name0). cbn [snd].
    rewrite (eval_statistics_In_keys _ _ _ _ _ _ Hev name0).
    unfold offset_plan_statistics. cbn [flat_map snd].
    rewrite map_app, in_app_iff. tauto.
Qed.

Lemma compute_results_In_keys m n buf (plan : Plan F) : forall state state',
  foldM (compute_group EXACT m n buf) plan state = Ok state' ->
  forall name0,
    In name0 (map fst (snd state'))
    <-> In name0 (map fst (snd state))
        \/ In name0 (map (@name F) (plan_statistics plan)).
Proof.
  induction plan as [|[p_a_lt stats_for_p] plan IH];
    intros state state' Hrun name0.
  - simpl in Hrun. injection Hrun as <-. simpl. tauto.
  - rewrite foldM_cons in Hrun. apply bind_Ok_inv in Hrun.
    destruct Hrun as [state1 [Hstep Hrun]].
    destruct state as [xoshiro results]. unfold compute_group in Hstep.
    destruct (exact_test_shuffle EXACT _ _ _ _ _) as [[xoshiro2 shuffled] error].
    destruct error as [message|]; [discriminate|].
    rewrite (IH _ _ Hrun name0).
    rewrite (compute_offsets_In_keys _ _ _ _ _ _ Hstep name0). cbn [snd].
    unfold plan_statistics. cbn [flat_map snd].
    rewrite map_app, in_app_iff. tauto.
Qed.

(** X8.  A permutation computed for the statistics that are still
    undecided carries exactly their names: every statistic without a
    result is in the sample, and no decided name is computed again. *)
Theorem unfathomed_statistics_are_sampled
    m n buf xoshiro (statistics : list (Statistic F))
    (ret : list (string * Result F)) xoshiro' sample :
  compute_results EXACT m n buf xoshiro
    (group_unfathomed_statistics statistics ret) = Ok (xoshiro', sample) ->
  forall name0,
    In name0 (map fst sample)
    <-> exists stat,
          In stat statistics /\ name stat = name0
          /\ dict_mem String.eqb ret name0 = false.
Proof.
  unfold compute_results, group_unfathomed_statistics. intros Hrun name0.
  rewrite (compute_results_In_keys _ _ _ _ _ _ Hrun name0). cbn [snd map].
  set (live := filter (fun stat : Statistic F =>
                         negb (dict_mem String.eqb ret (name stat)))
                 statistics).
  pose proof (fold_plan_add_statistics live []) as Hperm.
  change (fold_left plan_add live []) with (_group_statistics_in_plan live)
    in Hperm.
  simpl in Hperm. rewrite in_map_iff. split.
  - intros [[]|[stat [Hname Hin]]].
    apply (Permutation_in _ Hperm) in Hin. apply filter_In in Hin.
    destruct Hin as [Hin Hlive]. apply negb_true_iff in Hlive.
    exists stat. rewrite <- Hname. auto.
  - intros [stat [Hin [Hname Hlive]]]. right. exists stat.
    split; [exact Hname|].
    apply (Permutation_in _ (Permutation_sym Hperm)). apply filter_In.
    split; [exact Hin|]. rewrite Hname, Hlive. reflexivity.
Qed.

End KernelFacts.

(* ------------------------------------------------------------------ *)
(** ** The queue worker and the generator of [exact_test.py] *)

Section QueueFacts.
Variable V : Type.

Lemma len_nonneg {A} (l : list A) : 0 <= len l.
Proof. unfold len. lia. Qed.

Lemma len_app {A} (l l' : list A) : len (l ++ l') = len l + len l'.
Proof. unfold len. rewrite length_app. lia. Qed.

Lemma worker_step_invariant initial_batch_size max_batch_size return_after
    consumed (w : WorkerState V) value :
  @worker_invariant V initial_batch_size max_batch_size return_after
    consumed w ->
  @worker_invariant V initial_batch_size max_batch_size return_after
    (consumed ++ [value]) (worker_step max_batch_size return_after w value).
Proof.
  intros [Htotal [Hall [Hbs [Hret Hrun]]]]. unfold worker_step.
  destruct (returned w) eqn:Er.
  - unfold worker_invariant. rewrite Er.
    split; [exact Htotal|]. split; [exact Hall|]. split; [exact Hbs|].
    split; [|discriminate]. intros _.
    destruct (Hret eq_refl) as [Hra [rest ->]].
    split; [exact Hra|]. exists (rest ++ [value]).
    rewrite app_assoc. reflexivity.
  - destruct (Hrun eq_refl) as [Hcons [Hlen Hq]]. clear Hret Hrun.
    assert (Hb : len (batch w ++ [value]) = len (batch w) + 1).
    { rewrite len_app. reflexivity. }
    pose proof (len_nonneg (batch w)) as Hb0.
    assert (Hcat : List.concat (queue w ++ [batch w ++ [value]])
                   = List.concat (queue w) ++ batch w ++ [value]).
    { rewrite concat_app. simpl. rewrite app_nil_r. reflexivity. }
    destruct (len (batch w ++ [value]) >=? batch_size w) eqn:Efull.
    + apply Z.geb_le in Efull.
      assert (Hall' : Forall (fun batch =>
                                1 <= len batch
                                <= Z.max 1 (Z.max initial_batch_size
                                              max_batch_size))
                        (queue w ++ [batch w ++ [value]])).
      { apply Forall_app. split; [exact Hall|].
        constructor; [|constructor]. lia. }
      assert (Htotal' : total w + len (batch w ++ [value])
                        = len (List.concat (queue w ++ [batch w ++ [value]]))).
      { rewrite Hcat, (len_app (List.concat (queue w))), <- Htotal.
        reflexivity. }
      destruct (total w + len (batch w ++ [value]) >=? return_after) eqn:Era.
      * apply Z.geb_le in Era. unfold worker_invariant. simpl.
        split; [exact Htotal'|]. split; [exact Hall'|]. split; [exact Hbs|].
        split; [|discriminate]. intros _. split; [exact Era|].
        exists []. rewrite Hcat, Hcons, app_nil_r, <- app_assoc.
        reflexivity.
      * rewrite Z.geb_leb in Era. apply Z.leb_gt in Era.
        unfold worker_invariant. simpl.
        split; [exact Htotal'|]. split; [exact Hall'|].
        split; [destruct (batch_size w <? max_batch_size) eqn:E;
                [apply Z.ltb_lt in E|]; lia|].
        split; [discriminate|]. intros _.
        split; [rewrite Hcat, Hcons, app_nil_r, <- app_assoc; reflexivity|].
        split; [unfold len; simpl; lia|]. right. exact Era.
    + rewrite Z.geb_leb in Efull. apply Z.leb_gt in Efull.
      unfold worker_invariant. simpl.
      split; [exact Htotal|]. split; [exact Hall|]. split; [exact Hbs|].
      split; [discriminate|]. intros _.
      split; [rewrite Hcons, <- app_assoc; reflexivity|].
      split; [lia|exact Hq].
Qed.

Lemma worker_run_invariant initial_batch_size max_batch_size return_after
    (values : list V) :
  @worker_invariant V initial_batch_size max_batch_size return_after values
    (_generate_in_parallel_worker values initial_batch_size max_batch_size
       return_after).
Proof.
  unfold _generate_in_parallel_worker.
  assert (Hgen : forall values consumed w,
            @worker_invariant V initial_batch_size max_batch_size return_after
              consumed w ->
            @worker_invariant V initial_batch_size max_batch_size return_after
              (consumed ++ values)
              (fold_left (worker_step max_batch_size return_after) values w)).
  { induction values0 as [|value values0 IH]; intros consumed w Hw.
    - rewrite app_nil_r. exact Hw.
    - simpl. replace (consumed ++ value :: values0)
        with ((consumed ++ [value]) ++ values0)
        by (rewrite <- app_assoc; reflexivity).
      apply IH, worker_step_invariant, Hw. }
  apply (Hgen values []). unfold worker_invariant, len. simpl.
  split; [reflexivity|]. split; [constructor|]. split; [lia|].
  split; [discriminate|]. intros _. split; [reflexivity|]. split; [lia|].
  left. reflexivity.
Qed.

(** X10.  The worker of [exact_test.py] loses, repeats and reorders
    nothing: the batches on the queue, followed by the batch being filled,
    are the values consumed so far; [total] counts the values on the queue;
    and the worker has returned exactly when a batch has been put and
    [total] has reached [return_after], the values after that batch being
    left unconsumed. *)
Theorem queue_worker_delivers (values : list V)
    initial_batch_size max_batch_size return_after :
  total (_generate_in_parallel_worker values initial_batch_size
           max_batch_size return_after)
  = len (List.concat
           (queue (_generate_in_parallel_worker values initial_batch_size
                     max_batch_size return_after)))
  /\ (returned (_generate_in_parallel_worker values initial_batch_size
                  max_batch_size return_after) = false ->
      values
      = List.concat
          (queue (_generate_in_parallel_worker values initial_batch_size
                    max_batch_size return_after))
        ++ batch (_generate_in_parallel_worker values initial_batch_size
                    max_batch_size return_after)
      /\ (queue (_generate_in_parallel_worker values initial_batch_size
                   max_batch_size return_after) = []
          \/ total (_generate_in_parallel_worker values initial_batch_size
                      max_batch_size return_after) < return_after))
  /\ (returned (_generate_in_parallel_worker values initial_batch_size
                  max_batch_size return_after) = true ->
      return_after
      <= total (_generate_in_parallel_worker values initial_batch_size
                  max_batch_size return_after)
      /\ exists rest,
           values
           = List.concat
               (queue (_generate_in_parallel_worker values initial_batch_size
                         max_batch_size return_after))
             ++ rest).
Proof.
  destruct (worker_run_invariant initial_batch_size max_batch_size
              return_after values) as [Htotal [_ [_ [Hret Hrun]]]].
  split; [exact Htotal|]. split; [|exact Hret].
  intros Er. destruct (Hrun Er) as [Hcons [_ Hq]]. auto.
Qed.

(** X11.  No batch that the worker puts on the queue is empty, and none is
    longer than the larger of [initial_batch_size] and [max_batch_size]
    (or than one value, when both are below one). *)
Theorem queue_worker_batch_lengths (values : list V)
    initial_batch_size max_batch_size return_after :
  Forall (fun batch =>
            1 <= len batch
            <= Z.max 1 (Z.max initial_batch_size max_batch_size))
    (queue (_generate_in_parallel_worker values initial_batch_size
              max_batch_size return_after)).
Proof.
  exact (proj1 (proj2 (worker_run_invariant initial_batch_size
                         max_batch_size return_after values))).
Qed.
End QueueFacts.

Section QueueGeneratorFacts.
Import exact_test_queue.
Variables V Args : Type.
Variable ncpu batch_size : Z.
Variable fresh_args : nat -> Args.

Lemma mapM_length {A B} (f : A -> Run B) l : forall results,
  mapM f l = Ok results -> List.length results = List.length l.
Proof.
  induction l as [|x l IH]; intros results Hrun.
  - injection Hrun as <-. reflexivity.
  - simpl in Hrun. apply bind_Ok_inv in Hrun. destruct Hrun as [y [_ Hrun]].
    apply bind_Ok_inv in Hrun. destruct Hrun as [ys [Hys Hrun]].
    injection Hrun as <-. simpl. rewrite (IH ys Hys). reflexivity.
Qed.

Lemma mapM_Raise {A B} (f : A -> Run B) l e :
  mapM f l = Raise e -> exists x, In x l /\ f x = Raise e.
Proof.
  induction l as [|x l IH]; [discriminate|]. simpl.
  destruct (f x) as [e'|y] eqn:Ex; simpl.
  - intros Heq. injection Heq as ->. exists x. auto.
  - destruct (mapM f l) as [e'|ys]; simpl; [|discriminate].
    intros Heq. injection Heq as ->.
    destruct (IH eq_refl) as [x' [Hin Hx]]. exists x'. auto.
Qed.

Lemma filter_partition_length {A} (p : A -> bool) l :
  (List.length (filter (fun x => negb (p x)) l) + List.length (filter p l)
   = List.length l)%nat.
Proof.
  induction l as [|x l IH]; [reflexivity|]. simpl.
  destruct (p x); simpl; lia.
Qed.

Lemma add_work_units_pending initial return_after
    (results : list unit) : forall g : Generator Args,
  exists added,
    pending (fold_left
               (fun g (_ : unit) =>
                  add_work_unit batch_size fresh_args initial return_after g)
               results g)
    = pending g ++ added
    /\ List.length added = List.length results
    /\ Forall (fun unit =>
                 initial_batch_size unit = initial
                 /\ max_batch_size unit = batch_size
                 /\ exact_test_queue.return_after unit = return_after)
         added.
Proof.
  induction results as [|[] results IH]; intros g.
  - exists []. simpl. rewrite app_nil_r. auto.
  - simpl. destruct (IH (add_work_unit batch_size fresh_args initial
                           return_after g)) as [added [Hp [Hlen Hall]]].
    exists (mkWorkUnit (submitted g) (fresh_args (submitted g)) initial
              batch_size return_after :: added).
    rewrite Hp. simpl. rewrite <- app_assoc. simpl.
    split; [reflexivity|]. split; [rewrite Hlen; reflexivity|].
    constructor; [simpl; auto|exact Hall].
Qed.

Lemma iter_add_work_unit_pending initial return_after count :
  forall g : Generator Args,
  exists added,
    pending (Nat.iter count
               (add_work_unit batch_size fresh_args initial return_after) g)
    = pending g ++ added
    /\ List.length added = count
    /\ Forall (fun unit =>
                 initial_batch_size unit = initial
                 /\ max_batch_size unit = batch_size
                 /\ exact_test_queue.return_after unit = return_after)
         added.
Proof.
  induction count as [|count IH]; intros g.
  - exists []. simpl. rewrite app_nil_r. auto.
  - rewrite Nat.iter_succ. destruct (IH g) as [added [Hp [Hlen Hall]]].
    eexists (added ++ [_]). unfold add_work_unit at 1. cbn [pending].
    rewrite Hp, <- app_assoc. split; [reflexivity|].
    split; [rewrite length_app, Hlen; simpl; lia|].
    apply Forall_app. split; [exact Hall|].
    constructor; [simpl; auto|constructor].
Qed.

Lemma generator_start_pool :
  List.length (pending (generator_start ncpu batch_size fresh_args))
  = (Z.to_nat ncpu + 2)%nat
  /\ Forall (unit_as_submitted batch_size)
       (pending (generator_start ncpu batch_size fresh_args)).
Proof.
  unfold generator_start.
  destruct (iter_add_work_unit_pending 0 (2 * batch_size) (Z.to_nat ncpu)
              (mkGenerator [] O)) as [ramp [Hp [Hlen Hall]]].
  destruct (iter_add_work_unit_pending batch_size (2 * batch_size) 2
              (Nat.iter (Z.to_nat ncpu)
                 (add_work_unit batch_size fresh_args 0 (2 * batch_size))
                 (mkGenerator [] O))) as [full [Hp' [Hlen' Hall']]].
  rewrite Hp', Hp. simpl. split.
  - rewrite length_app, Hlen, Hlen'. reflexivity.
  - apply Forall_app. split.
    + eapply Forall_impl; [|exact Hall]. intros unit [Hi [Hm Hr]].
      unfold unit_as_submitted. auto.
    + eapply Forall_impl; [|exact Hall']. intros unit [Hi [Hm Hr]].
      unfold unit_as_submitted. auto.
Qed.

Lemma generate_turn_pool (g g' : Generator Args) (t : Turn V) yielded :
  generate_turn batch_size fresh_args g t = (yielded, Ok g') ->
  List.length (pending g') = List.length (pending g)
  /\ (Forall (unit_as_submitted batch_size) (pending g) ->
      Forall (unit_as_submitted batch_size) (pending g'))
  /\ yielded = turn_values t.
Proof.
  unfold generate_turn, consume_completed_futures, turn_values.
  remember (5 * batch_size) as later eqn:Elater.
  destruct (value t) as [e|v]; [discriminate|].
  destruct (mapM _ _) as [e|results] eqn:Eget; [discriminate|].
  intros Heq. injection Heq as <- <-.
  apply mapM_length in Eget.
  destruct (add_work_units_pending batch_size later results
              (mkGenerator
                 (filter (fun unit => negb (ready t (unit_id unit)))
                    (pending g)) (submitted g)))
    as [added [Hp [Hlen Hall]]].
  rewrite Hp. simpl. split; [|split; [|reflexivity]].
  - rewrite length_app, Hlen, Eget.
    apply (filter_partition_length (fun unit => ready t (unit_id unit))).
  - intros Hpending. apply Forall_app. split.
    + apply Forall_forall. intros unit Hin. apply filter_In in Hin.
      rewrite Forall_forall in Hpending. apply Hpending, Hin.
    + eapply Forall_impl; [|exact Hall]. intros unit [Hi [Hm Hr]].
      unfold unit_as_submitted. subst later. auto.
Qed.

Lemma generate_turns_pool (turns : list (Turn V)) :
  forall (g g' : Generator Args) yielded,
  generate_turns batch_size fresh_args g turns = (yielded, Ok g') ->
  List.length (pending g') = List.length (pending g)
  /\ (Forall (unit_as_submitted batch_size) (pending g) ->
      Forall (unit_as_submitted batch_size) (pending g'))
  /\ yielded = flat_map (@turn_values V) turns.
Proof.
  induction turns as [|t turns IH]; intros g g' yielded Hrun.
  - simpl in Hrun. injection Hrun as <- <-. auto.
  - simpl in Hrun.
    destruct (generate_turn batch_size fresh_args g t) as [first [e|g1]] eqn:Et;
      [discriminate|].
    destruct (generate_turns batch_size fresh_args g1 turns)
      as [more r] eqn:Er.
    injection Hrun as <- ->.
    destruct (generate_turn_pool _ _ _ _ Et) as [Hlen [Hall ->]].
    destruct (IH _ _ _ Er) as [Hlen' [Hall' ->]].
    split; [congruence|]. split; [auto|reflexivity].
Qed.

Lemma generate_turns_Raise (turns : list (Turn V)) :
  forall (g : Generator Args) yielded e,
  generate_turns batch_size fresh_args g turns = (yielded, Raise e) ->
  exists before t after,
    turns = before ++ t :: after
    /\ yielded = flat_map (@turn_values V) before
    /\ exists g',
         generate_turns batch_size fresh_args g before
         = (yielded, Ok g')
         /\ (value t = Raise e
             \/ exists unit,
                  In unit (pending g')
                  /\ ready t (unit_id unit) = true
                  /\ get t (unit_id unit) = Raise e).
Proof.
  induction turns as [|t turns IH]; intros g yielded e Hrun;
    [discriminate|].
  simpl in Hrun.
  destruct (generate_turn batch_size fresh_args g t) as [first [e'|g1]] eqn:Et.
  - injection Hrun as <- ->. exists [], t, turns.
    unfold generate_turn, consume_completed_futures in Et.
    destruct (value t) as [e0|v] eqn:Ev.
    + injection Et as <- <-.
      split; [reflexivity|]. split; [reflexivity|].
      exists g. simpl. auto.
    + destruct (mapM _ _) as [e0|results] eqn:Eget; [|discriminate].
      injection Et as <- <-. apply mapM_Raise in Eget.
      destruct Eget as [unit [Hin Hget]]. apply filter_In in Hin.
      split; [reflexivity|]. split; [reflexivity|].
      exists g. simpl. split; [reflexivity|]. right. exists unit. tauto.
  - destruct (generate_turns batch_size fresh_args g1 turns)
      as [more r] eqn:Er.
    injection Hrun as <- ->.
    destruct (IH _ _ _ Er) as [before [t' [after [-> [-> Hfail]]]]].
    destruct Hfail as [g' [Hbefore Hfail]].
    destruct (generate_turn_pool _ _ _ _ Et) as [_ [_ ->]].
    exists (t :: before), t', after.
    split; [reflexivity|]. split; [reflexivity|].
    exists g'. simpl. rewrite Et, Hbefore. auto.
Qed.

(** X12.  The generator of [exact_test.py] keeps [ncpu + 2] work units
    pending: it starts with that many and submits one for each one that
    completed.  Every unit has [max_batch_size = batch_size]; the ramp-up
    units start from batches of size 0, the others from [batch_size], and
    only units submitted for a completed one return after
    [5 * batch_size] values. *)
Theorem generator_keeps_pool_full (turns : list (Turn V)) yielded
    (g : Generator Args) :
  _generate_in_parallel ncpu batch_size fresh_args turns = (yielded, Ok g) ->
  List.length (pending g) = (Z.to_nat ncpu + 2)%nat
  /\ Forall (unit_as_submitted batch_size) (pending g).
Proof.
  unfold _generate_in_parallel. intros Hrun.
  apply generate_turns_pool in Hrun. destruct Hrun as [Hlen [Hall _]].
  destruct generator_start_pool as [Hlen0 Hall0].
  split; [congruence|auto].
Qed.

(** X13.  The generator yields, turn by turn, the value of the local
    generator followed by the batches found on the queue.  It raises what
    the local generator raises, or what a completed worker has raised, at
    the first turn that meets the exception and before that turn yields
    anything: what was yielded is what the earlier turns yielded. *)
Theorem generator_yields_or_fails (turns : list (Turn V)) yielded r :
  _generate_in_parallel ncpu batch_size fresh_args turns = (yielded, r) ->
  match r with
  | Ok _ => yielded = flat_map (@turn_values V) turns
  | Raise e =>
      exists before t after,
        turns = before ++ t :: after
        /\ yielded = flat_map (@turn_values V) before
        /\ exists g',
             _generate_in_parallel ncpu batch_size fresh_args before
             = (yielded, Ok g')
             /\ (value t = Raise e
                 \/ exists unit,
                      In unit (pending g')
                      /\ ready t (unit_id unit) = true
                      /\ get t (unit_id unit) = Raise e)
  end.
Proof.
  unfold _generate_in_parallel. intros Hrun. destruct r as [e|g].
  - exact (generate_turns_Raise _ _ _ _ Hrun).
  - exact (proj2 (proj2 (generate_turns_pool _ _ _ _ Hrun))).
Qed.
End QueueGeneratorFacts.

(* ------------------------------------------------------------------ *)
(** ** What a result reports besides its judgement *)

Section ReportFacts.
Context {F : Type} `{PyFloat F}.
Variable EXACT : Kernel F.
Variable math_log : F -> option F.
Variable csm : Z -> F -> Z -> F -> bool * F.

Lemma significance_test_result ret eps log_inner_eps name monte_carlo_value
    actual_data actual lte_actual gte_actual trials log ret' :
  snd (_significance_test csm ret eps log_inner_eps name monte_carlo_value
         actual_data actual lte_actual gte_actual trials log) = Ok ret' ->
  ret' = ret
  \/ exists j,
       ret' = dict_set String.eqb ret name
                (with_judgement
                   (mkResult actual None (len (a_class actual_data))
                      (len (b_class actual_data)) trials) j).
Proof.
  unfold _significance_test.
  destruct (csm trials eps lte_actual log_inner_eps) as [lt_significant ?].
  destruct (csm trials eps gte_actual log_inner_eps) as [gt_significant ?].
  rewrite snd_pbind. destruct log; cbn [print_to emit pure snd lift];
    destruct lt_significant, gt_significant; unfold in_tail;
    destruct (trials =? 0); cbn [bind];
    try discriminate;
    repeat match goal with
           | |- context [if ?c then _ else _] => destruct c; cbn [bind]
           end;
    intros Heq; injection Heq as <-; eauto.
Qed.

Lemma test_entry_reports eps log_inner_eps actual_data
    (actual_stats sample : @Values F) log ret entry ret' :
  reports_actual actual_data actual_stats ret ->
  snd (test_entry csm eps log_inner_eps actual_data actual_stats sample log
         ret entry) = Ok ret' ->
  reports_actual actual_data actual_stats ret'.
Proof.
  intros Hret. destruct entry as [name0 acc]. unfold test_entry.
  destruct (dict_mem String.eqb ret name0).
  - simpl. intros Heq. injection Heq as <-. exact Hret.
  - intros Hrun. apply pbind_Ok_inv in Hrun.
    destruct Hrun as [monte_carlo_value [_ Hrun]].
    apply pbind_Ok_inv in Hrun. destruct Hrun as [actual [Hactual Hrun]].
    simpl in Hactual. apply dict_lookup_Ok in Hactual.
    apply significance_test_result in Hrun.
    destruct Hrun as [->|[j ->]]; [exact Hret|].
    intros name1 result Hin. apply In_dict_set in Hin.
    destruct Hin as [[-> Hname]|Hin]; [|exact (Hret _ _ Hin)].
    assert (name1 = name0) as ->.
    { destruct Hname as [Heq|Heq]; [exact Heq|].
      apply String.eqb_eq. exact Heq. }
    simpl. auto.
Qed.

Lemma collect_results_reports actual_data (actual_stats : @Values F)
    ret results :
  reports_actual actual_data actual_stats ret ->
  collect_results actual_stats ret = Ok results ->
  reports_actual actual_data actual_stats results.
Proof.
  intros Hret. unfold collect_results.
  apply foldM_invariant; [|intros ? ? []].
  intros out entry out' _ Hout Hrun.
  apply bind_Ok_inv in Hrun. destruct Hrun as [result [Hres Hrun]].
  injection Hrun as <-. intros name0 result0 Hin.
  apply In_dict_set in Hin.
  destruct Hin as [[-> Hname]|Hin]; [|exact (Hout _ _ Hin)].
  assert (name0 = fst entry) as ->.
  { destruct Hname as [Heq|Heq]; [exact Heq|].
    apply String.eqb_eq. exact Heq. }
  apply dict_lookup_Ok, dict_get_In in Hres.
  destruct Hres as [k' [Hk Heq]]. apply String.eqb_eq in Heq. subst k'.
  exact (Hret _ _ Hk).
Qed.

Lemma exact_test_loop_reports eps log_inner_eps actual_data actual_stats
    log stream : forall st o,
  reports_actual actual_data actual_stats (ret st) ->
  snd (exact_test_loop csm eps log_inner_eps actual_data actual_stats log
         stream st) = Ok o ->
  reports_actual actual_data actual_stats (outcome_results o).
Proof.
  induction stream as [|pulled stream IH]; intros st o Hinv Hrun.
  - simpl in Hrun. injection Hrun as <-. exact Hinv.
  - cbn [exact_test_loop] in Hrun.
    apply pbind_Ok_inv in Hrun. destruct Hrun as [sample [_ Hrun]].
    apply pbind_Ok_inv in Hrun. destruct Hrun as [step [Hstep Hrun]].
    assert (Hstep' : match step with
                     | Continue st' =>
                         reports_actual actual_data actual_stats (ret st')
                     | Return results =>
                         reports_actual actual_data actual_stats results
                     end).
    { unfold loop_body in Hstep.
      apply pbind_Ok_inv in Hstep. destruct Hstep as [accs [_ Hstep]].
      destruct (negb (_ =? 0)).
      - simpl in Hstep. injection Hstep as <-. exact Hinv.
      - apply pbind_Ok_inv in Hstep. destruct Hstep as [ret' [Htest Hstep]].
        assert (Hret' : reports_actual actual_data actual_stats ret').
        { revert Htest. apply pfoldM_invariant; [|exact Hinv].
          intros s x s' _ Hs Hx.
          exact (test_entry_reports _ _ _ _ _ _ _ _ _ Hs Hx). }
        destruct (len ret' =? len actual_stats).
        + apply pbind_Ok_inv in Hstep.
          destruct Hstep as [results [Hcol Hstep]].
          simpl in Hstep, Hcol. injection Hstep as <-.
          exact (collect_results_reports _ _ _ _ Hret' Hcol).
        + simpl in Hstep. injection Hstep as <-. exact Hret'. }
    destruct step as [st'|results].
    + exact (IH st' o Hstep' Hrun).
    + simpl in Hrun. injection Hrun as <-. exact Hstep'.
Qed.

(** X14.  Every result that [exact_test] holds or returns reports the
    sizes of the two classes, [m = len(a)] and [n = len(b)], and as
    [actual_value] the value that [_actual_data_results] computed for its
    name on the actual data. *)
Theorem results_report_actual_data
    seed a b statistics eps log stream o name result :
  snd (exact_test EXACT math_log csm seed a b statistics eps log stream)
  = Ok o ->
  In (name, result) (outcome_results o) ->
  m result = len a
  /\ n result = len b
  /\ exists actual_stats,
       _actual_data_results EXACT seed (a, b) statistics = Ok actual_stats
       /\ dict_get String.eqb actual_stats name = Some (actual_value result).
Proof.
  intros Hrun Hin. destruct statistics as [|stat statistics].
  - simpl in Hrun. injection Hrun as <-. destruct Hin.
  - apply exact_test_Ok_inv in Hrun.
    destruct Hrun as [lie [actual_stats [_ [Hactual Hrun]]]].
    apply exact_test_loop_reports in Hrun; [|intros ? ? []].
    destruct (Hrun _ _ Hin) as [Hm [Hn Hget]].
    split; [exact Hm|]. split; [exact Hn|].
    exists actual_stats. auto.
Qed.
End ReportFacts.

(* ------------------------------------------------------------------ *)
(** ** The pool worker and the generator of [exact_test_sampler.py] *)

Section SamplerWorkerFacts.
Import exact_test_sampler_worker.
Context {F : Type} `{PyFloat F}.
Variable V : Type.
Variable fadd : F -> F -> F.
Variable now : nat -> F.

Lemma worker_loop_cons max_results max_delay results value
    (values : list (Run V)) :
  worker_loop now max_results (fadd (now O) max_delay) results
    (Ok value :: values)
  = if limit_met fadd now max_results max_delay (S (List.length results))
    then Ok (Some (results ++ [value]))
    else worker_loop now max_results (fadd (now O) max_delay)
           (results ++ [value]) values.
Proof.
  cbn [worker_loop]. unfold limit_met, len.
  replace (List.length (results ++ [value])) with (S (List.length results))
    by (rewrite length_app; simpl; lia).
  reflexivity.
Qed.

Lemma length_snoc {A} (l : list A) x :
  List.length (l ++ [x]) = S (List.length l).
Proof. rewrite length_app. simpl. lia. Qed.

Lemma worker_loop_Some max_results max_delay (values : list (Run V)) :
  forall results out,
  worker_loop now max_results (fadd (now O) max_delay) results values
  = Ok (Some out) ->
  exists taken rest,
    values = map Ok taken ++ rest /\ out = results ++ taken /\ taken <> []
    /\ limit_met fadd now max_results max_delay (List.length out) = true
    /\ forall k, (List.length results < k < List.length out)%nat ->
         limit_met fadd now max_results max_delay k = false.
Proof.
  induction values as [|[e|value] values IH]; intros results out Hrun;
    [discriminate|discriminate|].
  rewrite worker_loop_cons in Hrun.
  destruct (limit_met fadd now max_results max_delay
              (S (List.length results))) eqn:Estop.
  - injection Hrun as <-. exists [value], values.
    split; [reflexivity|]. split; [reflexivity|]. split; [discriminate|].
    rewrite length_snoc. split; [exact Estop|]. intros k Hk. lia.
  - destruct (IH _ _ Hrun) as [taken [rest [-> [-> [_ [Hstop Hmin]]]]]].
    exists (value :: taken), rest. rewrite <- app_assoc in *.
    split; [reflexivity|]. split; [reflexivity|]. split; [discriminate|].
    split; [exact Hstop|]. intros k Hk.
    destruct (Nat.eq_dec k (S (List.length results))) as [->|Hne];
      [exact Estop|].
    apply Hmin. rewrite length_snoc. simpl in *. lia.
Qed.

Lemma worker_loop_None max_results max_delay (values : list (Run V)) :
  forall results,
  worker_loop now max_results (fadd (now O) max_delay) results values
  = Ok None
  <-> (exists yielded, values = map Ok yielded)
      /\ forall k,
           (List.length results < k
            <= List.length results + List.length values)%nat ->
           limit_met fadd now max_results max_delay k = false.
Proof.
  induction values as [|[e|value] values IH]; intros results.
  - simpl. split; [|reflexivity]. intros _.
    split; [exists []; reflexivity|]. intros k Hk. lia.
  - simpl. split; [discriminate|]. intros [[yielded Hy] _].
    destruct yielded; discriminate.
  - rewrite worker_loop_cons.
    destruct (limit_met fadd now max_results max_delay
                (S (List.length results))) eqn:Estop.
    + split; [discriminate|]. intros [_ Hall].
      rewrite Hall in Estop; [discriminate|simpl; lia].
    + rewrite IH, length_snoc. simpl. split.
      * intros [[yielded ->] Hall].
        split; [exists (value :: yielded); reflexivity|]. intros k Hk.
        destruct (Nat.eq_dec k (S (List.length results))) as [->|Hne];
          [exact Estop|].
        apply Hall. lia.
      * intros [[yielded Hy] Hall]. split.
        -- destruct yielded as [|value0 yielded]; [discriminate|].
           injection Hy as _ ->. exists yielded. reflexivity.
        -- intros k Hk. apply Hall. lia.
Qed.

Lemma worker_loop_Raise max_results max_delay e (values : list (Run V)) :
  forall results,
  worker_loop now max_results (fadd (now O) max_delay) results values
  = Raise e
  <-> exists yielded rest,
        values = map Ok yielded ++ Raise e :: rest
        /\ forall k,
             (List.length results < k
              <= List.length results + List.length yielded)%nat ->
             limit_met fadd now max_results max_delay k = false.
Proof.
  induction values as [|[e0|value] values IH]; intros results.
  - simpl. split; [discriminate|]. intros [yielded [rest [Hy _]]].
    destruct yielded; discriminate.
  - simpl. split.
    + intros Heq. injection Heq as ->. exists [], values.
      split; [reflexivity|]. intros k Hk. simpl in Hk. lia.
    + intros [yielded [rest [Hy _]]].
      destruct yielded as [|value0 yielded]; [|discriminate].
      injection Hy as -> _. reflexivity.
  - rewrite worker_loop_cons.
    destruct (limit_met fadd now max_results max_delay
                (S (List.length results))) eqn:Estop.
    + split; [discriminate|]. intros [yielded [rest [Hy Hall]]].
      destruct yielded as [|value0 yielded]; [discriminate|].
      rewrite Hall in Estop; [discriminate|simpl; lia].
    + rewrite IH, length_snoc. split.
      * intros [yielded [rest [-> Hall]]].
        exists (value :: yielded), rest. split; [reflexivity|].
        intros k Hk. simpl in Hk.
        destruct (Nat.eq_dec k (S (List.length results))) as [->|Hne];
          [exact Estop|].
        apply Hall. lia.
      * intros [yielded [rest [Hy Hall]]].
        destruct yielded as [|value0 yielded]; [discriminate|].
        injection Hy as _ ->. exists yielded, rest.
        split; [reflexivity|]. intros k Hk. apply Hall. simpl. lia.
Qed.

(** X15.  The pool worker of [exact_test_sampler.py] returns a batch that
    is a prefix of the generator's values, in order: never empty, even for
    [max_results <= 0] or a delay that has already expired; never longer
    than [max_results] beyond the first value; and cut at the first value
    at which either limit is met. *)
Theorem sampler_worker_batch (values : list (Run V)) max_results max_delay
    results :
  _generate_in_parallel_worker fadd now values max_results max_delay
  = Ok (Some results) ->
  (exists rest, values = map Ok results ++ rest)
  /\ 1 <= len results <= Z.max 1 max_results
  /\ limit_met fadd now max_results max_delay (List.length results) = true
  /\ forall k, (1 <= k < List.length results)%nat ->
       limit_met fadd now max_results max_delay k = false.
Proof.
  unfold _generate_in_parallel_worker. intros Hrun.
  apply worker_loop_Some in Hrun.
  destruct Hrun as [taken [rest [-> [-> [Hne [Hstop Hmin]]]]]].
  simpl in *. split; [exists rest; reflexivity|].
  assert (Hpos : (1 <= List.length taken)%nat).
  { destruct taken; [contradiction|simpl; lia]. }
  split; [|split; [exact Hstop|intros k Hk; apply Hmin; lia]].
  unfold len. split; [lia|].
  destruct (Nat.eq_dec (List.length taken) 1) as [->|Hlong]; [lia|].
  pose proof (Hmin (List.length taken - 1)%nat ltac:(lia)) as Hprev.
  unfold limit_met in Hprev. apply orb_false_elim in Hprev.
  destruct Hprev as [Hprev _]. rewrite Z.geb_leb in Hprev.
  apply Z.leb_gt in Hprev. lia.
Qed.

(** X16.  The pool worker returns [None] exactly when the generator is
    exhausted, without raising, before either limit is met, and it raises
    exactly what the generator raises before either limit is met; a
    generator with at least one value and at least [max_results] values
    never gets [None]. *)
Theorem sampler_worker_exhausted (values : list (Run V)) max_results
    max_delay :
  (_generate_in_parallel_worker fadd now values max_results max_delay
   = Ok None
   <-> (exists yielded, values = map Ok yielded)
       /\ forall k, (1 <= k <= List.length values)%nat ->
            limit_met fadd now max_results max_delay k = false)
  /\ (forall e,
        _generate_in_parallel_worker fadd now values max_results max_delay
        = Raise e
        <-> exists yielded rest,
              values = map Ok yielded ++ Raise e :: rest
              /\ forall k, (1 <= k <= List.length yielded)%nat ->
                   limit_met fadd now max_results max_delay k = false)
  /\ (values <> [] -> max_results <= len values ->
      _generate_in_parallel_worker fadd now values max_results max_delay
      <> Ok None).
Proof.
  unfold _generate_in_parallel_worker.
  pose proof (worker_loop_None max_results max_delay values []) as Hnone.
  simpl in Hnone.
  assert (Hiff :
    worker_loop now max_results (fadd (now O) max_delay) [] values = Ok None
    <-> (exists yielded, values = map Ok yielded)
        /\ forall k, (1 <= k <= List.length values)%nat ->
             limit_met fadd now max_results max_delay k = false).
  { rewrite Hnone. split; intros [Hy Hall]; (split; [exact Hy|]);
      intros k Hk; apply Hall; lia. }
  split; [exact Hiff|]. split.
  - intros e.
    rewrite (worker_loop_Raise max_results max_delay e values []). simpl.
    split; intros [yielded [rest [Hy Hall]]]; exists yielded, rest;
      (split; [exact Hy|]); intros k Hk; apply Hall; lia.
  - intros Hne Hmax Hrun. rewrite Hiff in Hrun. destruct Hrun as [_ Hrun].
    assert (Hpos : (1 <= List.length values)%nat).
    { destruct values; [contradiction|simpl; lia]. }
    pose proof (Hrun (List.length values) ltac:(lia)) as Hlast.
    unfold limit_met in Hlast. apply orb_false_elim in Hlast.
    destruct Hlast as [Hlast _]. rewrite Z.geb_leb in Hlast.
    apply Z.leb_gt in Hlast. unfold len in Hmax. lia.
Qed.
End SamplerWorkerFacts.

Section SamplerGeneratorFacts.
Context {F : Type} `{PyFloat F}.
Variables V Args : Type.
Variable POOL_SIZE : Z.

(** A property of the generator that submitting a unit and dropping
    futures keep holds after every turn. *)
Lemma fill_pending_loop_invariant
    (I : @exact_test_sampler.Generator F Args -> Prop) :
  (forall reading g, I g -> I (exact_test_sampler.add_work_unit reading g)) ->
  forall count readings g,
    I g -> I (exact_test_sampler.fill_pending_loop count readings g).
Proof.
  intros Hadd. induction count as [|count IH]; intros readings g Hg;
    simpl; [exact Hg|].
  destruct readings as [|reading readings]; [exact Hg|].
  destruct (_ >=? _); [exact Hg|]. apply IH, Hadd, Hg.
Qed.

Lemma generate_turns_invariant
    (I : @exact_test_sampler.Generator F Args -> Prop) :
  (forall reading g, I g -> I (exact_test_sampler.add_work_unit reading g)) ->
  (forall g keep batch_size,
     I g ->
     batch_size = exact_test_sampler.batch_size g
     \/ batch_size
        = Z.min (exact_test_sampler.BATCH_SIZE_GROWTH_FACTOR
                 * exact_test_sampler.batch_size g)
            exact_test_sampler.MAX_BATCH_SIZE ->
     I (exact_test_sampler.mkGenerator batch_size
          (filter keep (exact_test_sampler.pending g))
          (exact_test_sampler.submitted g))) ->
  forall (turns : list (exact_test_sampler.Turn V Args)) g yielded g',
    I g ->
    exact_test_sampler.generate_turns POOL_SIZE g turns = (yielded, Ok g') ->
    I g'.
Proof.
  intros Hadd Hkeep.
  induction turns as [|t turns IH]; intros g yielded g' Hg Hrun.
  - simpl in Hrun. injection Hrun as _ <-. exact Hg.
  - cbn [exact_test_sampler.generate_turns] in Hrun.
    destruct (exact_test_sampler.generate_turn POOL_SIZE g t)
      as [yielded1 [e|g1]] eqn:Eturn; [discriminate|].
    destruct (exact_test_sampler.generate_turns POOL_SIZE g1 turns)
      as [more r] eqn:Erest.
    injection Hrun as _ ->.
    apply (IH g1 more g'); [|exact Erest].
    unfold exact_test_sampler.generate_turn,
      exact_test_sampler.consume_completed_futures in Eturn.
    destruct (mapM _ _) as [e|results]; [discriminate|].
    injection Eturn as _ <-.
    destruct (filter _ _) as [|completed0 completed].
    + apply Hkeep; auto.
    + unfold exact_test_sampler.fill_pending_list.
      apply fill_pending_loop_invariant; [exact Hadd|].
      apply Hkeep; auto.
Qed.

Lemma sampler_run_invariant
    (I : @exact_test_sampler.Generator F Args -> Prop) :
  (forall reading g, I g -> I (exact_test_sampler.add_work_unit reading g)) ->
  (forall g keep batch_size,
     I g ->
     batch_size = exact_test_sampler.batch_size g
     \/ batch_size
        = Z.min (exact_test_sampler.BATCH_SIZE_GROWTH_FACTOR
                 * exact_test_sampler.batch_size g)
            exact_test_sampler.MAX_BATCH_SIZE ->
     I (exact_test_sampler.mkGenerator batch_size
          (filter keep (exact_test_sampler.pending g))
          (exact_test_sampler.submitted g))) ->
  I (exact_test_sampler.mkGenerator exact_test_sampler.INITIAL_BATCH_SIZE
       [] O) ->
  forall readings (turns : list (exact_test_sampler.Turn V Args)) yielded g,
    exact_test_sampler._generate_in_parallel POOL_SIZE readings turns
    = (yielded, Ok g) ->
    I g.
Proof.
  intros Hadd Hkeep Hstart readings turns yielded g Hrun.
  unfold exact_test_sampler._generate_in_parallel in Hrun.
  apply (generate_turns_invariant I Hadd Hkeep turns _ _ _) in Hrun;
    [exact Hrun|].
  unfold exact_test_sampler.generator_start,
    exact_test_sampler.fill_pending_list.
  apply fill_pending_loop_invariant; [exact Hadd|exact Hstart].
Qed.

(** X17.  In the generator of [exact_test_sampler.py], every pending
    future asks its worker for at least [INITIAL_BATCH_SIZE] (10) results
    and for no more than the current batch size, which is itself at most
    [MAX_BATCH_SIZE] (100000). *)
Theorem sampler_futures_bounded
    readings (turns : list (exact_test_sampler.Turn V Args)) yielded
    (g : @exact_test_sampler.Generator F Args) :
  exact_test_sampler._generate_in_parallel POOL_SIZE readings turns
  = (yielded, Ok g) ->
  Forall (fun future =>
            exact_test_sampler.INITIAL_BATCH_SIZE
            <= exact_test_sampler.max_results future
            <= exact_test_sampler.batch_size g)
    (exact_test_sampler.pending g)
  /\ exact_test_sampler.batch_size g <= exact_test_sampler.MAX_BATCH_SIZE.
Proof.
  intros Hrun.
  apply (sampler_run_invariant (sampler_invariant (Args := Args))) in Hrun.
  - destruct Hrun as [Hbs Hall]. split; [exact Hall|lia].
  - intros reading g0 [Hbs Hall]. unfold sampler_invariant.
    unfold exact_test_sampler.add_work_unit. simpl.
    split; [exact Hbs|]. apply Forall_app. split; [exact Hall|].
    constructor; [|constructor]. unfold future_bounded. simpl. lia.
  - intros g0 keep batch_size [Hbs Hall] Hsize. unfold sampler_invariant.
    simpl.
    unfold exact_test_sampler.BATCH_SIZE_GROWTH_FACTOR,
      exact_test_sampler.MAX_BATCH_SIZE,
      exact_test_sampler.INITIAL_BATCH_SIZE in *.
    split; [lia|]. apply Forall_forall. intros future Hin.
    apply filter_In in Hin. rewrite Forall_forall in Hall.
    pose proof (Hall future (proj1 Hin)) as Hfuture.
    unfold future_bounded, exact_test_sampler.INITIAL_BATCH_SIZE in *. lia.
  - unfold sampler_invariant. simpl.
    unfold exact_test_sampler.MAX_BATCH_SIZE,
      exact_test_sampler.INITIAL_BATCH_SIZE.
    split; [lia|constructor].
Qed.

(** X18.  Every future is submitted with a delay that is neither below
    [MIN_DELAY] nor above [MAX_DELAY], whatever the clock reads, as long
    as [<] on floats is irreflexive at the two constants and [MAX_DELAY]
    is not below [MIN_DELAY]. *)
Theorem sampler_delay_clamped
    readings (turns : list (exact_test_sampler.Turn V Args)) yielded
    (g : @exact_test_sampler.Generator F Args) :
  flt (exact_test_sampler.MIN_DELAY (F := F)) exact_test_sampler.MIN_DELAY
  = false ->
  flt (exact_test_sampler.MAX_DELAY (F := F)) exact_test_sampler.MAX_DELAY
  = false ->
  flt (exact_test_sampler.MAX_DELAY (F := F)) exact_test_sampler.MIN_DELAY
  = false ->
  exact_test_sampler._generate_in_parallel POOL_SIZE readings turns
  = (yielded, Ok g) ->
  Forall (delay_clamped (Args := Args)) (exact_test_sampler.pending g).
Proof.
  intros Hmin Hmax Horder Hrun.
  apply (sampler_run_invariant
           (fun g => Forall (delay_clamped (Args := Args))
                       (exact_test_sampler.pending g))) in Hrun.
  - exact Hrun.
  - intros reading g0 Hall. unfold exact_test_sampler.add_work_unit.
    cbn [exact_test_sampler.pending].
    apply Forall_app. split; [exact Hall|].
    constructor; [|constructor]. unfold delay_clamped.
    cbn [exact_test_sampler.max_delay].
    destruct (flt (fmul exact_test_sampler.PROPORTIONAL_DELAY
                     (exact_test_sampler.elapsed reading))
                exact_test_sampler.MIN_DELAY) eqn:Elow.
    + rewrite Horder. rewrite Hmin, Horder. auto.
    + destruct (flt exact_test_sampler.MAX_DELAY
                  (fmul exact_test_sampler.PROPORTIONAL_DELAY
                     (exact_test_sampler.elapsed reading))) eqn:Ehigh.
      * rewrite Horder, Hmax. auto.
      * rewrite Elow, Ehigh. auto.
  - intros g0 keep batch_size Hall _. simpl.
    apply Forall_forall. intros future Hin. apply filter_In in Hin.
    rewrite Forall_forall in Hall. exact (Hall future (proj1 Hin)).
  - constructor.
Qed.
End SamplerGeneratorFacts.

Section FillPendingFacts.
Context {F : Type} `{PyFloat F}.
Variable Args : Type.
Variable POOL_SIZE : Z.

Lemma fill_pending_loop_added count :
  forall (readings : list (exact_test_sampler.PoolReading Args))
         (g : @exact_test_sampler.Generator F Args),
  exists added,
    exact_test_sampler.pending
      (exact_test_sampler.fill_pending_loop count readings g)
    = exact_test_sampler.pending g ++ added
    /\ (List.length added <= count)%nat
    /\ Forall (fun future =>
                 exact_test_sampler.max_results future
                 = exact_test_sampler.batch_size g) added
    /\ (forall reading rest,
          readings = reading :: rest ->
          exact_test_sampler.max_waiting <= exact_test_sampler.qsize reading ->
          added = [])
    /\ ((count <= List.length readings)%nat ->
        (forall reading, In reading readings ->
           exact_test_sampler.qsize reading < exact_test_sampler.max_waiting) ->
        List.length added = count).
Proof.
  induction count as [|count IH]; intros readings g.
  - exists []. simpl. rewrite app_nil_r.
    split; [reflexivity|]. split; [lia|]. split; [constructor|]. auto.
  - destruct readings as [|reading readings].
    + exists []. simpl. rewrite app_nil_r.
      split; [reflexivity|]. split; [lia|]. split; [constructor|].
      split; [discriminate|]. intros Hlen. simpl in Hlen. lia.
    + cbn [exact_test_sampler.fill_pending_loop].
      destruct (exact_test_sampler.qsize reading
                >=? exact_test_sampler.max_waiting) eqn:Efull.
      * apply Z.geb_le in Efull. exists []. rewrite app_nil_r.
        split; [reflexivity|]. split; [simpl; lia|]. split; [constructor|].
        split; [reflexivity|]. intros _ Hall.
        pose proof (Hall reading (or_introl eq_refl)). lia.
      * rewrite Z.geb_leb in Efull. apply Z.leb_gt in Efull.
        destruct (IH readings (exact_test_sampler.add_work_unit reading g))
          as [added [Hp [Hlen [Hall [_ Hexact]]]]].
        rewrite Hp. unfold exact_test_sampler.add_work_unit at 1.
        cbn [exact_test_sampler.pending]. rewrite <- app_assoc.
        eexists. split; [reflexivity|]. simpl.
        split; [lia|]. split; [constructor; [reflexivity|exact Hall]|].
        split.
        -- intros reading' rest Heq Hq. injection Heq as <- _. lia.
        -- intros Hcount Hsmall. f_equal. apply Hexact; [lia|].
           intros reading' Hin. apply Hsmall. right. exact Hin.
Qed.

(** X19.  [fill_pending_list] only appends to the pending list: the
    futures already there stay in front, in order; at most
    [POOL_SIZE + max_waiting] futures are added, each asking for the
    current batch size; none is added when the task queue already holds
    [max_waiting] tasks, and exactly [POOL_SIZE + max_waiting] are when
    it never does. *)
Theorem fill_pending_list_appends
    (readings : list (exact_test_sampler.PoolReading Args))
    (g : @exact_test_sampler.Generator F Args) :
  exists added,
    exact_test_sampler.pending
      (exact_test_sampler.fill_pending_list POOL_SIZE readings g)
    = exact_test_sampler.pending g ++ added
    /\ len added <= Z.max 0 (POOL_SIZE + exact_test_sampler.max_waiting)
    /\ Forall (fun future =>
                 exact_test_sampler.max_results future
                 = exact_test_sampler.batch_size g) added
    /\ (forall reading rest,
          readings = reading :: rest ->
          exact_test_sampler.max_waiting <= exact_test_sampler.qsize reading ->
          added = [])
    /\ (POOL_SIZE + exact_test_sampler.max_waiting <= len readings ->
        (forall reading, In reading readings ->
           exact_test_sampler.qsize reading < exact_test_sampler.max_waiting) ->
        len added = Z.max 0 (POOL_SIZE + exact_test_sampler.max_waiting)).
Proof.
  unfold exact_test_sampler.fill_pending_list.
  destruct (fill_pending_loop_added
              (Z.to_nat (POOL_SIZE + exact_test_sampler.max_waiting))
              readings g) as [added [Hp [Hlen [Hall [Hfull Hexact]]]]].
  exists added. split; [exact Hp|]. unfold len in *.
  split; [lia|]. split; [exact Hall|]. split; [exact Hfull|].
  intros Hcount Hsmall. rewrite Hexact; [lia|lia|exact Hsmall].
Qed.
End FillPendingFacts.

(* ------------------------------------------------------------------ *)
(** ** Exact arithmetic satisfies what the statements assume *)

Lemma exact_eqb_eq (x y : Q) : ExactArith.eqb x y = true <-> x = y.
Proof.
  unfold ExactArith.eqb. destruct x as [xn xd], y as [yn yd]. simpl.
  rewrite andb_true_iff, Z.eqb_eq, Pos.eqb_eq. split.
  - intros [-> ->]. reflexivity.
  - intros Heq. injection Heq as -> ->. auto.
Qed.

Lemma exact_lt_iff (x y : Q) : ExactArith.lt x y = true <-> (x < y)%Q.
Proof.
  unfold ExactArith.lt. rewrite negb_true_iff. split.
  - intros Hle. apply Qnot_le_lt. intros Hyx.
    apply Qle_bool_iff in Hyx. congruence.
  - intros Hlt. destruct (Qle_bool y x) eqn:E; [|reflexivity].
    apply Qle_bool_iff in E. exfalso. exact (Qlt_not_le _ _ Hlt E).
Qed.

Lemma exact_comparable (x y : Q) :
  ExactArith.le x y = true \/ ExactArith.ge x y = true.
Proof.
  unfold ExactArith.le, ExactArith.ge.
  destruct (Qlt_le_dec x y) as [Hlt|Hle].
  - left. apply Qle_bool_iff, Qlt_le_weak, Hlt.
  - right. apply Qle_bool_iff, Hle.
Qed.

Lemma exact_lt_trans (x y z : Q) :
  ExactArith.lt x y = true -> ExactArith.lt y z = true ->
  ExactArith.lt x z = true.
Proof.
  rewrite !exact_lt_iff. apply Qlt_trans.
Qed.

Lemma exact_truediv_below_half (i j : Z) :
  0 < j -> ExactArith.lt (ExactArith.int_div i j) (Qred 0.5) = true ->
  2 * i < j.
Proof.
  intros Hj Hlt. apply exact_lt_iff in Hlt.
  unfold ExactArith.int_div in Hlt. rewrite !Qred_correct in Hlt.
  destruct j as [|p|p]; try lia.
  unfold Qlt, Qdiv, Qmult, Qinv, inject_Z in Hlt. simpl in Hlt. lia.
Qed.

(* ------------------------------------------------------------------ *)
(** ** The statements on concrete inputs *)

Import Scenario.
Local Open Scope string_scope.

Lemma significance_test_judgement_witness :
  (250 <> 0
   /\ snd (_significance_test ExactArith.csm [] (1 # 100) 0%Q "p" 0%Q
             ([1], [2]) 0%Q 0 250 250 None)
      = Ok [("p", mkResult 0%Q (Some (-1)) 1 1 250)])
  /\ (snd (run [1] [2] [stat_p; stat_q] (1 # 10000) None (stream 250))
      = Ok (Returned [("p", mkResult 1%Q (Some 1) 1 1 250);
                      ("q", mkResult 1%Q (Some 0) 1 1 250)])
      /\ forall name result,
           In (name, result)
             [("p", mkResult 1%Q (Some 1) 1 1 250);
              ("q", mkResult 1%Q (Some 0) 1 1 250)] ->
           (judgement result = Some (-1) \/ judgement result = Some 0
            \/ judgement result = Some 1)
           /\ 0 < num_trials result).
Proof.
  split; split.
  - lia.
  - etransitivity.
    + apply (proj1 (significance_test_judgement ExactArith.kernel
                      ExactArith.log ExactArith.csm)
               [] (1 # 100) 0%Q "p" 0%Q ([1], [2]) 0%Q 0 250 250 None).
      lia.
    + vm_compute. reflexivity.
  - vm_compute. reflexivity.
  - apply (proj2 (significance_test_judgement ExactArith.kernel
                    ExactArith.log ExactArith.csm)
             0 [1] [2] [stat_p; stat_q] (1 # 10000) None (stream 250)
             (Returned [("p", mkResult 1%Q (Some 1) 1 1 250);
                        ("q", mkResult 1%Q (Some 0) 1 1 250)])).
    vm_compute. reflexivity.
Defined.

Lemma corrected_eps_reaches_csm_witness :
  (ExactArith.log
     (fdiv (fdiv 0%Q (fmul (of_int (2 * len [stat_p; stat_q])) (flit 1.1)))
        (of_int 10)) = None
   /\ run [1] [2] [stat_p; stat_q] 0%Q None (stream 250)
      = ([], Raise (ValueError "math domain error")))
  /\ (ExactArith.log
        (fdiv (fdiv (1 # 10000)
                 (fmul (of_int (2 * len [stat_p; stat_q])) (flit 1.1)))
           (of_int 10)) = Some (-439999 # 440000)
      /\ (forall trials successes,
            ExactArith.csm trials (1 # 44000) successes (-439999 # 440000)
            = other_csm trials (1 # 44000) successes (-439999 # 440000))
      /\ run [1] [2] [stat_p; stat_q] (1 # 10000) None (stream 250)
         = exact_test ExactArith.kernel ExactArith.log other_csm 0 [1] [2]
             [stat_p; stat_q] (1 # 10000) None (stream 250))
  /\ (_actual_data_results ExactArith.kernel 0 ([1], [2]) [stat_p; stat_q]
      = Ok [("p", 1%Q); ("q", 1%Q)]
      /\ snd (run [1] [2] [stat_p; stat_q] (1 # 10000) None (stream 249))
         = Ok (Running
                 (mkLoopState [("p", mkAccumulator 249 249 0);
                               ("q", mkAccumulator 249 249 249)] [] 249 250))
      /\ (249 + 1) mod 250 = 0
      /\ snd (run [1] [2] [stat_p; stat_q] (1 # 10000) None
                (stream 249 ++ [Ok sample])%list)
         = Ok (Returned [("p", mkResult 1%Q (Some 1) 1 1 250);
                         ("q", mkResult 1%Q (Some 0) 1 1 250)])
      /\ exists accs,
           foldM (count_entry [("p", 1%Q); ("q", 1%Q)]) sample
             [("p", mkAccumulator 249 249 0);
              ("q", mkAccumulator 249 249 249)] = Ok accs
           /\ forall name,
                dict_get String.eqb
                  [("p", mkResult 1%Q (Some 1) 1 1 250);
                   ("q", mkResult 1%Q (Some 0) 1 1 250)] name
                = dict_get String.eqb
                    (judge_all ExactArith.csm
                       (fdiv (1 # 10000)
                          (fmul (of_int (2 * len [stat_p; stat_q]))
                             (flit 1.1)))
                       (-439999 # 440000) ([1], [2])
                       [("p", 1%Q); ("q", 1%Q)] accs []) name)
  /\ (snd (exact_test ExactArith.kernel ExactArith.log Cases.strict_csm 0
              [1] [2] [stat_p; stat_q] (1 # 10000) None (stream 249))
      = Ok (Running
              (mkLoopState [("p", mkAccumulator 249 249 0);
                            ("q", mkAccumulator 249 249 249)] [] 249 250))
      /\ snd (exact_test ExactArith.kernel ExactArith.log Cases.strict_csm 0
                 [1] [2] [stat_p; stat_q] (1 # 10000) None
                 (stream 249 ++ [Ok sample])%list)
         = Ok (Running
                 (mkLoopState [("p", mkAccumulator 250 250 0);
                               ("q", mkAccumulator 250 250 250)]
                    [("p", mkResult 1%Q (Some 1) 1 1 250)] 250 250))
      /\ exists accs,
           foldM (count_entry [("p", 1%Q); ("q", 1%Q)]) sample
             [("p", mkAccumulator 249 249 0);
              ("q", mkAccumulator 249 249 249)] = Ok accs
           /\ forall name,
                dict_get String.eqb
                  [("p", mkResult 1%Q (Some 1) 1 1 250)] name
                = dict_get String.eqb
                    (judge_all Cases.strict_csm
                       (fdiv (1 # 10000)
                          (fmul (of_int (2 * len [stat_p; stat_q]))
                             (flit 1.1)))
                       (-439999 # 440000) ([1], [2])
                       [("p", 1%Q); ("q", 1%Q)] accs []) name).
Proof.
  assert (Hlog :
    ExactArith.log
      (fdiv (fdiv (1 # 10000)
               (fmul (of_int (2 * len [stat_p; stat_q])) (flit 1.1)))
         (of_int 10)) = Some (-439999 # 440000)).
  { vm_compute. reflexivity. }
  assert (Hact :
    _actual_data_results ExactArith.kernel 0 ([1], [2]) [stat_p; stat_q]
    = Ok [("p", 1%Q); ("q", 1%Q)]).
  { vm_compute. reflexivity. }
  assert (Hrun :
    snd (run [1] [2] [stat_p; stat_q] (1 # 10000) None (stream 249))
    = Ok (Running
            (mkLoopState [("p", mkAccumulator 249 249 0);
                          ("q", mkAccumulator 249 249 249)] [] 249 250))).
  { vm_compute. reflexivity. }
  assert (Hmore :
    snd (run [1] [2] [stat_p; stat_q] (1 # 10000) None
           (stream 249 ++ [Ok sample])%list)
    = Ok (Returned [("p", mkResult 1%Q (Some 1) 1 1 250);
                    ("q", mkResult 1%Q (Some 0) 1 1 250)])).
  { vm_compute. reflexivity. }
  assert (Hstrict :
    snd (exact_test ExactArith.kernel ExactArith.log Cases.strict_csm 0
           [1] [2] [stat_p; stat_q] (1 # 10000) None (stream 249))
    = Ok (Running
            (mkLoopState [("p", mkAccumulator 249 249 0);
                          ("q", mkAccumulator 249 249 249)] [] 249 250))).
  { vm_compute. reflexivity. }
  assert (Hstrict' :
    snd (exact_test ExactArith.kernel ExactArith.log Cases.strict_csm 0
           [1] [2] [stat_p; stat_q] (1 # 10000) None
           (stream 249 ++ [Ok sample])%list)
    = Ok (Running
            (mkLoopState [("p", mkAccumulator 250 250 0);
                          ("q", mkAccumulator 250 250 250)]
               [("p", mkResult 1%Q (Some 1) 1 1 250)] 250 250))).
  { vm_compute. reflexivity. }
  split; [split|split; [split; [exact Hlog|split]|split]].
  - vm_compute. reflexivity.
  - apply (proj1 (corrected_eps_reaches_csm ExactArith.kernel ExactArith.log
                    0 [1] [2] stat_p [stat_q] 0%Q None (stream 250))).
    vm_compute. reflexivity.
  - intros trials successes. reflexivity.
  - apply (proj1 (proj2 (corrected_eps_reaches_csm ExactArith.kernel
                           ExactArith.log 0 [1] [2] stat_p [stat_q]
                           (1 # 10000) None (stream 250)))
             ExactArith.csm other_csm (-439999 # 440000)).
    + exact Hlog.
    + intros trials successes. reflexivity.
  - split; [exact Hact|]. split; [exact Hrun|]. split; [reflexivity|].
    split; [exact Hmore|].
    exact (proj2 (proj2 (corrected_eps_reaches_csm ExactArith.kernel
                           ExactArith.log 0 [1] [2] stat_p [stat_q]
                           (1 # 10000) None (stream 249)))
             ExactArith.csm (-439999 # 440000) [("p", 1%Q); ("q", 1%Q)]
             (mkLoopState [("p", mkAccumulator 249 249 0);
                           ("q", mkAccumulator 249 249 249)] [] 249 250)
             sample
             (Returned [("p", mkResult 1%Q (Some 1) 1 1 250);
                        ("q", mkResult 1%Q (Some 0) 1 1 250)])
             Hlog Hact Hrun eq_refl Hmore).
  - split; [exact Hstrict|]. split; [exact Hstrict'|].
    exact (proj2 (proj2 (corrected_eps_reaches_csm ExactArith.kernel
                           ExactArith.log 0 [1] [2] stat_p [stat_q]
                           (1 # 10000) None (stream 249)))
             Cases.strict_csm (-439999 # 440000) [("p", 1%Q); ("q", 1%Q)]
             (mkLoopState [("p", mkAccumulator 249 249 0);
                           ("q", mkAccumulator 249 249 249)] [] 249 250)
             sample
             (Running
                (mkLoopState [("p", mkAccumulator 250 250 0);
                              ("q", mkAccumulator 250 250 250)]
                   [("p", mkResult 1%Q (Some 1) 1 1 250)] 250 250))
             Hlog Hact Hstrict eq_refl Hstrict').
Defined.


Lemma exact_test_input_checks_witness :
  (ExactArith.log
     (fdiv (corrected_eps (0 : Q) (len [stat_p; stat_q])) (of_int 10)) = None
   /\ run [1] [2] [stat_p; stat_q] 0%Q (Some Stderr) (stream 250)
      = ([], Raise (ValueError "math domain error")))
  /\ (ExactArith.log
        (fdiv (corrected_eps (2 : Q) (len [stat_p; stat_q])) (of_int 10))
      <> None
      /\ ExactArith.log
           (fdiv (corrected_eps (1 # 10000 : Q) (len [stat_p; stat_q]))
              (of_int 10)) <> None
      /\ snd (run [2 ^ 63] [1] [stat_p; stat_q] 2%Q (Some Stderr) [])
         = snd (run [2 ^ 63] [1] [stat_p; stat_q] (1 # 10000) (Some Stderr)
                  []))
  /\ (([2 ^ 64] ++ [1])%list = ([] ++ 2 ^ 64 :: [1])%list
      /\ ~ 0 <= 2 ^ 64 < 2 ^ 64
      /\ snd (run [2 ^ 64] [1] [stat_p; stat_q] 2%Q (Some Stderr)
                (stream 250))
         = Raise (OverflowError (2 ^ 64)))
  /\ (Forall (fun x => 0 <= x < 2 ^ 64) ([2 ^ 63] ++ [1])%list
      /\ Forall (fun x => 0 <= x < 2 ^ 64) ([1] ++ [2])%list
      /\ same_failure
           (snd (run [2 ^ 63] [1] [stat_p; stat_q] 2%Q (Some Stderr) []))
           (snd (run [1] [2] [stat_p; stat_q] 2%Q (Some Stderr) [])))
  /\ same_failure
       (snd (run [2 ^ 63] [1] [stat_p; stat_q] 2%Q (Some Stderr) []))
       (snd (run [2 ^ 63] [1]
               (map (renamed (fun _ => "p")) [stat_p; stat_q]) 2%Q
               (Some Stderr) [])).
Proof.
  assert (Hzero :
    ExactArith.log
      (fdiv (corrected_eps (0 : Q) (len [stat_p; stat_q])) (of_int 10))
    = None) by (vm_compute; reflexivity).
  assert (Htwo :
    ExactArith.log
      (fdiv (corrected_eps (2 : Q) (len [stat_p; stat_q])) (of_int 10))
    <> None) by (vm_compute; discriminate).
  assert (Hsmall :
    ExactArith.log
      (fdiv (corrected_eps (1 # 10000 : Q) (len [stat_p; stat_q]))
         (of_int 10)) <> None) by (vm_compute; discriminate).
  assert (Hbig : ~ 0 <= 2 ^ 64 < 2 ^ 64) by lia.
  assert (Hfit : Forall (fun x => 0 <= x < 2 ^ 64) ([2 ^ 63] ++ [1])%list).
  { repeat constructor; lia. }
  assert (Hfit' : Forall (fun x => 0 <= x < 2 ^ 64) ([1] ++ [2])%list).
  { repeat constructor; lia. }
  split; [split; [exact Hzero|]|split; [split; [exact Htwo|split;
    [exact Hsmall|]]|split; [split; [reflexivity|split; [exact Hbig|]]|
    split; [split; [exact Hfit|split; [exact Hfit'|]]|]]]].
  - exact (proj1 (exact_test_input_checks ExactArith.kernel ExactArith.log
                    ExactArith.csm 0 [1] [2] stat_p [stat_q] 0%Q
                    (Some Stderr)) Hzero (stream 250)).
  - exact (proj1 (proj2 (exact_test_input_checks ExactArith.kernel
                           ExactArith.log ExactArith.csm 0 [2 ^ 63] [1]
                           stat_p [stat_q] 2%Q (Some Stderr)))
             (1 # 10000) Htwo Hsmall).
  - exact (proj1 (proj2 (proj2 (exact_test_input_checks ExactArith.kernel
                                  ExactArith.log ExactArith.csm 0 [2 ^ 64]
                                  [1] stat_p [stat_q] 2%Q (Some Stderr))))
             [] (2 ^ 64) [1] (stream 250) Htwo eq_refl (Forall_nil _) Hbig).
  - exact (proj1 (proj2 (proj2 (proj2
             (exact_test_input_checks ExactArith.kernel ExactArith.log
                ExactArith.csm 0 [2 ^ 63] [1] stat_p [stat_q] 2%Q
                (Some Stderr))))) [1] [2] Hfit Hfit').
  - exact (proj2 (proj2 (proj2 (proj2
             (exact_test_input_checks ExactArith.kernel ExactArith.log
                ExactArith.csm 0 [2 ^ 63] [1] stat_p [stat_q] 2%Q
                (Some Stderr))))) (fun _ => "p")).
Defined.

(** C4 fails as stated: a call whose statistic names are not unique, whose
    [eps] is 2 and whose first observation is [2^63] raises nothing: it
    enters the sampling loop and, on 250 resampled values, returns a
    result. *)
Lemma exact_test_accepts_invalid_input :
  ~ NoDup (map (@name Q) [stat_p; stat_p_shifted])
  /\ ~ (0 < 2 < 1)%Q
  /\ In (2 ^ 63) [2 ^ 63]
  /\ snd (run [2 ^ 63] [1] [stat_p; stat_p_shifted] 2%Q (Some Stderr) [])
     = Ok (Running (mkLoopState [("p", mkAccumulator 0 0 0)] [] 0 250))
  /\ snd (run [2 ^ 63] [1] [stat_p; stat_p_shifted] 2%Q (Some Stderr)
            (stream_p 250))
     = Ok (Returned [("p", mkResult 0%Q (Some 0) 1 1 250)]).
Proof.
  split; [|split; [|split; [|split]]].
  - intros Hnd. inversion Hnd as [|? ? Hnot _]. apply Hnot. left. reflexivity.
  - intros [_ Hlt]. vm_compute in Hlt. discriminate.
  - left. reflexivity.
  - vm_compute. reflexivity.
  - vm_compute. reflexivity.
Qed.

Lemma shuffle_failure_raises_type_error_witness :
  exact_test_shuffle ExactArith.kernel 0 [5; 7] 1 1 (2 : Q)
  = (0, [5; 7], Some "p_a_lower out of range")
  /\ compute_results ExactArith.kernel 1 1 [5; 7] 0
       [(2 : Q, [((0, 0), [lte_prob "p" (2 : Q) 0 0])])]
     = Raise (TypeError "exceptions must derive from BaseException")
  /\ snd (run [5] [7] [lte_prob "p" (2 : Q) 0 0] (1 # 10000) None
            (stream_p 3))
     = Ok (Running (mkLoopState [("p", mkAccumulator 3 3 0)] [] 3 250))
  /\ snd (run [5] [7] [lte_prob "p" (2 : Q) 0 0] (1 # 10000) None
            (stream_p 3
             ++ match compute_results ExactArith.kernel 1 1 [5; 7] 0
                        [(2 : Q, [((0, 0), [lte_prob "p" (2 : Q) 0 0])])] with
                | Raise e => Raise e
                | Ok (_, results) => Ok results
                end :: stream_p 1))
     = Raise (TypeError "exceptions must derive from BaseException").
Proof.
  assert (Hshuffle :
    exact_test_shuffle ExactArith.kernel 0 [5; 7] 1 1 (2 : Q)
    = (0, [5; 7], Some "p_a_lower out of range")) by reflexivity.
  assert (Hrun :
    snd (run [5] [7] [lte_prob "p" (2 : Q) 0 0] (1 # 10000) None (stream_p 3))
    = Ok (Running (mkLoopState [("p", mkAccumulator 3 3 0)] [] 3 250))).
  { vm_compute. reflexivity. }
  destruct (shuffle_failure_raises_type_error ExactArith.kernel
              ExactArith.log ExactArith.csm 1 1 [5; 7] 0 (2 : Q)
              [((0, 0), [lte_prob "p" (2 : Q) 0 0])] [] 0 [5; 7]
              "p_a_lower out of range" Hshuffle) as [Hraise Hsurface].
  split; [exact Hshuffle|]. split; [exact Hraise|]. split; [exact Hrun|].
  exact (Hsurface 0 [5] [7] [lte_prob "p" (2 : Q) 0 0] (1 # 10000) None
           (stream_p 3) _ (stream_p 1) Hrun).
Defined.

Lemma batch_size_growth_by_generator_witness :
  (exact_test_sampler.generate_turn 3
     (exact_test_sampler.generator_start (F := Q) 3
        [exact_test_sampler.mkPoolReading 0 (0 : Q) tt]) turn
   = ([7; 8; 9]%nat,
      Ok (exact_test_sampler.mkGenerator 20
            [exact_test_sampler.mkFuture 1 tt 20 (1 # 100)] 2))
   /\ exact_test_sampler.batch_size
        (exact_test_sampler.mkGenerator 20
           [exact_test_sampler.mkFuture 1 tt 20 (1 # 100)] 2)
      = Z.min (2 * 10) (10 ^ 5))
  /\ (returned (_generate_in_parallel_worker (seq 0 12) 0 40 80) = false
      /\ batch_size (_generate_in_parallel_worker (seq 0 12) 0 40 80)
         = Z.max 0 (Z.min (0 + 5) 40))
  /\ (In (0, 40, 80) (initial_work_units 4)
      /\ (0 = 0 \/ 0 = 10 * 4) /\ 40 = 10 * 4).
Proof.
  assert (Hturn :
    exact_test_sampler.generate_turn 3
      (exact_test_sampler.generator_start (F := Q) 3
         [exact_test_sampler.mkPoolReading 0 (0 : Q) tt]) turn
    = ([7; 8; 9]%nat,
       Ok (exact_test_sampler.mkGenerator 20
             [exact_test_sampler.mkFuture 1 tt 20 (1 # 100)] 2))).
  { vm_compute. reflexivity. }
  assert (Hreturned :
    returned (_generate_in_parallel_worker (seq 0 12) 0 40 80) = false).
  { vm_compute. reflexivity. }
  assert (Hunit : In (0, 40, 80) (initial_work_units 4)).
  { left. reflexivity. }
  destruct (batch_size_growth_by_generator (F := Q) nat unit 3)
    as [_ [_ [_ [_ [Hstep [_ [Hworker Hunits]]]]]]].
  split; [split; [exact Hturn|exact (Hstep _ _ _ _ Hturn)]|].
  split; [split; [exact Hreturned|]|].
  - exact (Hworker (seq 0 12) 0 40 80 Hreturned).
  - split; [exact Hunit|]. exact (Hunits 4 0 40 80 Hunit).
Defined.

(** C6 fails as stated on the generator that [exact_test] itself runs: with
    four CPUs the first work unit starts its worker at batch size 0, not
    [INITIAL_BATCH_SIZE]; on twelve values the worker has put batches of
    1, 1, 2, 3 and 4 values on the queue and its batch size is 5, where
    five doublings from 10 give 320. *)
Lemma queue_worker_batch_size_not_geometric :
  hd_error (initial_work_units 4) = Some (0, 40, 80)
  /\ batch_size (_generate_in_parallel_worker (@nil nat) 0 40 80) = 0
  /\ map len (queue (_generate_in_parallel_worker (seq 0 12) 0 40 80))
     = [1; 1; 2; 3; 4]
  /\ batch_size (_generate_in_parallel_worker (seq 0 12) 0 40 80) = 5
  /\ 0 <> exact_test_sampler.INITIAL_BATCH_SIZE
  /\ 5 <> Z.min (exact_test_sampler.INITIAL_BATCH_SIZE
                 * exact_test_sampler.BATCH_SIZE_GROWTH_FACTOR ^ 5)
            exact_test_sampler.MAX_BATCH_SIZE.
Proof.
  repeat split; try (vm_compute; reflexivity); vm_compute; discriminate.
Qed.

Lemma group_statistics_in_plan_lossless_witness :
  (forall x y : Q, feqb x y = true <-> x = y)
  /\ Permutation
       (plan_statistics
          (_group_statistics_in_plan [stat_p; stat_q; stat_p_shifted; stat_p]))
       [stat_p; stat_q; stat_p_shifted; stat_p]
  /\ _group_statistics_in_plan [stat_p; stat_q; stat_p_shifted; stat_p]
     = [(1 # 2, [((0, 0), [stat_p; stat_p]); ((0, 1), [stat_p_shifted])]);
        (1 # 4, [((0, 0), [stat_q])])]
  /\ (In stat_p_shifted [stat_p; stat_q; stat_p_shifted; stat_p]
      /\ (feqb (1 # 2) (probability_a_lower stat_p_shifted) = true
          \/ (1 # 2) = probability_a_lower stat_p_shifted)
      /\ (0, 1) = (a_offset stat_p_shifted, b_offset stat_p_shifted))
  /\ ForallOrdPairs (fun p p' : Q => feqb p p' = false)
       (map fst
          (_group_statistics_in_plan [stat_p; stat_q; stat_p_shifted; stat_p]))
  /\ NoDup
       (map fst
          (_group_statistics_in_plan [stat_p; stat_q; stat_p_shifted; stat_p])).
Proof.
  assert (Hplan :
    _group_statistics_in_plan [stat_p; stat_q; stat_p_shifted; stat_p]
    = [(1 # 2, [((0, 0), [stat_p; stat_p]); ((0, 1), [stat_p_shifted])]);
       (1 # 4, [((0, 0), [stat_q])])]).
  { vm_compute. reflexivity. }
  destruct (group_statistics_in_plan_lossless
              [stat_p; stat_q; stat_p_shifted; stat_p])
    as [Hperm [_ [Hkeyed [Hdistinct [_ Hkeys]]]]].
  split; [exact exact_eqb_eq|]. split; [exact Hperm|].
  split; [exact Hplan|]. split; [|split; [exact Hdistinct|]].
  - apply (Hkeyed (1 # 2)
             [((0, 0), [stat_p; stat_p]); ((0, 1), [stat_p_shifted])]
             (0, 1) [stat_p_shifted] stat_p_shifted).
    + rewrite Hplan. left. reflexivity.
    + right. left. reflexivity.
    + left. reflexivity.
  - exact (proj1 (Hkeys exact_eqb_eq)).
Defined.


(* ------------------------------------------------------------------ *)
(** ** The further statements on concrete inputs *)

Import Cases.

Lemma decisions_are_final_witness :
  snd (strict_run [1] [2] [stat_p; stat_q] (1 # 10000) None (stream 250))
  = Ok (Running
          (mkLoopState [("p", mkAccumulator 250 250 0);
                        ("q", mkAccumulator 250 250 250)]
             [("p", mkResult 1%Q (Some 1) 1 1 250)] 250 250))
  /\ snd (strict_run [1] [2] [stat_p; stat_q] (1 # 10000) None
            (stream 250 ++ stream_q 250)%list)
     = Ok (Running
             (mkLoopState [("p", mkAccumulator 250 250 0);
                           ("q", mkAccumulator 500 500 500)]
                [("p", mkResult 1%Q (Some 1) 1 1 250)] 500 250))
  /\ dict_get String.eqb [("p", mkResult 1%Q (Some 1) 1 1 250)] "p"
     = Some (mkResult 1%Q (Some 1) 1 1 250).
Proof.
  assert (Hrun :
    snd (strict_run [1] [2] [stat_p; stat_q] (1 # 10000) None (stream 250))
    = Ok (Running
            (mkLoopState [("p", mkAccumulator 250 250 0);
                          ("q", mkAccumulator 250 250 250)]
               [("p", mkResult 1%Q (Some 1) 1 1 250)] 250 250))).
  { vm_compute. reflexivity. }
  assert (Hmore :
    snd (strict_run [1] [2] [stat_p; stat_q] (1 # 10000) None
           (stream 250 ++ stream_q 250)%list)
    = Ok (Running
            (mkLoopState [("p", mkAccumulator 250 250 0);
                          ("q", mkAccumulator 500 500 500)]
               [("p", mkResult 1%Q (Some 1) 1 1 250)] 500 250))).
  { vm_compute. reflexivity. }
  split; [exact Hrun|]. split; [exact Hmore|].
  exact (decisions_are_final ExactArith.kernel ExactArith.log strict_csm
           0 [1] [2] [stat_p; stat_q] (1 # 10000) None (stream 250)
           (stream_q 250) _ _ Hrun Hmore "p"
           (mkResult 1%Q (Some 1) 1 1 250) eq_refl).
Defined.

Lemma returned_names_in_order_witness :
  snd (run [1; 3] [2] [stat_p; stat_q; stat_p_shifted] (1 # 10000) None
         (stream 250))
  = Ok (Returned [("p", mkResult (1 # 2) (Some 1) 2 1 250);
                  ("q", mkResult (1 # 2) (Some (-1)) 2 1 250)])
  /\ ["p"; "q"]
     = first_occurrences []
         (map (@name Q) [stat_p; stat_q; stat_p_shifted])
  /\ NoDup ["p"; "q"].
Proof.
  assert (Hrun :
    snd (run [1; 3] [2] [stat_p; stat_q; stat_p_shifted] (1 # 10000) None
           (stream 250))
    = Ok (Returned [("p", mkResult (1 # 2) (Some 1) 2 1 250);
                    ("q", mkResult (1 # 2) (Some (-1)) 2 1 250)])).
  { vm_compute. reflexivity. }
  split; [exact Hrun|].
  exact (returned_names_in_order ExactArith.kernel ExactArith.log
           ExactArith.csm 0 [1; 3] [2] [stat_p; stat_q; stat_p_shifted]
           (1 # 10000) None (stream 250) _ Hrun).
Defined.

Lemma running_has_undecided_witness :
  snd (strict_run [1] [2] [stat_p; stat_q] (1 # 10000) None (stream 250))
  = Ok (Running
          (mkLoopState [("p", mkAccumulator 250 250 0);
                        ("q", mkAccumulator 250 250 250)]
             [("p", mkResult 1%Q (Some 1) 1 1 250)] 250 250))
  /\ (1 < 2)%nat
  /\ exists name,
       In name ["p"; "q"]
       /\ dict_get String.eqb [("p", mkResult 1%Q (Some 1) 1 1 250)] name
          = None.
Proof.
  assert (Hrun :
    snd (strict_run [1] [2] [stat_p; stat_q] (1 # 10000) None (stream 250))
    = Ok (Running
            (mkLoopState [("p", mkAccumulator 250 250 0);
                          ("q", mkAccumulator 250 250 250)]
               [("p", mkResult 1%Q (Some 1) 1 1 250)] 250 250))).
  { vm_compute. reflexivity. }
  split; [exact Hrun|].
  exact (running_has_undecided ExactArith.kernel ExactArith.log strict_csm
           0 [1] [2] [stat_p; stat_q] (1 # 10000) None (stream 250) _ Hrun).
Defined.

Lemma test_schedule_witness :
  snd (strict_run [1] [2] [stat_p; stat_q] (1 # 10000) None
         (stream 250 ++ stream_q 251)%list)
  = Ok (Running
          (mkLoopState [("p", mkAccumulator 250 250 0);
                        ("q", mkAccumulator 501 501 501)]
             [("p", mkResult 1%Q (Some 1) 1 1 250)] 501 250))
  /\ 501 = len (stream 250 ++ stream_q 251)%list
  /\ (exists j : nat, 250 = 250 * 10 ^ Z.of_nat j)
  /\ 501 < 40 * 250
  /\ (250 = 250 \/ 4 * 250 <= 501).
Proof.
  assert (Hrun :
    snd (strict_run [1] [2] [stat_p; stat_q] (1 # 10000) None
           (stream 250 ++ stream_q 251)%list)
    = Ok (Running
            (mkLoopState [("p", mkAccumulator 250 250 0);
                          ("q", mkAccumulator 501 501 501)]
               [("p", mkResult 1%Q (Some 1) 1 1 250)] 501 250))).
  { vm_compute. reflexivity. }
  split; [exact Hrun|].
  exact (test_schedule ExactArith.kernel ExactArith.log strict_csm
           0 [1] [2] [stat_p; stat_q] (1 # 10000) None
           (stream 250 ++ stream_q 251)%list _ Hrun).
Defined.

Lemma no_decision_before_250_samples_witness :
  len (stream 249) < 250
  /\ snd (run [1] [2] [stat_p; stat_q] (1 # 10000) None (stream 249))
     = Ok (Running
             (mkLoopState [("p", mkAccumulator 249 249 0);
                           ("q", mkAccumulator 249 249 249)] [] 249 250))
  /\ exists st : @LoopState Q,
       Running
         (mkLoopState [("p", mkAccumulator 249 249 0);
                       ("q", mkAccumulator 249 249 249)] [] 249 250)
       = Running st
       /\ ret st = [].
Proof.
  assert (Hlen : len (stream 249) < 250) by (vm_compute; reflexivity).
  assert (Hrun :
    snd (run [1] [2] [stat_p; stat_q] (1 # 10000) None (stream 249))
    = Ok (Running
            (mkLoopState [("p", mkAccumulator 249 249 0);
                          ("q", mkAccumulator 249 249 249)] [] 249 250))).
  { vm_compute. reflexivity. }
  split; [exact Hlen|]. split; [exact Hrun|].
  exact (no_decision_before_250_samples ExactArith.kernel ExactArith.log
           ExactArith.csm 0 [1] [2] stat_p [stat_q] (1 # 10000) None
           (stream 249) _ Hlen Hrun).
Defined.

Lemma exact_test_never_divides_by_zero_witness :
  snd (run [1] [2] [stat_p] (1 # 10000) None (stream 250))
  = Raise (KeyError "q")
  /\ ~ In (Raise ZeroDivisionError) (stream 250)
  /\ KeyError "q" <> ZeroDivisionError.
Proof.
  assert (Hrun :
    snd (run [1] [2] [stat_p] (1 # 10000) None (stream 250))
    = Raise (KeyError "q")).
  { vm_compute. reflexivity. }
  assert (Hstream : ~ In (Raise ZeroDivisionError) (stream 250)).
  { intros Hin. apply repeat_spec in Hin. discriminate. }
  split; [exact Hrun|]. split; [exact Hstream|].
  exact (exact_test_never_divides_by_zero ExactArith.kernel ExactArith.log
           ExactArith.csm 0 [1] [2] [stat_p] (1 # 10000) None (stream 250)
           _ Hrun Hstream).
Defined.

Lemma actual_data_results_last_wins_witness :
  _actual_data_results ExactArith.kernel 0 ([1; 3], [2])
    ([stat_p] ++ stat_p_shifted :: [stat_q])%list
  = Ok [("p", 1 # 2); ("q", 1 # 2)]
  /\ (forall later, In later [stat_q] -> name later <> name stat_p_shifted)
  /\ ["p"; "q"]
     = first_occurrences []
         (map (@name Q) ([stat_p] ++ stat_p_shifted :: [stat_q])%list)
  /\ NoDup ["p"; "q"]
  /\ dict_get String.eqb [("p", 1 # 2); ("q", 1 # 2)] "p" = Some (1 # 2).
Proof.
  assert (Hrun :
    _actual_data_results ExactArith.kernel 0 ([1; 3], [2])
      ([stat_p] ++ stat_p_shifted :: [stat_q])%list
    = Ok [("p", 1 # 2); ("q", 1 # 2)]).
  { vm_compute. reflexivity. }
  assert (Hlater : forall later,
            In later [stat_q] -> name later <> name stat_p_shifted).
  { intros later [<-|[]]. discriminate. }
  split; [exact Hrun|]. split; [exact Hlater|].
  exact (actual_data_results_last_wins ExactArith.kernel 0 [1; 3] [2]
           [stat_p] [stat_q] stat_p_shifted _
           (fun buf m n (_ : list Q) =>
              ExactArith.int_div
                (ExactArith.count_lte (firstn (Z.to_nat m) buf)
                   (skipn (Z.to_nat m) buf))
                (Z.max 1 (m * n)))
           Hrun Hlater eq_refl).
Defined.

Lemma unfathomed_statistics_are_sampled_witness :
  compute_results ExactArith.kernel 1 1 [1; 2] 0
    (group_unfathomed_statistics [stat_p; stat_q]
       [("p", mkResult 1%Q (Some 1) 1 1 250)])
  = Ok (2, [("q", 1%Q)])
  /\ forall name0,
       In name0 ["q"]
       <-> exists stat,
             In stat [stat_p; stat_q] /\ name stat = name0
             /\ dict_mem String.eqb
                  [("p", mkResult 1%Q (Some 1) 1 1 250)] name0 = false.
Proof.
  assert (Hrun :
    compute_results ExactArith.kernel 1 1 [1; 2] 0
      (group_unfathomed_statistics [stat_p; stat_q]
         [("p", mkResult 1%Q (Some 1) 1 1 250)])
    = Ok (2, [("q", 1%Q)])).
  { vm_compute. reflexivity. }
  split; [exact Hrun|].
  exact (unfathomed_statistics_are_sampled ExactArith.kernel 1 1 [1; 2] 0
           [stat_p; stat_q] [("p", mkResult 1%Q (Some 1) 1 1 250)] _ _ Hrun).
Defined.

Lemma generator_keeps_pool_full_witness :
  exact_test_queue._generate_in_parallel 2 20 (fun _ : nat => tt)
    [queue_turn]
  = ([7; 8; 9]%nat,
     Ok (exact_test_queue.mkGenerator
           [exact_test_queue.mkWorkUnit 1 tt 0 20 40;
            exact_test_queue.mkWorkUnit 2 tt 20 20 40;
            exact_test_queue.mkWorkUnit 3 tt 20 20 40;
            exact_test_queue.mkWorkUnit 4 tt 20 20 100] 5))
  /\ 4%nat = (Z.to_nat 2 + 2)%nat
  /\ Forall (exact_test_queue.unit_as_submitted 20)
       [exact_test_queue.mkWorkUnit 1 tt 0 20 40;
        exact_test_queue.mkWorkUnit 2 tt 20 20 40;
        exact_test_queue.mkWorkUnit 3 tt 20 20 40;
        exact_test_queue.mkWorkUnit 4 tt 20 20 100].
Proof.
  assert (Hrun :
    exact_test_queue._generate_in_parallel 2 20 (fun _ : nat => tt)
      [queue_turn]
    = ([7; 8; 9]%nat,
       Ok (exact_test_queue.mkGenerator
             [exact_test_queue.mkWorkUnit 1 tt 0 20 40;
              exact_test_queue.mkWorkUnit 2 tt 20 20 40;
              exact_test_queue.mkWorkUnit 3 tt 20 20 40;
              exact_test_queue.mkWorkUnit 4 tt 20 20 100] 5))).
  { vm_compute. reflexivity. }
  split; [exact Hrun|].
  exact (generator_keeps_pool_full nat unit 2 20 (fun _ : nat => tt)
           [queue_turn] _ _ Hrun).
Defined.

Lemma generator_yields_or_fails_witness :
  exact_test_queue._generate_in_parallel 2 20 (fun _ : nat => tt)
    [queue_turn; failing_turn; queue_turn]
  = ([7; 8; 9]%nat,
     Raise (TypeError "exceptions must derive from BaseException"))
  /\ exists before t after,
       [queue_turn; failing_turn; queue_turn] = (before ++ t :: after)%list
       /\ [7; 8; 9]%nat
          = flat_map (@exact_test_queue.turn_values nat) before
       /\ exists g',
            exact_test_queue._generate_in_parallel 2 20
              (fun _ : nat => tt) before
            = ([7; 8; 9]%nat, Ok g')
            /\ (exact_test_queue.value t
                = Raise (TypeError "exceptions must derive from BaseException")
                \/ exists unit,
                     In unit (exact_test_queue.pending g')
                     /\ exact_test_queue.ready t
                          (exact_test_queue.unit_id unit) = true
                     /\ exact_test_queue.get t
                          (exact_test_queue.unit_id unit)
                        = Raise (TypeError
                                   "exceptions must derive from BaseException")).
Proof.
  assert (Hrun :
    exact_test_queue._generate_in_parallel 2 20 (fun _ : nat => tt)
      [queue_turn; failing_turn; queue_turn]
    = ([7; 8; 9]%nat,
       Raise (TypeError "exceptions must derive from BaseException"))).
  { vm_compute. reflexivity. }
  split; [exact Hrun|].
  exact (generator_yields_or_fails nat unit 2 20 (fun _ : nat => tt)
           [queue_turn; failing_turn; queue_turn] _ _ Hrun).
Defined.

Lemma results_report_actual_data_witness :
  snd (run [1; 3] [2] [stat_p; stat_q] (1 # 10000) None (stream 250))
  = Ok (Returned [("p", mkResult (1 # 2) (Some 1) 2 1 250);
                  ("q", mkResult (1 # 2) (Some (-1)) 2 1 250)])
  /\ In ("q", mkResult (1 # 2) (Some (-1)) 2 1 250)
       [("p", mkResult (1 # 2) (Some 1) 2 1 250);
        ("q", mkResult (1 # 2) (Some (-1)) 2 1 250)]
  /\ 2 = len [1; 3]
  /\ 1 = len [2]
  /\ exists actual_stats,
       _actual_data_results ExactArith.kernel 0 ([1; 3], [2])
         [stat_p; stat_q] = Ok actual_stats
       /\ dict_get String.eqb actual_stats "q" = Some (1 # 2).
Proof.
  assert (Hrun :
    snd (run [1; 3] [2] [stat_p; stat_q] (1 # 10000) None (stream 250))
    = Ok (Returned [("p", mkResult (1 # 2) (Some 1) 2 1 250);
                    ("q", mkResult (1 # 2) (Some (-1)) 2 1 250)])).
  { vm_compute. reflexivity. }
  assert (Hin :
    In ("q", mkResult (1 # 2) (Some (-1)) 2 1 250)
      [("p", mkResult (1 # 2) (Some 1) 2 1 250);
       ("q", mkResult (1 # 2) (Some (-1)) 2 1 250)]).
  { right. left. reflexivity. }
  split; [exact Hrun|]. split; [exact Hin|].
  exact (results_report_actual_data ExactArith.kernel ExactArith.log
           ExactArith.csm 0 [1; 3] [2] [stat_p; stat_q] (1 # 10000) None
           (stream 250) _ "q" (mkResult (1 # 2) (Some (-1)) 2 1 250)
           Hrun Hin).
Defined.

Lemma sampler_worker_batch_witness :
  exact_test_sampler_worker._generate_in_parallel_worker Qplus clock
    (map Ok [1; 2; 3; 4; 5]%nat) 10 (2 : Q)
  = Ok (Some [1; 2]%nat)
  /\ (exists rest,
        map Ok [1; 2; 3; 4; 5]%nat = (map Ok [1; 2]%nat ++ rest)%list)
  /\ 1 <= len [1; 2]%nat <= Z.max 1 10
  /\ exact_test_sampler_worker.limit_met Qplus clock 10 (2 : Q) 2 = true
  /\ forall k, (1 <= k < 2)%nat ->
       exact_test_sampler_worker.limit_met Qplus clock 10 (2 : Q) k = false.
Proof.
  assert (Hrun :
    exact_test_sampler_worker._generate_in_parallel_worker Qplus clock
      (map Ok [1; 2; 3; 4; 5]%nat) 10 (2 : Q)
    = Ok (Some [1; 2]%nat)).
  { vm_compute. reflexivity. }
  split; [exact Hrun|].
  exact (sampler_worker_batch nat Qplus clock (map Ok [1; 2; 3; 4; 5]%nat)
           10 (2 : Q) _ Hrun).
Defined.

Lemma sampler_futures_bounded_witness :
  exact_test_sampler._generate_in_parallel 1 readings [turn]
  = ([7; 8; 9]%nat,
     Ok (exact_test_sampler.mkGenerator 20
           [exact_test_sampler.mkFuture 1 tt 10 (5 : Q);
            exact_test_sampler.mkFuture 2 tt 10 (10 : Q);
            exact_test_sampler.mkFuture 3 tt 20 (1 # 100)] 4))
  /\ Forall (fun future =>
               exact_test_sampler.INITIAL_BATCH_SIZE
               <= exact_test_sampler.max_results future <= 20)
       [exact_test_sampler.mkFuture 1 tt 10 (5 : Q);
        exact_test_sampler.mkFuture 2 tt 10 (10 : Q);
        exact_test_sampler.mkFuture 3 tt 20 (1 # 100)]
  /\ 20 <= exact_test_sampler.MAX_BATCH_SIZE.
Proof.
  assert (Hrun :
    exact_test_sampler._generate_in_parallel 1 readings [turn]
    = ([7; 8; 9]%nat,
       Ok (exact_test_sampler.mkGenerator 20
             [exact_test_sampler.mkFuture 1 tt 10 (5 : Q);
              exact_test_sampler.mkFuture 2 tt 10 (10 : Q);
              exact_test_sampler.mkFuture 3 tt 20 (1 # 100)] 4))).
  { vm_compute. reflexivity. }
  split; [exact Hrun|].
  exact (sampler_futures_bounded nat unit 1 readings [turn] _ _ Hrun).
Defined.

Lemma sampler_delay_clamped_witness :
  (flt (exact_test_sampler.MIN_DELAY (F := Q)) exact_test_sampler.MIN_DELAY
   = false
   /\ flt (exact_test_sampler.MAX_DELAY (F := Q))
        exact_test_sampler.MAX_DELAY = false
   /\ flt (exact_test_sampler.MAX_DELAY (F := Q))
        exact_test_sampler.MIN_DELAY = false)
  /\ exact_test_sampler._generate_in_parallel 1 readings [turn]
     = ([7; 8; 9]%nat,
        Ok (exact_test_sampler.mkGenerator 20
              [exact_test_sampler.mkFuture 1 tt 10 (5 : Q);
               exact_test_sampler.mkFuture 2 tt 10 (10 : Q);
               exact_test_sampler.mkFuture 3 tt 20 (1 # 100)] 4))
  /\ Forall (delay_clamped (Args := unit))
       [exact_test_sampler.mkFuture 1 tt 10 (5 : Q);
        exact_test_sampler.mkFuture 2 tt 10 (10 : Q);
        exact_test_sampler.mkFuture 3 tt 20 (1 # 100)].
Proof.
  assert (Hmin :
    flt (exact_test_sampler.MIN_DELAY (F := Q)) exact_test_sampler.MIN_DELAY
    = false) by (vm_compute; reflexivity).
  assert (Hmax :
    flt (exact_test_sampler.MAX_DELAY (F := Q)) exact_test_sampler.MAX_DELAY
    = false) by (vm_compute; reflexivity).
  assert (Horder :
    flt (exact_test_sampler.MAX_DELAY (F := Q)) exact_test_sampler.MIN_DELAY
    = false) by (vm_compute; reflexivity).
  assert (Hrun :
    exact_test_sampler._generate_in_parallel 1 readings [turn]
    = ([7; 8; 9]%nat,
       Ok (exact_test_sampler.mkGenerator 20
             [exact_test_sampler.mkFuture 1 tt 10 (5 : Q);
              exact_test_sampler.mkFuture 2 tt 10 (10 : Q);
              exact_test_sampler.mkFuture 3 tt 20 (1 # 100)] 4))).
  { vm_compute. reflexivity. }
  split; [auto|]. split; [exact Hrun|].
  exact (sampler_delay_clamped nat unit 1 readings [turn] _ _
           Hmin Hmax Horder Hrun).
Defined.


